(** * build.py of windragon: a shallow embedding and its properties

    The build script combines a main PowerShell script with the module
    files it imports, keeps a four-part version in a JSON settings file
    and patches a launcher script.  Every function of [build.py] is
    embedded below under its own name; Python's text, path, JSON and file
    primitives are modelled first. *)

From Stdlib Require Import ZArith NArith Ascii String List Bool Lia.
From Stdlib Require Import DecimalString.
From Stdlib Require DecimalPos DecimalZ.
From stdpp Require Import base option list gmap.

Import ListNotations.
Local Open Scope list_scope.

(** ** Python text *)

(** A Python [str] is a sequence of Unicode code points. *)
Definition pystr : Type := list N.

(** The code points of an ASCII literal. *)
Definition py (s : string) : pystr :=
  map N_of_ascii (list_ascii_of_string s).

Definition LF : N := 10.
Definition CR : N := 13.
Definition HASH : N := 35.
Definition DOT : N := 46.

(** [str.isspace] on one code point; [str.strip], [str.rstrip] and the
    regular-expression class [\s] all use this table. *)
Definition is_space (c : N) : bool :=
  ((0x09 <=? c) && (c <=? 0x0D) || (0x1C <=? c) && (c <=? 0x20)
   || (c =? 0x85) || (c =? 0xA0) || (c =? 0x1680)
   || (0x2000 <=? c) && (c <=? 0x200A)
   || (c =? 0x2028) || (c =? 0x2029) || (c =? 0x202F)
   || (c =? 0x205F) || (c =? 0x3000))%N.

(** [s.lstrip()] *)
Fixpoint lstrip (s : pystr) : pystr :=
  match s with
  | c :: s' => if is_space c then lstrip s' else s
  | [] => []
  end.

(** [s.rstrip()] *)
Fixpoint rstrip (s : pystr) : pystr :=
  match s with
  | c :: s' =>
      match rstrip s' with
      | [] => if is_space c then [] else [c]
      | r => c :: r
      end
  | [] => []
  end.

(** [s.strip()] *)
Definition strip (s : pystr) : pystr := lstrip (rstrip s).

Fixpoint starts_with (p s : pystr) : bool :=
  match p, s with
  | [], _ => true
  | a :: p', b :: s' => (a =? b)%N && starts_with p' s'
  | _ :: _, [] => false
  end.

(** [p in s] for two strings *)
Fixpoint contains (p s : pystr) : bool :=
  starts_with p s ||
  match s with
  | _ :: s' => contains p s'
  | [] => false
  end.

Definition ends_with (p s : pystr) : bool :=
  starts_with (rev p) (rev s).

(** [sep.join(parts)] *)
Fixpoint join (sep : pystr) (parts : list pystr) : pystr :=
  match parts with
  | [] => []
  | [p] => p
  | p :: rest => p ++ sep ++ join sep rest
  end.

(** [re.sub(r"#.*", "", s)]: every [#] starts a match that runs up to,
    and not including, the next line feed ([.] matches any other
    character); the matched text is deleted and the scan goes on. *)
Fixpoint sub_comment (in_comment : bool) (s : pystr) : pystr :=
  match s with
  | [] => []
  | c :: s' =>
      if (c =? LF)%N then c :: sub_comment false s'
      else if in_comment then sub_comment true s'
      else if (c =? HASH)%N then sub_comment true s'
      else c :: sub_comment false s'
  end.

Definition re_sub_comment (s : pystr) : pystr := sub_comment false s.

(** [file.readlines()] on a file opened in text mode with the default
    universal newlines: a line ends after a line feed, after a carriage
    return, or after the pair of them, each read as one line feed; a last
    line without a terminator is returned as it is. *)
Definition push_char (c : N) (ls : list pystr) : list pystr :=
  match ls with
  | [] => [[c]]
  | l :: ls' => (c :: l) :: ls'
  end.

Fixpoint readlines (s : pystr) : list pystr :=
  match s with
  | [] => []
  | c :: s' =>
      if (c =? LF)%N then [LF] :: readlines s'
      else if (c =? CR)%N then
        match s' with
        | d :: s'' =>
            if (d =? LF)%N then [LF] :: readlines s''
            else [LF] :: readlines s'
        | [] => [[LF]]
        end
      else push_char c (readlines s')
  end.

(** ** Values decoded from JSON *)

(** What [json.load] returns: [None], [bool], [int], [str], [list] and
    [dict] objects.  A [dict] keeps its keys in insertion order.  Numbers
    are the integers the settings schema declares: a document with a
    fractional number has no value here, and a statement about a number
    names the integer it is about. *)
#[warnings="-register-all"]
Inductive json : Type :=
| JNull
| JBool (b : bool)
| JInt (z : Z)
| JStr (s : pystr)
| JList (l : list json)
| JDict (kv : list (pystr * json)).

Inductive pyerr : Type :=
| KeyError
| TypeError
| OSError
| JSONDecodeError.

(** The outcome of a Python call: a value, or a raised exception. *)
Inductive result (A : Type) : Type :=
| Ok (a : A)
| Raise (e : pyerr).
Arguments Ok {A} a.
Arguments Raise {A} e.

Fixpoint dict_get (k : pystr) (kv : list (pystr * json)) : option json :=
  match kv with
  | [] => None
  | (k', v) :: kv' => if decide (k = k') then Some v else dict_get k kv'
  end.

(** [d[k] = v] on a dict: an existing key keeps its place, a new key goes
    to the end. *)
Fixpoint dict_set (k : pystr) (v : json) (kv : list (pystr * json))
  : list (pystr * json) :=
  match kv with
  | [] => [(k, v)]
  | (k', v') :: kv' =>
      if decide (k = k') then (k', v) :: kv' else (k', v') :: dict_set k v kv'
  end.

(** [o[k]] with a string key *)
Definition getitem (o : json) (k : pystr) : result json :=
  match o with
  | JDict kv =>
      match dict_get k kv with
      | Some v => Ok v
      | None => Raise KeyError
      end
  | _ => Raise TypeError
  end.

(** [o[k] = v] with a string key *)
Definition setitem (o : json) (k : pystr) (v : json) : result json :=
  match o with
  | JDict kv => Ok (JDict (dict_set k v kv))
  | _ => Raise TypeError
  end.

Definition is_str (s : pystr) (v : json) : bool :=
  match v with
  | JStr s' => bool_decide (s = s')
  | _ => false
  end.

(** [k in o] with a string [k] *)
Definition py_in (k : pystr) (o : json) : result bool :=
  match o with
  | JDict kv => Ok (bool_decide (is_Some (dict_get k kv)))
  | JList l => Ok (existsb (is_str k) l)
  | JStr s => Ok (contains k s)
  | _ => Raise TypeError
  end.

(** The integer an [int] or a [bool] stands for in arithmetic. *)
Definition as_int (v : json) : option Z :=
  match v with
  | JInt z => Some z
  | JBool b => Some (if b then 1 else 0)%Z
  | _ => None
  end.

(** [v >= n] *)
Definition py_ge (v : json) (n : Z) : result bool :=
  match as_int v with
  | Some z => Ok (n <=? z)%Z
  | None => Raise TypeError
  end.

(** [v + n] *)
Definition py_add (v : json) (n : Z) : result json :=
  match as_int v with
  | Some z => Ok (JInt (z + n))
  | None => Raise TypeError
  end.

(** [str(z)] for an [int] *)
Definition str_of_int (z : Z) : pystr :=
  py (NilZero.string_of_int (Z.to_int z)).

(** ** Paths, files and the library functions taken as given *)

(** A path is the list of its components, relative to the working
    directory; the empty list is the working directory itself, a
    directory node of every file system the script runs in. *)
Definition path : Type := list pystr.

(** [p.name] *)
Definition path_name (p : path) : pystr := List.last p [].

(** The standard-library functions whose results depend on the platform
    or on tables outside the script. *)
Class Runtime : Type := {
  (** the components [pathlib] splits a relative path string into *)
  path_parts : pystr -> path;
  (** [str(p)] for a path *)
  path_text : path -> pystr;
  (** [json.load]; [None] when the text is not a JSON document *)
  json_loads : pystr -> option json;
  (** [repr] of a [list] or a [dict] *)
  py_repr : json -> pystr
}.

Inductive node : Type :=
| File (text : pystr)
| Dir.

(** What the script does to the outside, in the order it does it. *)
Inductive event : Type :=
| ERmtree (p : path)
| EMkdir (p : path)
| ERead (p : path)
| EWrite (p : path) (text : pystr)
| EPrint (line : pystr).

Record world : Type := {
  fs : gmap path node;
  trace : list event
}.

Definition log (e : event) (w : world) : world :=
  {| fs := fs w; trace := trace w ++ [e] |}.

Definition set_fs (m : gmap path node) (w : world) : world :=
  {| fs := m; trace := trace w |}.

(** A Python procedure: it changes the world and returns or raises. *)
Definition M (A : Type) : Type := world -> world * result A.

Definition ret {A} (a : A) : M A := fun w => (w, Ok a).

Definition raise {A} (e : pyerr) : M A := fun w => (w, Raise e).

Definition bind {A B} (m : M A) (k : A -> M B) : M B :=
  fun w =>
    match m w with
    | (w', Ok a) => k a w'
    | (w', Raise e) => (w', Raise e)
    end.

Definition lift {A} (r : result A) : M A := fun w => (w, r).

Notation "x <- m ;; k" := (bind m (fun x => k))
  (at level 100, m at next level, right associativity).
Notation "m ;;; k" := (bind m (fun _ => k))
  (at level 100, right associativity).

Definition is_dir (w : world) (p : path) : bool :=
  match fs w !! p with
  | Some Dir => true
  | _ => false
  end.

(** [p.exists()] *)
Definition path_exists (w : world) (p : path) : bool :=
  bool_decide (is_Some (fs w !! p)).

Definition parent (p : path) : path := removelast p.

(** Reading the text of a file: [open(p, "r")] and [read]. *)
Definition read_text (p : path) : M pystr :=
  fun w =>
    match fs w !! p with
    | Some (File t) => (log (ERead p) w, Ok t)
    | _ => (w, Raise OSError)
    end.

(** The world once the text [t] has been written to the file [p]. *)
Definition written (p : path) (t : pystr) (w : world) : world :=
  log (EWrite p t) (set_fs (<[p := File t]> (fs w)) w).

(** Replacing the text of a file: [open(p, "w")] and [write]; the
    directory of the file has to exist. *)
Definition write_text (p : path) (t : pystr) : M unit :=
  fun w =>
    if is_dir w p || negb (is_dir w (parent p)) then (w, Raise OSError)
    else (written p t w, Ok tt).

(** [shutil.rmtree(p)] on a directory: it goes with all below it. *)
Definition under (p q : path) : bool := bool_decide (p `prefix_of` q).

Definition rmtree (p : path) : M unit :=
  fun w =>
    (log (ERmtree p)
       (set_fs (filter (fun e => under p (fst e) = false) (fs w)) w),
     Ok tt).

(** [p.mkdir(parents=True, exist_ok=True)]: every missing directory on
    the way is made; a file in the way is an error. *)
Fixpoint mkdirs (done todo : path) (m : gmap path node)
  : option (gmap path node) :=
  match todo with
  | [] => Some m
  | c :: todo' =>
      let d := done ++ [c] in
      match m !! d with
      | Some (File _) => None
      | Some Dir => mkdirs d todo' m
      | None => mkdirs d todo' (<[d := Dir]> m)
      end
  end.

Definition mkdir_p (p : path) : M unit :=
  fun w =>
    match mkdirs [] p (fs w) with
    | Some m => (log (EMkdir p) (set_fs m w), Ok tt)
    | None => (w, Raise OSError)
    end.

(** [print(line)] *)
Definition print (line : pystr) : M unit :=
  fun w => (log (EPrint line) w, Ok tt).

(** ** Writing JSON and formatting values *)

Definition QUOTE : N := 34.
Definition BACKSLASH : N := 92.
Definition SPACE : N := 32.

Definition hex_digit (n : N) : N :=
  (if n <? 10 then 48 + n else 87 + n)%N.

Definition hex4 (n : N) : pystr :=
  [hex_digit (n / 4096 mod 16); hex_digit (n / 256 mod 16);
   hex_digit (n / 16 mod 16); hex_digit (n mod 16)]%N.

Definition u_escape (n : N) : pystr := BACKSLASH :: 117%N :: hex4 n.

(** One character of a string under [ensure_ascii]. *)
Definition escape_char (c : N) : pystr :=
  (if c =? QUOTE then [BACKSLASH; QUOTE]
   else if c =? BACKSLASH then [BACKSLASH; BACKSLASH]
   else if c =? 8 then [BACKSLASH; 98]
   else if c =? 12 then [BACKSLASH; 102]
   else if c =? 10 then [BACKSLASH; 110]
   else if c =? 13 then [BACKSLASH; 114]
   else if c =? 9 then [BACKSLASH; 116]
   else if (32 <=? c) && (c <=? 126) then [c]
   else if c <? 65536 then u_escape c
   else u_escape (N.lor 55296 (N.land (N.shiftr (c - 65536) 10) 1023))
        ++ u_escape (N.lor 56320 (N.land (c - 65536) 1023)))%N.

Definition encode_str (s : pystr) : pystr :=
  QUOTE :: concat (map escape_char s) ++ [QUOTE].

Definition newline_indent (level : nat) : pystr :=
  LF :: repeat SPACE (2 * level).

(** The text [json.dump(obj, file, indent=2)] writes for [obj]. *)
Fixpoint dumps (level : nat) (v : json) : pystr :=
  match v with
  | JNull => py "null"
  | JBool true => py "true"
  | JBool false => py "false"
  | JInt z => str_of_int z
  | JStr s => encode_str s
  | JList [] => py "[]"
  | JList l =>
      py "[" ++ newline_indent (S level)
      ++ join (py "," ++ newline_indent (S level)) (map (dumps (S level)) l)
      ++ newline_indent level ++ py "]"
  | JDict [] => py "{}"
  | JDict kv =>
      py "{" ++ newline_indent (S level)
      ++ join (py "," ++ newline_indent (S level))
           (map (fun e => match e with
                          | (k, x) => encode_str k ++ py ": " ++ dumps (S level) x
                          end) kv)
      ++ newline_indent level ++ py "}"
  end.

Definition json_dumps (v : json) : pystr := dumps 0 v.

(** ** A runtime for the examples

    Paths split at slashes and backslashes, the way relative Windows
    paths do, and print with backslashes; [json.load] knows the
    documents of a short table; containers print as JSON. *)

Definition is_sep (c : N) : bool := ((c =? 47) || (c =? BACKSLASH))%N.

Fixpoint split_path (cur : pystr) (s : pystr) : list pystr :=
  match s with
  | [] => [rev cur]
  | c :: s' =>
      if is_sep c then rev cur :: split_path [] s'
      else split_path (c :: cur) s'
  end.

Definition real_part (c : pystr) : bool :=
  negb (bool_decide (c = [])) && negb (bool_decide (c = [DOT])).

Definition sample_docs : list json :=
  [ JDict [];
    JDict [(py "defaultSource", JStr (py "E:" ++ [BACKSLASH]))] ].

Definition sample_runtime : Runtime := {|
  path_parts s := filter (fun c => real_part c = true) (split_path [] s);
  path_text p := join [BACKSLASH] p;
  json_loads t := List.find (fun j => bool_decide (json_dumps j = t)) sample_docs;
  py_repr v := json_dumps v
|}.

Section Script.

Context `{Runtime}.

(** The text an f-string puts for a value. *)
Definition py_str (v : json) : pystr :=
  match v with
  | JNull => py "None"
  | JBool true => py "True"
  | JBool false => py "False"
  | JInt z => str_of_int z
  | JStr s => s
  | JList _ | JDict _ => py_repr v
  end.

(** [Path(s)] for a path string *)
Definition Path (s : pystr) : path := path_parts s.

(** [p / s] *)
Definition path_div (p : path) (s : pystr) : path := p ++ path_parts s.

(** ** The functions of build.py *)

Definition read_file (file_path : path) : M (list pystr) :=
  text <- read_text file_path ;;
  ret (readlines text).

Definition show_dragon : pystr := py "Show-Dragon".

(** One turn of the loop of [clean_lines]; the state is the flag
    [inside_ascii_art] and the list [cleaned_lines]. *)
Definition clean_step (st : bool * list pystr) (line : pystr)
  : bool * list pystr :=
  let '(inside_ascii_art, cleaned_lines) := st in
  let inside_ascii_art :=
    if contains show_dragon line then true else inside_ascii_art in
  if inside_ascii_art then
    (if bool_decide (strip line = []) then false else true,
     cleaned_lines ++ [rstrip line])
  else
    let stripped_line := strip (re_sub_comment line) in
    match stripped_line with
    | [] => (inside_ascii_art, cleaned_lines)
    | _ => (inside_ascii_art, cleaned_lines ++ [stripped_line])
    end.

Definition clean_lines (lines : list pystr) : list pystr :=
  snd (fold_left clean_step lines (false, [])).

(** The loop of a [for] statement whose body may raise. *)
Fixpoint for_each {A S} (body : S -> A -> M S) (st : S) (xs : list A)
  : M S :=
  match xs with
  | [] => ret st
  | x :: xs' => st' <- body st x ;; for_each body st' xs'
  end.

Definition exists_ (p : path) : M bool :=
  fun w => (w, Ok (path_exists w p)).

Definition default_version : json :=
  JDict [(py "major", JInt 1); (py "minor", JInt 0);
         (py "patch", JInt 0); (py "build", JInt 0)].

Definition default_settings : json :=
  JDict [(py "defaultSource", JStr (py "D:" ++ [BACKSLASH]));
         (py "defaultDestination",
          JStr (py "B:" ++ [BACKSLASH] ++ py "DayAfter"));
         (py "version", default_version)].

Definition read_settings (settings_file : pystr) : M json :=
  let settings_path := Path settings_file in
  present <- exists_ settings_path ;;
  if negb present then
    let settings := default_settings in
    write_text settings_path (json_dumps settings) ;;;
    ret settings
  else
    text <- read_text settings_path ;;
    match json_loads text with
    | None => raise JSONDecodeError
    | Some settings =>
        has_version <- lift (py_in (py "version") settings) ;;
        if negb has_version then
          lift (setitem settings (py "version") default_version)
        else ret settings
    end.

(** [update_build_number] changes the dict it is given in place; the
    embedding returns the dict as it is after the call. *)
Definition update_build_number (settings_file : pystr) (settings : json)
  : M json :=
  version <- lift (getitem settings (py "version")) ;;
  build <- lift (getitem version (py "build")) ;;
  rollover <- lift (py_ge build 9999) ;;
  settings <-
    (if rollover : bool then
       version <- lift (setitem version (py "build") (JInt 0)) ;;
       patch <- lift (getitem version (py "patch")) ;;
       patch <- lift (py_add patch 1) ;;
       version <- lift (setitem version (py "patch") patch) ;;
       lift (setitem settings (py "version") version)
     else
       build <- lift (py_add build 1) ;;
       version <- lift (setitem version (py "build") build) ;;
       lift (setitem settings (py "version") version)) ;;
  let settings_path := Path settings_file in
  write_text settings_path (json_dumps settings) ;;;
  ret settings.

Definition get_version_string (version : json) : result pystr :=
  match getitem version (py "major") with
  | Raise e => Raise e
  | Ok major =>
  match getitem version (py "minor") with
  | Raise e => Raise e
  | Ok minor =>
  match getitem version (py "patch") with
  | Raise e => Raise e
  | Ok patch =>
  match getitem version (py "build") with
  | Raise e => Raise e
  | Ok build =>
      Ok (py_str major ++ py "." ++ py_str minor ++ py "."
          ++ py_str patch ++ py "." ++ py_str build)
  end end end end.

Definition ensure_directory_exists (directory : pystr) : M unit :=
  mkdir_p (Path directory).

Definition delete_build_directory (directory : pystr) : M unit :=
  let build_path := Path directory in
  fun w =>
    if path_exists w build_path && is_dir w build_path
    then rmtree build_path w
    else (w, Ok tt).

(** [module_pattern.match(line)] for the pattern
    [^\.\s+(.*\\Modules\\.*\.ps1)$]: a dot, one or more white-space
    characters, then the group, then the end of the string or a line feed
    that ends the string.  The group is any text without a line feed that
    ends in [.ps1] and has the segment [\Modules\] before that ending.
    White space is taken greedily; since the group cannot begin inside a
    run of white space unless it can also begin after it, the group
    returned is what follows the whole run. *)
Definition modules_segment : pystr :=
  BACKSLASH :: py "Modules" ++ [BACKSLASH].

Definition ps1 : pystr := py ".ps1".

Definition chomp (s : pystr) : pystr :=
  match rev s with
  | c :: r => if (c =? LF)%N then rev r else s
  | [] => s
  end.

Definition no_line_feed (s : pystr) : bool :=
  forallb (fun c => negb (c =? LF)%N) s.

Definition group_matches (g : pystr) : bool :=
  no_line_feed g && ends_with ps1 g
  && contains modules_segment (take (length g - length ps1) g).

Definition module_match (line : pystr) : option pystr :=
  match line with
  | c :: s :: rest =>
      if (c =? DOT)%N && is_space s then
        let g := chomp (lstrip rest) in
        if group_matches g then Some g else None
      else None
  | _ => None
  end.

Definition function_show_dragon : pystr := py "function Show-Dragon".

(** One turn of the loop of [combine_powershell_scripts]; the state is
    the flag [inside_show_dragon] and the list [combined_script]. *)
Definition combine_step (modules_folder : pystr)
  (st : bool * list pystr) (line : pystr) : M (bool * list pystr) :=
  let '(inside_show_dragon, combined_script) := st in
  let inside_show_dragon :=
    if contains function_show_dragon line then true
    else inside_show_dragon in
  if inside_show_dragon then
    ret (if bool_decide (strip line = []) then false else true,
         combined_script ++ [rstrip line])
  else
    match module_match line with
    | Some module_path =>
        let module_full_path :=
          path_div (Path modules_folder) (path_name (Path module_path)) in
        present <- exists_ module_full_path ;;
        if present : bool then
          module_lines <- read_file module_full_path ;;
          ret (inside_show_dragon, combined_script ++ module_lines)
        else ret (inside_show_dragon, combined_script)
    | None =>
        ret (inside_show_dragon, combined_script ++ clean_lines [line])
    end.

Definition combine_powershell_scripts
  (source_file modules_folder : pystr) (output_file : path) : M unit :=
  ensure_directory_exists (py "build") ;;;
  main_script_lines <- read_file (Path source_file) ;;
  st <- for_each (combine_step modules_folder) (false, [])
          main_script_lines ;;
  let combined_script := snd st in
  let output_path := output_file in
  write_text output_path (join [LF] combined_script).

Definition quoted (s : pystr) : pystr := QUOTE :: s ++ [QUOTE].

(** The triple-quoted block [ps_code_to_insert]: it opens with a line
    feed and ends with the four blanks before the closing quotes. *)
Definition ps_code_to_insert : pystr :=
  join [LF]
    [ [];
      py "    # Define a local temporary file path";
      py "    $tempFilePath = "
        ++ quoted (py "$env:TEMP" ++ [BACKSLASH] ++ py "winDragon.ps1");
      [];
      py "    # Download the script";
      py "    try {";
      py "        Invoke-WebRequest -Uri $winDragonScriptURL -OutFile $tempFilePath -ErrorAction Stop";
      py "        Write-Host "
        ++ quoted (py "WinDragon script downloaded successfully.")
        ++ py " -ForegroundColor Green";
      py "    } catch {";
      py "        Write-Host "
        ++ quoted (py "Failed to download the script: $_")
        ++ py " -ForegroundColor Red";
      py "        exit";
      py "    }";
      py "    $winDragonScriptPath = $tempFilePath";
      py "    " ].

Definition script_path_token : pystr := py "$winDragonScriptPath".

(** The line put in place of the first one that names the variable. *)
Definition url_assignment (output_filename : pystr) : pystr :=
  py "$winDragonScriptPath = "
  ++ quoted
       (py "https://raw.githubusercontent.com/galactic-plane/windragon/main/build/"
        ++ output_filename).

(** One turn of the loop of [update_launcher_script]; the state is the
    flag [found] and the list [updated_lines]. *)
Definition launcher_step (output_filename : pystr)
  (st : bool * list pystr) (line : pystr) : bool * list pystr :=
  let '(found, updated_lines) := st in
  if contains script_path_token line && negb found then
    (true,
     (updated_lines ++ [url_assignment output_filename])
     ++ [ps_code_to_insert])
  else (found, updated_lines ++ [rstrip line]).

(** The list [updated_lines] once the loop is over. *)
Definition updated_lines (output_filename : pystr)
  (launcher_lines : list pystr) : list pystr :=
  snd (fold_left (launcher_step output_filename) launcher_lines
         (false, [])).

Definition update_launcher_script (launcher_file : pystr)
  (output_file : path) : M unit :=
  let output_filename := path_name output_file in
  launcher_lines <- read_file (Path launcher_file) ;;
  let output_launcher_path :=
    path_div (Path (py "build")) (path_name (Path launcher_file)) in
  write_text output_launcher_path
    (join [LF] (updated_lines output_filename launcher_lines)).

Definition source_file : pystr := py "winDragon.ps1".
Definition modules_folder : pystr := py "Modules".
Definition settings_file : pystr := py "settings.json".

(** The body run under [if __name__ == "__main__"]. *)
Definition main : M unit :=
  delete_build_directory (py "build") ;;;
  settings <- read_settings settings_file ;;
  version <- lift (getitem settings (py "version")) ;;
  version_string <- lift (get_version_string version) ;;
  let output_file :=
    path_div (Path (py "build"))
      (py "winDragon_" ++ version_string ++ py ".ps1") in
  combine_powershell_scripts source_file modules_folder output_file ;;;
  settings <- update_build_number settings_file settings ;;
  update_launcher_script (py "launcher.ps1") output_file ;;;
  print (py "Combined script has been saved to " ++ path_text output_file).

End Script.

(** ** Worlds for the examples *)

(** A text given line by line, each line ended by a line feed. *)
Definition text_of (lines : list pystr) : pystr :=
  concat (map (fun l => l ++ [LF]) lines).

Definition import_foo : pystr :=
  py ". C:" ++ [BACKSLASH] ++ py "proj" ++ modules_segment ++ py "Foo.ps1"
  ++ [LF].

Definition import_bar : pystr :=
  py ". C:" ++ [BACKSLASH] ++ py "proj" ++ modules_segment ++ py "Bar.ps1"
  ++ [LF].

Definition main_script_text : pystr :=
  text_of [py "# the main script"; py "$a = 1  # one"] ++ import_foo
  ++ import_bar ++ py "Start-Backup".

Definition foo_text : pystr := text_of [py "X"; py "# c"; py "Y"].

Definition launcher_text : pystr :=
  text_of [py "# launcher  "; py "$winDragonScriptPath = 1";
           py "& $winDragonScriptPath  "].

(** A project directory before its first build: no settings file, no
    output directory, one of the two imported modules present. *)
Definition fresh_project : world := {|
  fs := list_to_map
          [ ([], Dir);
            ([py "Modules"], Dir);
            ([py "winDragon.ps1"], File main_script_text);
            ([py "Modules"; py "Foo.ps1"], File foo_text);
            ([py "launcher.ps1"], File launcher_text) ];
  trace := []
|}.

(** The same project without its launcher script. *)
Definition no_launcher_project : world := {|
  fs := list_to_map
          [ ([], Dir);
            ([py "Modules"], Dir);
            ([py "winDragon.ps1"], File main_script_text);
            ([py "Modules"; py "Foo.ps1"], File foo_text) ];
  trace := []
|}.

(** A project whose main script is one import of a one-line module. *)
Definition one_line_module_project : world := {|
  fs := list_to_map
          [ ([], Dir);
            ([py "Modules"], Dir);
            ([py "winDragon.ps1"], File import_foo);
            ([py "Modules"; py "Foo.ps1"], File (text_of [py "X"])) ];
  trace := []
|}.

(** A project whose main script imports both modules from inside the
    verbatim function; only the first of the two module files exists. *)
Definition verbatim_import_text : pystr :=
  text_of [py "function Show-Dragon {"] ++ import_foo ++ import_bar
  ++ text_of [py "}"; []].

Definition verbatim_import_project : world := {|
  fs := list_to_map
          [ ([], Dir);
            ([py "Modules"], Dir);
            ([py "winDragon.ps1"], File verbatim_import_text);
            ([py "Modules"; py "Foo.ps1"], File foo_text) ];
  trace := []
|}.

(** A project whose settings file holds a source entry and no version. *)
Definition unversioned_project : world := {|
  fs := list_to_map
          [ ([], Dir);
            ([py "settings.json"],
             File (json_dumps
                     (JDict [(py "defaultSource",
                              JStr (py "E:" ++ [BACKSLASH]))]))) ];
  trace := []
|}.

(** The default settings after one build. *)
Definition settings_after_first_build : json :=
  JDict [(py "defaultSource", JStr (py "D:" ++ [BACKSLASH]));
         (py "defaultDestination",
          JStr (py "B:" ++ [BACKSLASH] ++ py "DayAfter"));
         (py "version",
          JDict [(py "major", JInt 1); (py "minor", JInt 0);
                 (py "patch", JInt 0); (py "build", JInt 1)])].

Definition settings_at (patch build : Z) : json :=
  JDict [(py "defaultSource", JStr (py "E:" ++ [BACKSLASH]));
         (py "version",
          JDict [(py "major", JInt 2); (py "minor", JInt 1);
                 (py "patch", JInt patch); (py "build", JInt build)])].

(** A runtime like [sample_runtime] whose [json.load] knows the given
    documents. *)
Definition runtime_with (docs : list json) : Runtime := {|
  path_parts s := filter (fun c => real_part c = true) (split_path [] s);
  path_text p := join [BACKSLASH] p;
  json_loads t := List.find (fun j => bool_decide (json_dumps j = t)) docs;
  py_repr v := json_dumps v
|}.

(** A directory that holds a settings file of the given text and
    nothing else. *)
Definition settings_text_project (text : pystr) : world := {|
  fs := list_to_map [ ([], Dir); ([py "settings.json"], File text) ];
  trace := []
|}.

(** The fresh project after earlier builds: a build directory with an
    old artifact in it. *)
Definition stale_build_project : world := {|
  fs := list_to_map
          [ ([], Dir);
            ([py "Modules"], Dir);
            ([py "build"], Dir);
            ([py "build"; py "winDragon_0.9.0.3.ps1"], File (py "old"));
            ([py "winDragon.ps1"], File main_script_text);
            ([py "Modules"; py "Foo.ps1"], File foo_text);
            ([py "launcher.ps1"], File launcher_text) ];
  trace := []
|}.

(** A directory where a file called [build] is in the way. *)
Definition blocked_build_project : world := {|
  fs := list_to_map [ ([], Dir); ([py "build"], File (py "not a directory")) ];
  trace := []
|}.

(** The value a call returned, for the examples; [JNull] when it raised. *)
Definition snd_ok (run : world * result json) : json :=
  match snd run with
  | Ok v => v
  | Raise _ => JNull
  end.

(** A runtime for POSIX: paths split at slashes only and print with
    slashes; text is written as it is. *)
Fixpoint split_slash (cur : pystr) (s : pystr) : list pystr :=
  match s with
  | [] => [rev cur]
  | c :: s' =>
      if (c =? 47)%N then rev cur :: split_slash [] s'
      else split_slash (c :: cur) s'
  end.

Definition posix_runtime : Runtime := {|
  path_parts s := filter (fun c => real_part c = true) (split_slash [] s);
  path_text p := join [47%N] p;
  json_loads t := List.find (fun j => bool_decide (json_dumps j = t))
                    sample_docs;
  py_repr v := json_dumps v
|}.

(** An import line whose path ends in a slash and the file name, so that
    the name is [Foo.ps1] under POSIX as under Windows. *)
Definition import_sub_foo : pystr :=
  py ". C:" ++ [BACKSLASH] ++ py "proj" ++ modules_segment
  ++ py "sub/Foo.ps1" ++ [LF].

(** A POSIX project whose main script has a line of code, the import of
    a module of three lines, and a last line. *)
Definition posix_project : world := {|
  fs := list_to_map
          [ ([], Dir);
            ([py "Modules"], Dir);
            ([py "winDragon.ps1"],
             File (text_of [py "$a = 1  # one"] ++ import_sub_foo
                   ++ py "Start-Backup"));
            ([py "Modules"; py "Foo.ps1"], File foo_text) ];
  trace := []
|}.

(** A POSIX project whose main script is one import of a one-line
    module. *)
Definition posix_one_line_project : world := {|
  fs := list_to_map
          [ ([], Dir);
            ([py "Modules"], Dir);
            ([py "winDragon.ps1"], File import_sub_foo);
            ([py "Modules"; py "Foo.ps1"], File (text_of [py "X"])) ];
  trace := []
|}.

(** ** Notions used in the statements *)

(** The text of a line before its first [#]. *)
Fixpoint until_hash (s : pystr) : pystr :=
  match s with
  | [] => []
  | c :: s' => if (c =? HASH)%N then [] else c :: until_hash s'
  end.

(** A line as [readlines] gives it: a line feed can only end it. *)
Fixpoint single_line (s : pystr) : bool :=
  match s with
  | [] => true
  | c :: s' =>
      match s' with
      | [] => true
      | _ => negb (c =? LF)%N && single_line s'
      end
  end.

(** What the cleaner emits for a line it treats as ordinary text. *)
Definition cleaned (line : pystr) : list pystr :=
  match strip (until_hash line) with
  | [] => []
  | s => [s]
  end.

(** The flag and the output of the cleaner's loop from a given flag. *)
Definition clean_from (flag : bool) (lines : list pystr)
  : bool * list pystr :=
  fold_left clean_step lines (flag, []).

(** The text of a file as text mode hands it over: every carriage
    return, alone or before a line feed, reads as one line feed. *)
Fixpoint universal_newlines (s : pystr) : pystr :=
  match s with
  | [] => []
  | c :: s' =>
      if (c =? CR)%N then
        match s' with
        | d :: s'' =>
            if (d =? LF)%N then LF :: universal_newlines s''
            else LF :: universal_newlines s'
        | [] => [LF]
        end
      else c :: universal_newlines s'
  end.

(** A line that ends in a line feed. *)
Definition terminated (l : pystr) : bool := ends_with [LF] l.

(** The entry [settings["version"][k]], when both lookups succeed. *)
Definition version_field (k : pystr) (settings : json) : option json :=
  match getitem settings (py "version") with
  | Ok version =>
      match getitem version k with
      | Ok x => Some x
      | Raise _ => None
      end
  | Raise _ => None
  end.

(** The texts the group of the import pattern stands for: no line feed,
    the segment [\Modules\] somewhere, the ending [.ps1] after it. *)
Definition import_path (g : pystr) : Prop :=
  no_line_feed g = true
  /\ exists a b, g = a ++ modules_segment ++ b ++ ps1.

(** The settings [update_build_number] goes on to write, or the
    exception it raises before it writes: its steps up to the write. *)
Definition advanced (settings : json) : result json :=
  match getitem settings (py "version") with
  | Raise e => Raise e
  | Ok version =>
  match getitem version (py "build") with
  | Raise e => Raise e
  | Ok build =>
  match py_ge build 9999 with
  | Raise e => Raise e
  | Ok true =>
      match setitem version (py "build") (JInt 0) with
      | Raise e => Raise e
      | Ok version =>
      match getitem version (py "patch") with
      | Raise e => Raise e
      | Ok patch =>
      match py_add patch 1 with
      | Raise e => Raise e
      | Ok patch =>
      match setitem version (py "patch") patch with
      | Raise e => Raise e
      | Ok version => setitem settings (py "version") version
      end end end end
  | Ok false =>
      match py_add build 1 with
      | Raise e => Raise e
      | Ok build =>
      match setitem version (py "build") build with
      | Raise e => Raise e
      | Ok version => setitem settings (py "version") version
      end end
  end end end.

(** ** Text lemmas *)

Lemma rstrip_snoc_space (s : pystr) (c : N) :
  is_space c = true -> rstrip (s ++ [c]) = rstrip s.
Proof.
  intros Hc. induction s as [|a s IH]; simpl.
  - now rewrite Hc.
  - now rewrite IH.
Qed.

Lemma sub_comment_inside (s : pystr) :
  single_line s = true ->
  sub_comment true s = [] \/ sub_comment true s = [LF].
Proof.
  induction s as [|c s IH]; intros Hs; [now left|].
  simpl in *. destruct s as [|d s'].
  - destruct (N.eqb_spec c LF) as [->|_]; [now right|now left].
  - apply andb_true_iff in Hs as [Hc Hs].
    apply negb_true_iff in Hc. rewrite Hc. now apply IH.
Qed.

Lemma rstrip_sub_comment (s : pystr) :
  single_line s = true ->
  rstrip (re_sub_comment s) = rstrip (until_hash s).
Proof.
  unfold re_sub_comment.
  induction s as [|c s IH]; intros Hs; [reflexivity|].
  assert (Htail : s = [] \/ ((c =? LF)%N = false /\ single_line s = true)).
  { simpl in Hs. destruct s; [now left|right].
    apply andb_true_iff in Hs as [Hc Hs]. now apply negb_true_iff in Hc. }
  destruct Htail as [->|[Hc Hs']].
  - simpl. destruct (c =? LF)%N eqn:E.
    + apply N.eqb_eq in E. subst c. reflexivity.
    + destruct (c =? HASH)%N; reflexivity.
  - cbn [sub_comment until_hash]. rewrite Hc.
    destruct (c =? HASH)%N eqn:E.
    + destruct (sub_comment_inside s Hs') as [-> | ->]; reflexivity.
    + cbn [rstrip]. now rewrite IH.
Qed.

Lemma strip_sub_comment (s : pystr) :
  single_line s = true ->
  strip (re_sub_comment s) = strip (until_hash s).
Proof. intros Hs. unfold strip. now rewrite rstrip_sub_comment. Qed.

Lemma clean_step_acc (st : bool * list pystr) (line : pystr) :
  clean_step st line =
  (fst (clean_step (fst st, []) line),
   snd st ++ snd (clean_step (fst st, []) line)).
Proof.
  destruct st as [flag acc]. unfold clean_step. cbn [fst snd].
  destruct (if contains show_dragon line then true else flag).
  - reflexivity.
  - destruct (strip (re_sub_comment line)); cbn [fst snd];
      [now rewrite app_nil_r|reflexivity].
Qed.

Lemma clean_fold_acc (lines : list pystr) (flag : bool) (acc : list pystr) :
  fold_left clean_step lines (flag, acc) =
  (fst (clean_from flag lines), acc ++ snd (clean_from flag lines)).
Proof.
  unfold clean_from. revert flag acc.
  induction lines as [|l lines IH]; intros flag acc; cbn [fold_left].
  - cbn. now rewrite app_nil_r.
  - rewrite (clean_step_acc (flag, acc)). cbn [fst snd].
    rewrite IH.
    destruct (clean_step (flag, []) l) as [f out] eqn:E. cbn [fst snd].
    rewrite (IH f out). cbn [fst snd]. now rewrite app_assoc.
Qed.

Lemma clean_from_app (flag : bool) (l1 l2 : list pystr) :
  clean_from flag (l1 ++ l2) =
  (fst (clean_from (fst (clean_from flag l1)) l2),
   snd (clean_from flag l1) ++ snd (clean_from (fst (clean_from flag l1)) l2)).
Proof.
  unfold clean_from at 1. rewrite fold_left_app.
  fold (clean_from flag l1).
  destruct (clean_from flag l1) as [f out]. apply clean_fold_acc.
Qed.

Lemma clean_from_cons (flag : bool) (l : pystr) (ls : list pystr) :
  clean_from flag (l :: ls) =
  (fst (clean_from (fst (clean_step (flag, []) l)) ls),
   snd (clean_step (flag, []) l)
   ++ snd (clean_from (fst (clean_step (flag, []) l)) ls)).
Proof.
  unfold clean_from at 1. cbn [fold_left].
  destruct (clean_step (flag, []) l) as [f out]. apply clean_fold_acc.
Qed.

Lemma lstrip_nil (s : pystr) :
  lstrip s = [] -> forallb is_space s = true.
Proof.
  induction s as [|c s IH]; [reflexivity|]. simpl.
  destruct (is_space c); [exact IH|discriminate].
Qed.

Lemma rstrip_all_space (s : pystr) :
  forallb is_space (rstrip s) = true -> forallb is_space s = true.
Proof.
  induction s as [|c s IH]; [reflexivity|]. simpl.
  destruct (rstrip s) as [|d r].
  - destruct (is_space c) eqn:E; simpl.
    + intros _. now apply IH.
    + rewrite E. discriminate.
  - intros Hall. change (forallb is_space (c :: d :: r)) with
      (is_space c && forallb is_space (d :: r)) in Hall.
    apply andb_true_iff in Hall as [-> Hr]. now apply IH.
Qed.

Lemma strip_nil_all_space (s : pystr) :
  strip s = [] -> forallb is_space s = true.
Proof.
  intros Hs. apply rstrip_all_space, lstrip_nil, Hs.
Qed.

Lemma starts_with_head (a : N) (p s : pystr) :
  starts_with (a :: p) s = true -> existsb (N.eqb a) s = true.
Proof.
  destruct s as [|b s]; simpl; [discriminate|].
  intros Hs. apply andb_true_iff in Hs as [-> _]. reflexivity.
Qed.

Lemma contains_head (a : N) (p s : pystr) :
  contains (a :: p) s = true -> existsb (N.eqb a) s = true.
Proof.
  induction s as [|b s IH]; intros Hc.
  - simpl in Hc. discriminate.
  - cbn [contains] in Hc. apply orb_true_iff in Hc as [Hc|Hc].
    + now apply starts_with_head in Hc.
    + simpl. rewrite (IH Hc). apply orb_true_r.
Qed.

Lemma all_space_no_letter (a : N) (s : pystr) :
  is_space a = false -> existsb (N.eqb a) s = true ->
  forallb is_space s = false.
Proof.
  intros Ha. induction s as [|b s IH]; simpl; [discriminate|].
  intros Hex. apply orb_true_iff in Hex as [Hab|Hex].
  - apply N.eqb_eq in Hab. subst b. now rewrite Ha.
  - rewrite (IH Hex). apply andb_false_r.
Qed.

Lemma trigger_not_blank (line : pystr) :
  contains show_dragon line = true -> strip line <> [].
Proof.
  intros Hc Hs. apply strip_nil_all_space in Hs.
  apply contains_head in Hc.
  rewrite (all_space_no_letter 83%N line eq_refl Hc) in Hs. discriminate.
Qed.

Lemma clean_from_verbatim (body : list pystr) :
  Forall (fun l => strip l <> []) body ->
  clean_from true body = (true, map rstrip body).
Proof.
  induction 1 as [|l body Hl _ IH]; [reflexivity|].
  rewrite clean_from_cons. unfold clean_step. cbn [fst snd].
  replace (if contains show_dragon l then true else true) with true
    by now destruct (contains show_dragon l).
  rewrite bool_decide_eq_false_2 by exact Hl. cbn [fst snd].
  now rewrite IH.
Qed.

Lemma clean_step_blank (flag : bool) (blank : pystr) :
  strip blank = [] ->
  clean_step (true, []) blank = (false, [rstrip blank]).
Proof.
  intros Hb. unfold clean_step.
  replace (if contains show_dragon blank then true else true) with true
    by now destruct (contains show_dragon blank).
  now rewrite bool_decide_eq_true_2 by exact Hb.
Qed.

Lemma clean_from_ordinary (rest : list pystr) :
  Forall (fun l => contains show_dragon l = false /\ single_line l = true)
    rest ->
  clean_from false rest = (false, concat (map cleaned rest)).
Proof.
  induction 1 as [|l rest [Hl Hs] _ IH]; [reflexivity|].
  rewrite clean_from_cons. unfold clean_step. rewrite Hl.
  rewrite (strip_sub_comment l Hs). cbn [map concat]. fold (cleaned l).
  unfold cleaned. destruct (strip (until_hash l)); cbn [fst snd];
    now rewrite IH.
Qed.

Lemma push_char_concat (c : N) (ls : list pystr) :
  concat (push_char c ls) = c :: concat ls.
Proof. destruct ls; reflexivity. Qed.

Lemma readlines_concat (s : pystr) :
  concat (readlines s) = universal_newlines s.
Proof.
  induction s as [s IH] using (induction_ltof1 _ (@length N)).
  unfold ltof in IH. destruct s as [|c s]; [reflexivity|].
  cbn [readlines universal_newlines].
  destruct (N.eqb_spec c LF) as [->|Hlf].
  - cbn. now rewrite IH by (simpl; lia).
  - destruct (c =? CR)%N.
    + destruct s as [|d s]; [reflexivity|].
      destruct (d =? LF)%N; cbn [concat app];
        rewrite IH by (simpl; lia); reflexivity.
    + rewrite push_char_concat. now rewrite IH by (simpl; lia).
Qed.

(** Every line [readlines] gives is a line in the sense of
    [single_line]. *)
Lemma readlines_single_line (s : pystr) :
  Forall (fun l => single_line l = true) (readlines s).
Proof.
  induction s as [s IH] using (induction_ltof1 _ (@length N)).
  unfold ltof in IH. destruct s as [|c s]; [constructor|].
  cbn [readlines].
  destruct (c =? LF)%N eqn:Elf.
  { constructor; [reflexivity|]. apply IH. simpl. lia. }
  destruct (c =? CR)%N.
  { destruct s as [|d s]; [repeat constructor|].
    destruct (d =? LF)%N; (constructor; [reflexivity|]);
      apply IH; simpl; lia. }
  assert (Hs : Forall (fun l => single_line l = true) (readlines s))
    by (apply IH; simpl; lia).
  destruct (readlines s) as [|l ls]; cbn [push_char].
  - repeat constructor.
  - inversion Hs as [|? ? Hl Hls]; subst. constructor; [|exact Hls].
    cbn [single_line]. destruct l; [reflexivity|].
    now rewrite Elf, Hl.
Qed.

Lemma terminated_cons (c : N) (l : pystr) :
  l <> [] -> terminated l = true -> terminated (c :: l) = true.
Proof.
  intros Hne. destruct l as [|x l' _] using rev_ind; [congruence|].
  unfold terminated, ends_with. cbn [rev].
  rewrite !rev_app_distr. cbn. trivial.
Qed.

Lemma readlines_shape (s : pystr) :
  Forall (fun l => terminated l = true) (removelast (readlines s))
  /\ Forall (fun l => l <> []) (readlines s).
Proof.
  induction s as [s IH] using (induction_ltof1 _ (@length N)).
  unfold ltof in IH.
  assert (Hlf : forall ls : list pystr,
             Forall (fun l => terminated l = true) (removelast ls) ->
             Forall (fun l => l <> []) ls ->
             Forall (fun l => terminated l = true) (removelast ([LF] :: ls))
             /\ Forall (fun l => l <> []) ([LF] :: ls)).
  { intros ls H1 H2. split; [|constructor; [discriminate|exact H2]].
    destruct ls; [constructor|]. cbn [removelast] in *.
    constructor; [reflexivity|exact H1]. }
  destruct s as [|c s]; [split; constructor|].
  cbn [readlines].
  destruct (c =? LF)%N.
  { apply Hlf; apply IH; simpl; lia. }
  destruct (c =? CR)%N.
  { destruct s as [|d s].
    - split; [constructor|constructor; [discriminate|constructor]].
    - destruct (d =? LF)%N; apply Hlf; apply IH; simpl; lia. }
  destruct (IH s) as [H1 H2]; [simpl; lia|].
  destruct (readlines s) as [|l ls]; cbn [push_char].
  - split; [constructor|constructor; [discriminate|constructor]].
  - inversion H2 as [|? ? Hl Hls]; subst.
    split; [|constructor; [discriminate|exact Hls]].
    destruct ls as [|l2 ls]; [constructor|].
    cbn [removelast] in *. inversion H1 as [|? ? Ht Hts]; subst.
    constructor; [now apply terminated_cons|exact Hts].
Qed.

Lemma join_cons (sep p : pystr) (rest : list pystr) :
  rest <> [] -> join sep (p :: rest) = p ++ sep ++ join sep rest.
Proof. destruct rest; [congruence|reflexivity]. Qed.

Lemma join_snoc (sep p : pystr) (before : list pystr) :
  before <> [] ->
  join sep (before ++ [p]) = join sep before ++ sep ++ p.
Proof.
  induction before as [|x before IH]; [congruence|]. intros _.
  destruct before as [|y before].
  - reflexivity.
  - change ((x :: y :: before) ++ [p]) with (x :: ((y :: before) ++ [p])).
    rewrite join_cons by discriminate.
    rewrite IH by discriminate.
    rewrite (join_cons sep x (y :: before)) by discriminate.
    now rewrite <- !app_assoc.
Qed.

Lemma join_middle (sep p : pystr) (before after : list pystr) :
  after <> [] ->
  join sep (before ++ p :: after)
  = join sep (before ++ [p]) ++ sep ++ join sep after.
Proof.
  intros Hafter. induction before as [|x before IH].
  - cbn [app]. now rewrite join_cons.
  - cbn [app]. rewrite join_cons by (destruct before; discriminate).
    rewrite IH.
    rewrite (join_cons sep x (before ++ [p]))
      by (destruct before; discriminate).
    now rewrite <- !app_assoc.
Qed.

Lemma join_length (sep : pystr) (ls : list pystr) :
  length (join sep ls)
  = length (concat ls) + length sep * (length ls - 1).
Proof.
  induction ls as [|l ls IH]; [simpl; lia|].
  destruct ls as [|l2 ls].
  - cbn [join concat]. rewrite app_nil_r. simpl. lia.
  - rewrite join_cons by discriminate. cbn [concat].
    rewrite !length_app, IH. cbn [concat length]. rewrite !length_app. lia.
Qed.

(** ** The import pattern *)

Lemma lstrip_split (s : pystr) :
  exists ws, s = ws ++ lstrip s /\ forallb is_space ws = true.
Proof.
  induction s as [|c s (ws & Hs & Hws)]; [now exists []|].
  simpl. destruct (is_space c) eqn:E.
  - exists (c :: ws). simpl. rewrite E, Hws. split; [now f_equal|reflexivity].
  - now exists [].
Qed.

Lemma lstrip_app_space (ws s : pystr) :
  forallb is_space ws = true -> lstrip (ws ++ s) = lstrip s.
Proof.
  induction ws as [|c ws IH]; [reflexivity|]. simpl.
  intros Hws. apply andb_true_iff in Hws as [-> Hws]. now apply IH.
Qed.

Lemma lstrip_app_letter (a r : pystr) (c : N) :
  is_space c = false -> lstrip (a ++ c :: r) = lstrip a ++ c :: r.
Proof.
  intros Hc. induction a as [|d a IH]; simpl.
  - now rewrite Hc.
  - now destruct (is_space d).
Qed.

Lemma chomp_split (s : pystr) :
  exists eol, s = chomp s ++ eol /\ (eol = [] \/ eol = [LF]).
Proof.
  unfold chomp. destruct (rev s) as [|c r] eqn:E.
  - exists []. now rewrite app_nil_r; auto.
  - destruct (N.eqb_spec c LF) as [->|_].
    + exists [LF]. split; [|now right].
      rewrite <- (rev_involutive s), E. reflexivity.
    + exists []. now rewrite app_nil_r; auto.
Qed.

Lemma starts_with_split (p s : pystr) :
  starts_with p s = true -> exists r, s = p ++ r.
Proof.
  revert s. induction p as [|a p IH]; intros s; [now exists s|].
  destruct s as [|b s]; simpl; [discriminate|].
  intros Hs. apply andb_true_iff in Hs as [Hab Hs].
  apply N.eqb_eq in Hab. subst b.
  destruct (IH s Hs) as [r ->]. now exists r.
Qed.

Lemma starts_with_app (p r : pystr) : starts_with p (p ++ r) = true.
Proof.
  induction p as [|a p IH]; [reflexivity|]. simpl.
  now rewrite N.eqb_refl.
Qed.

Lemma contains_split (p s : pystr) :
  contains p s = true -> exists a b, s = a ++ p ++ b.
Proof.
  induction s as [|c s IH]; cbn [contains]; intros Hc.
  - rewrite orb_false_r in Hc.
    destruct (starts_with_split _ _ Hc) as [r Hr]. now exists [], r.
  - apply orb_true_iff in Hc as [Hc|Hc].
    + destruct (starts_with_split _ _ Hc) as [r Hr]. now exists [], r.
    + destruct (IH Hc) as (a & b & ->). now exists (c :: a), b.
Qed.

Lemma contains_app (p a b : pystr) : contains p (a ++ p ++ b) = true.
Proof.
  induction a as [|c a IH]; cbn [app].
  - destruct (p ++ b) eqn:E; cbn [contains]; rewrite <- E;
      now rewrite starts_with_app.
  - cbn [contains]. rewrite IH. apply orb_true_r.
Qed.

Lemma ends_with_split (p s : pystr) :
  ends_with p s = true ->
  s = take (length s - length p) s ++ p.
Proof.
  unfold ends_with. intros Hs.
  destruct (starts_with_split _ _ Hs) as [r Hr].
  assert (Hsr : s = rev r ++ p).
  { rewrite <- (rev_involutive s), Hr, rev_app_distr.
    now rewrite rev_involutive. }
  rewrite Hsr at 2. f_equal.
  rewrite Hsr at 2. rewrite Hsr at 1.
  rewrite length_app, Nat.add_sub. now rewrite take_app_length.
Qed.

Lemma ends_with_app (p x : pystr) : ends_with p (x ++ p) = true.
Proof.
  unfold ends_with. rewrite rev_app_distr. apply starts_with_app.
Qed.

Lemma group_matches_import_path (g : pystr) :
  group_matches g = true <-> import_path g.
Proof.
  unfold group_matches, import_path. split.
  - intros Hg. apply andb_true_iff in Hg as [Hg Hseg].
    apply andb_true_iff in Hg as [Hlf Hend]. split; [exact Hlf|].
    destruct (contains_split _ _ Hseg) as (a & b & Hab).
    exists a, b. rewrite (ends_with_split _ _ Hend), Hab.
    now rewrite <- !app_assoc.
  - intros (Hlf & a & b & ->). rewrite Hlf. cbn [andb].
    replace (a ++ modules_segment ++ b ++ ps1)
      with ((a ++ modules_segment ++ b) ++ ps1)
      by now rewrite <- !app_assoc.
    rewrite ends_with_app. cbn [andb].
    rewrite length_app, Nat.add_sub, take_app_length.
    apply contains_app.
Qed.

(** X21: what [module_match] returns is a match of the pattern: the line
    is a dot, one or more white-space characters, the group, and at most
    a closing line feed; the group has no line feed, holds the segment
    [\Modules\] and ends in [.ps1] after it. *)
Lemma module_match_sound (line g : pystr) :
  module_match line = Some g ->
  import_path g
  /\ exists ws eol,
       line = DOT :: ws ++ g ++ eol
       /\ ws <> [] /\ forallb is_space ws = true
       /\ (eol = [] \/ eol = [LF]).
Proof.
  unfold module_match. destruct line as [|c [|s rest]]; try discriminate.
  destruct (N.eqb_spec c DOT) as [->|_]; [|discriminate].
  destruct (is_space s) eqn:Es; [|discriminate]. cbn [andb].
  destruct (group_matches (chomp (lstrip rest))) eqn:Eg; [|discriminate].
  intros Hg. inversion Hg. subst g. clear Hg.
  split; [now apply group_matches_import_path|].
  destruct (lstrip_split rest) as (ws & Hrest & Hws).
  destruct (chomp_split (lstrip rest)) as (eol & Hchomp & Heol).
  exists (s :: ws), eol. split; [|split; [discriminate|split]].
  - cbn [app]. rewrite <- Hchomp, <- Hrest. reflexivity.
  - simpl. now rewrite Es, Hws.
  - exact Heol.
Qed.

Lemma no_line_feed_app (a b : pystr) :
  no_line_feed (a ++ b) = no_line_feed a && no_line_feed b.
Proof. unfold no_line_feed. apply forallb_app. Qed.

Lemma import_path_lstrip (g : pystr) :
  import_path g -> import_path (lstrip g) /\ lstrip g <> [].
Proof.
  intros (Hlf & a & b & ->).
  unfold modules_segment. cbn [app].
  rewrite lstrip_app_letter by reflexivity.
  split; [split|].
  - destruct (lstrip_split a) as (ws & Ha & _).
    rewrite Ha in Hlf. rewrite <- app_assoc, no_line_feed_app in Hlf.
    now apply andb_true_iff in Hlf as [_ Hlf].
  - now exists (lstrip a), b.
  - now destruct (lstrip a).
Qed.

Lemma chomp_import_path (g eol : pystr) :
  import_path g -> eol = [] \/ eol = [LF] -> chomp (g ++ eol) = g.
Proof.
  intros (_ & a & b & ->) Heol. unfold chomp.
  destruct Heol as [-> | ->].
  - rewrite app_nil_r.
    replace (a ++ modules_segment ++ b ++ ps1)
      with ((a ++ modules_segment ++ b) ++ ps1)
      by now rewrite <- !app_assoc.
    rewrite rev_app_distr. reflexivity.
  - rewrite rev_app_distr. cbn [rev app]. rewrite N.eqb_refl.
    apply rev_involutive.
Qed.

(** X22: every line the pattern matches is matched by [module_match]:
    the white space after the dot is taken as far as it goes, so the
    group found is the one written without the white space it may begin
    with. *)
Lemma module_match_complete (ws g eol : pystr) :
  ws <> [] -> forallb is_space ws = true ->
  import_path g ->
  eol = [] \/ eol = [LF] ->
  module_match (DOT :: ws ++ g ++ eol) = Some (lstrip g).
Proof.
  intros Hne Hws Hg Heol. destruct ws as [|s ws]; [congruence|].
  cbn [app forallb] in *. apply andb_true_iff in Hws as [Hs Hws].
  unfold module_match. rewrite N.eqb_refl, Hs. cbn [andb].
  rewrite lstrip_app_space by exact Hws.
  destruct (import_path_lstrip g Hg) as [Hg' _].
  assert (Hl : lstrip (g ++ eol) = lstrip g ++ eol).
  { destruct Hg as (_ & a & b & ->). unfold modules_segment.
    rewrite <- !app_assoc. cbn [app].
    rewrite !lstrip_app_letter by reflexivity.
    rewrite <- (app_assoc (lstrip a)). cbn [app]. f_equal. f_equal.
    now rewrite <- !app_assoc. }
  rewrite Hl, (chomp_import_path _ _ Hg' Heol).
  now rewrite (proj2 (group_matches_import_path _) Hg').
Qed.

(** ** The Line Cleaner *)

(** C6: a line the cleaner handles with the verbatim flag false (the flag
    is false on entry and the line does not hold the trigger) loses
    everything from its first [#] on, is trimmed on both sides, and is
    emitted only when something is left; the flag stays false.  The line
    [foo # bar] gives [foo], the line [# only comment] gives nothing. *)
Theorem clean_step_ordinary_line (acc : list pystr) (line : pystr) :
  contains show_dragon line = false ->
  single_line line = true ->
  clean_step (false, acc) line =
    (false,
     acc ++ match strip (until_hash line) with
            | [] => []
            | text => [text]
            end)
  /\ clean_lines [py "foo # bar"] = [py "foo"]
  /\ clean_lines [py "# only comment"] = [].
Proof.
  intros Hl Hs. split; [|split; reflexivity].
  unfold clean_step. rewrite Hl, (strip_sub_comment line Hs).
  destruct (strip (until_hash line)); [now rewrite app_nil_r|reflexivity].
Qed.

Lemma clean_step_ordinary_line_witness :
  clean_step (false, [py "a"]) (py "  x = 1  # one" ++ [LF]) =
    (false, [py "a"; py "x = 1"]).
Proof.
  exact (proj1 (clean_step_ordinary_line [py "a"]
                  (py "  x = 1  # one" ++ [LF]) eq_refl eq_refl)).
Defined.

Lemma clean_from_block (trigger blank : pystr) (body : list pystr) :
  contains show_dragon trigger = true ->
  Forall (fun l => strip l <> []) body ->
  strip blank = [] ->
  clean_from false (trigger :: body ++ [blank]) =
    (false, map rstrip (trigger :: body ++ [blank])).
Proof.
  intros Ht Hbody Hblank.
  rewrite clean_from_cons. unfold clean_step at 1 2 3. rewrite Ht.
  rewrite bool_decide_eq_false_2 by now apply trigger_not_blank.
  cbn [fst snd]. rewrite clean_from_app, (clean_from_verbatim body Hbody).
  cbn [fst snd]. rewrite clean_from_cons.
  rewrite (clean_step_blank true blank Hblank). cbn [fst snd].
  cbn [clean_from fold_left fst snd].
  rewrite app_nil_r. cbn [map]. now rewrite map_app.
Qed.

(** C7, as the code has it: for a trigger line, then lines that are not
    blank, then a blank line, one call of the cleaner emits all of them
    with only their trailing white space removed and no comment stripped;
    the flag is false again once the blank line is done, and the lines
    after it are cleaned as by a fresh call: they have their comments
    stripped up to the next line that holds the trigger, which opens a
    verbatim block of its own. *)
Theorem clean_lines_banner_block
  (trigger blank : pystr) (body rest : list pystr) :
  contains show_dragon trigger = true ->
  Forall (fun l => strip l <> []) body ->
  strip blank = [] ->
  clean_from false (trigger :: body ++ [blank]) =
    (false, map rstrip (trigger :: body ++ [blank]))
  /\ clean_lines (trigger :: body ++ blank :: rest) =
       map rstrip (trigger :: body ++ [blank]) ++ clean_lines rest
  /\ (forall plain later : list pystr,
        Forall (fun l => contains show_dragon l = false
                         /\ single_line l = true) plain ->
        clean_lines (plain ++ later)
        = concat (map cleaned plain) ++ clean_lines later).
Proof.
  intros Ht Hbody Hblank.
  pose proof (clean_from_block trigger blank body Ht Hbody Hblank) as Hblock.
  split; [exact Hblock|split].
  - unfold clean_lines. fold (clean_from false (trigger :: body ++ blank :: rest)).
    change (trigger :: body ++ blank :: rest)
      with ((trigger :: body) ++ blank :: rest).
    replace ((trigger :: body) ++ blank :: rest)
      with ((trigger :: body ++ [blank]) ++ rest)
      by (cbn [app]; now rewrite <- app_assoc).
    rewrite clean_from_app, Hblock. reflexivity.
  - intros plain later Hplain. unfold clean_lines.
    fold (clean_from false (plain ++ later)). fold (clean_from false later).
    rewrite clean_from_app, (clean_from_ordinary plain Hplain). reflexivity.
Qed.

Lemma clean_lines_banner_block_witness :
  clean_lines [py "Show-Dragon # banner  "; py "  (o o)  # eyes";
               py "   "; py "x = 1 # one"] =
  [py "Show-Dragon # banner"; py "  (o o)  # eyes"; []; py "x = 1"].
Proof.
  refine (eq_trans
            (proj1 (proj2 (clean_lines_banner_block
                             (py "Show-Dragon # banner  ") (py "   ")
                             [py "  (o o)  # eyes"] [py "x = 1 # one"]
                             eq_refl _ eq_refl))) eq_refl).
  repeat constructor. discriminate.
Defined.

(** C7, counterexample: a line after the blank line that holds the
    trigger again is not cleaned of its comment, nor is the line after
    it; only after the next blank line are comments stripped again. *)
Lemma clean_lines_later_trigger_kept_verbatim :
  clean_lines [py "Show-Dragon {"; py "  (o o)  # eyes"; [];
               py "Show-Dragon  # call"; py "x = 1 # one"; [];
               py "y = 2 # two"]
  = [py "Show-Dragon {"; py "  (o o)  # eyes"; [];
     py "Show-Dragon  # call"; py "x = 1 # one"; [];
     py "y = 2"]
  /\ clean_lines [py "Show-Dragon {"; py "  (o o)  # eyes"; [];
                  py "Show-Dragon  # call"; py "x = 1 # one"; [];
                  py "y = 2 # two"]
     <> map rstrip [py "Show-Dragon {"; py "  (o o)  # eyes"; []]
        ++ concat (map cleaned
                     [py "Show-Dragon  # call"; py "x = 1 # one"; [];
                      py "y = 2 # two"]).
Proof.
  split; [reflexivity|].
  intros Heq. vm_compute in Heq. discriminate Heq.
Qed.

(** C5, as the code has it: [clean_lines] takes the lines alone and
    returns the filtered lines alone.  Its flag starts false at every
    call, so when lines are passed one call at a time a line is kept
    verbatim exactly when it holds the trigger itself and is cleaned of
    comments otherwise.  The flag is carried from line to line only
    within one call: a banner block passed in one call, from its trigger
    line to its blank line, comes out verbatim, its trailing white space
    removed. *)
Theorem clean_lines_flag_per_call (lines ls1 ls2 : list pystr) :
  concat (map (fun l => clean_lines [l]) lines) =
    concat (map (fun l => if contains show_dragon l then [rstrip l]
                          else match strip (re_sub_comment l) with
                               | [] => []
                               | text => [text]
                               end) lines)
  /\ (forall (trigger blank : pystr) (body : list pystr),
        contains show_dragon trigger = true ->
        Forall (fun l => strip l <> []) body ->
        strip blank = [] ->
        clean_lines (trigger :: body ++ [blank])
        = map rstrip (trigger :: body ++ [blank]))
  /\ clean_lines (ls1 ++ ls2) =
       clean_lines ls1 ++ snd (clean_from (fst (clean_from false ls1)) ls2).
Proof.
  split; [|split].
  - f_equal. apply map_ext. intros l.
    unfold clean_lines, clean_step. cbn [fold_left].
    destruct (contains show_dragon l); [reflexivity|].
    now destruct (strip (re_sub_comment l)).
  - intros trigger blank body Ht Hbody Hblank. unfold clean_lines.
    fold (clean_from false (trigger :: body ++ [blank])).
    now rewrite (clean_from_block trigger blank body Ht Hbody Hblank).
  - unfold clean_lines. fold (clean_from false (ls1 ++ ls2)).
    fold (clean_from false ls1). now rewrite clean_from_app.
Qed.

Lemma clean_lines_flag_per_call_witness :
  clean_lines (py "Show-Dragon" :: [py "  (o o)  # eyes"] ++ [py "  "])
  = map rstrip (py "Show-Dragon" :: [py "  (o o)  # eyes"] ++ [py "  "]).
Proof.
  apply (proj1 (proj2 (clean_lines_flag_per_call [] [] [])));
    [reflexivity| |reflexivity].
  repeat constructor. discriminate.
Defined.

(** C5, counterexample: a banner block passed one line per call does not
    stay verbatim; its second line loses its comment and its blank line
    is dropped. *)
Lemma clean_lines_flag_not_carried :
  concat (map (fun l => clean_lines [l])
            [py "Show-Dragon"; py "  (o o)  # eyes"; py "  "])
    = [py "Show-Dragon"; py "(o o)"]
  /\ clean_lines [py "Show-Dragon"; py "  (o o)  # eyes"; py "  "]
     = [py "Show-Dragon"; py "  (o o)  # eyes"; []]
  /\ concat (map (fun l => clean_lines [l])
               [py "Show-Dragon"; py "  (o o)  # eyes"; py "  "])
     <> map rstrip [py "Show-Dragon"; py "  (o o)  # eyes"; py "  "].
Proof.
  split; [reflexivity|split; [reflexivity|]].
  intros Heq. vm_compute in Heq. discriminate Heq.
Qed.

(** ** The Launcher Patcher *)






(** ** The Settings Store *)

Lemma dict_get_set_eq (k : pystr) (v : json) (kv : list (pystr * json)) :
  dict_get k (dict_set k v kv) = Some v.
Proof.
  induction kv as [|[k' v'] kv IH]; simpl.
  - now rewrite decide_True.
  - destruct (decide (k = k')) as [->|Hne]; simpl.
    + now rewrite decide_True.
    + now rewrite decide_False.
Qed.

Lemma dict_get_set_ne (k k' : pystr) (v : json) (kv : list (pystr * json)) :
  k <> k' -> dict_get k' (dict_set k v kv) = dict_get k' kv.
Proof.
  intros Hne. induction kv as [|[k0 v0] kv IH]; simpl.
  - now rewrite decide_False by congruence.
  - destruct (decide (k = k0)) as [->|Hk]; simpl.
    + now rewrite !decide_False by congruence.
    + destruct (decide (k' = k0)); [reflexivity|exact IH].
Qed.

Lemma dict_set_absent (k : pystr) (v : json) (kv : list (pystr * json)) :
  dict_get k kv = None -> dict_set k v kv = kv ++ [(k, v)].
Proof.
  induction kv as [|[k0 v0] kv IH]; simpl; [reflexivity|].
  destruct (decide (k = k0)); [discriminate|].
  intros Hk. now rewrite IH.
Qed.

Lemma write_text_ok (p : path) (t : pystr) (w : world) :
  is_dir w p = false -> is_dir w (parent p) = true ->
  write_text p t w = (written p t w, Ok tt).
Proof. intros Hp Hd. unfold write_text. now rewrite Hp, Hd. Qed.

Lemma read_text_ok (p : path) (t : pystr) (w : world) :
  fs w !! p = Some (File t) -> read_text p w = (log (ERead p) w, Ok t).
Proof. intros Hp. unfold read_text. now rewrite Hp. Qed.

Lemma version_field_inv (k : pystr) (s x : json) :
  version_field k s = Some x ->
  exists kv vkv,
    s = JDict kv /\ dict_get (py "version") kv = Some (JDict vkv)
    /\ dict_get k vkv = Some x.
Proof.
  unfold version_field, getitem. intros Hf.
  destruct s as [| | | | |kv]; try discriminate.
  destruct (dict_get (py "version") kv) as [v|] eqn:Ev; [|discriminate].
  destruct v as [| | | | |vkv]; try discriminate.
  destruct (dict_get k vkv) as [y|] eqn:Ek; [|discriminate].
  exists kv, vkv. inversion Hf. subst. auto.
Qed.

Lemma version_field_set (k : pystr) (kv vkv : list (pystr * json)) :
  version_field k (JDict (dict_set (py "version") (JDict vkv) kv))
  = dict_get k vkv.
Proof.
  unfold version_field, getitem. rewrite dict_get_set_eq.
  now destruct (dict_get k vkv).
Qed.

Lemma version_field_dict (k : pystr) (kv vkv : list (pystr * json)) :
  dict_get (py "version") kv = Some (JDict vkv) ->
  version_field k (JDict kv) = dict_get k vkv.
Proof.
  intros Hv. unfold version_field, getitem. rewrite Hv.
  now destruct (dict_get k vkv).
Qed.

Lemma getitem_set_ne (k k' : pystr) (v : json) (kv : list (pystr * json)) :
  k <> k' -> getitem (JDict (dict_set k v kv)) k' = getitem (JDict kv) k'.
Proof. intros Hne. unfold getitem. now rewrite dict_get_set_ne. Qed.

Section Properties.

Context `{Runtime}.

(** C1: on settings whose [version.build] stands for an integer below
    9999, [update_build_number] adds one to it and changes no other entry
    of the version, the patch included; on settings whose [version.build]
    is 9999 or more it sets [build] to 0 and adds one to
    [version.patch]; either way the whole settings object, so changed, is
    then written over the settings file. *)
Theorem update_build_number_advance
  (f : pystr) (s bv : json) (b : Z) (w : world) :
  version_field (py "build") s = Some bv ->
  as_int bv = Some b ->
  is_dir w (Path f) = false ->
  is_dir w (parent (Path f)) = true ->
  ((b < 9999)%Z ->
   exists s',
     update_build_number f s w = (written (Path f) (json_dumps s') w, Ok s')
     /\ version_field (py "build") s' = Some (JInt (b + 1))
     /\ (forall k, k <> py "build" ->
         version_field k s' = version_field k s)
     /\ (forall k, k <> py "version" -> getitem s' k = getitem s k))
  /\ ((9999 <= b)%Z ->
      forall (pv : json) (p : Z),
        version_field (py "patch") s = Some pv ->
        as_int pv = Some p ->
        exists s',
          update_build_number f s w
            = (written (Path f) (json_dumps s') w, Ok s')
          /\ version_field (py "build") s' = Some (JInt 0)
          /\ version_field (py "patch") s' = Some (JInt (p + 1))
          /\ (forall k, k <> py "build" -> k <> py "patch" ->
              version_field k s' = version_field k s)
          /\ (forall k, k <> py "version" -> getitem s' k = getitem s k)).
Proof.
  intros Hb Hbv Hfile Hdir.
  destruct (version_field_inv _ _ _ Hb) as (kv & vkv & -> & Hv & Hbuild).
  split.
  - intros Hlt.
    exists (JDict (dict_set (py "version")
                     (JDict (dict_set (py "build") (JInt (b + 1)) vkv)) kv)).
    split; [|split; [|split]].
    + unfold update_build_number, bind, lift, ret, getitem, py_ge, py_add,
        setitem. rewrite Hv, Hbuild, Hbv.
      replace (9999 <=? b)%Z with false by (symmetry; apply Z.leb_gt; lia).
      now rewrite write_text_ok.
    + rewrite version_field_set. apply dict_get_set_eq.
    + intros k Hk. rewrite version_field_set, (version_field_dict k kv vkv Hv).
      apply dict_get_set_ne. congruence.
    + intros k Hk. apply getitem_set_ne. congruence.
  - intros Hge pv p Hp Hpv.
    rewrite (version_field_dict _ kv vkv Hv) in Hp.
    exists (JDict (dict_set (py "version")
                     (JDict (dict_set (py "patch") (JInt (p + 1))
                               (dict_set (py "build") (JInt 0) vkv))) kv)).
    split; [|split; [|split; [|split]]].
    + unfold update_build_number, bind, lift, ret, getitem, py_ge, py_add,
        setitem. rewrite Hv, Hbuild, Hbv.
      replace (9999 <=? b)%Z with true by (symmetry; apply Z.leb_le; lia).
      rewrite (dict_get_set_ne (py "build") (py "patch")) by discriminate.
      rewrite Hp, Hpv. now rewrite write_text_ok.
    + rewrite version_field_set.
      rewrite dict_get_set_ne by discriminate. apply dict_get_set_eq.
    + rewrite version_field_set. apply dict_get_set_eq.
    + intros k Hk1 Hk2.
      rewrite version_field_set, (version_field_dict k kv vkv Hv).
      rewrite !dict_get_set_ne by congruence. reflexivity.
    + intros k Hk. apply getitem_set_ne. congruence.
Qed.

(** C9: when the settings file is absent, [read_settings] writes the
    default object to it and returns that object; when the file holds a
    JSON object without the key [version], [read_settings] returns the
    object as parsed, its entries unchanged and in place, with the
    default version block added. *)
Theorem read_settings_defaults (f : pystr) (w : world) :
  let defaults :=
    JDict [(py "defaultSource", JStr (py "D:" ++ [BACKSLASH]));
           (py "defaultDestination",
            JStr (py "B:" ++ [BACKSLASH] ++ py "DayAfter"));
           (py "version",
            JDict [(py "major", JInt 1); (py "minor", JInt 0);
                   (py "patch", JInt 0); (py "build", JInt 0)])] in
  (path_exists w (Path f) = false ->
   is_dir w (parent (Path f)) = true ->
   read_settings f w
     = (written (Path f) (json_dumps defaults) w, Ok defaults))
  /\ (forall (text : pystr) (kv : list (pystr * json)),
        fs w !! Path f = Some (File text) ->
        json_loads text = Some (JDict kv) ->
        dict_get (py "version") kv = None ->
        read_settings f w
          = (log (ERead (Path f)) w,
             Ok (JDict (kv ++ [(py "version",
                                JDict [(py "major", JInt 1);
                                       (py "minor", JInt 0);
                                       (py "patch", JInt 0);
                                       (py "build", JInt 0)])])))).
Proof.
  intros defaults. split.
  - intros Habsent Hdir.
    unfold read_settings, bind, exists_, ret. rewrite Habsent. cbn [negb].
    rewrite write_text_ok; [reflexivity| |exact Hdir].
    unfold path_exists in Habsent. unfold is_dir.
    destruct (fs w !! Path f) as [n|] eqn:E; [|reflexivity].
    rewrite bool_decide_eq_true_2 in Habsent by eauto. discriminate.
  - intros text kv Hfile Hload Hnone.
    unfold read_settings, bind, exists_, ret, lift, path_exists.
    rewrite Hfile, bool_decide_eq_true_2 by eauto. cbn [negb].
    rewrite (read_text_ok _ _ _ Hfile), Hload.
    unfold py_in. rewrite Hnone.
    rewrite bool_decide_eq_false_2 by (intros [x Hx]; discriminate).
    cbn [negb setitem]. now rewrite (dict_set_absent _ _ _ Hnone).
Qed.

(** ** The Script Combiner *)

(** C3, as the code has it: a line of the main script that matches the
    import pattern and is met outside the verbatim block (the verbatim
    flag is false and the line does not start the verbatim function),
    when the file of that name in the module directory exists, has all
    the lines of that file appended as they were read: nothing is cleaned
    or trimmed, nothing in them is looked at, and put end to end they are
    the text of the file. *)
Theorem combine_step_inlines_module
  (mf line g text : pystr) (combined : list pystr) (w : world) :
  contains function_show_dragon line = false ->
  module_match line = Some g ->
  fs w !! path_div (Path mf) (path_name (Path g)) = Some (File text) ->
  combine_step mf (false, combined) line w
    = (log (ERead (path_div (Path mf) (path_name (Path g)))) w,
       Ok (false, combined ++ readlines text))
  /\ concat (readlines text) = universal_newlines text.
Proof.
  intros Hfun Hmatch Hfile. split.
  - unfold combine_step. rewrite Hfun, Hmatch.
    unfold read_file, bind, exists_, ret, path_exists.
    rewrite Hfile, bool_decide_eq_true_2 by eauto.
    now rewrite (read_text_ok _ _ _ Hfile).
  - apply readlines_concat.
Qed.

(** C4, as the code has it: a line that matches the import pattern and
    is met outside the verbatim block, when no file of that name exists
    in the module directory, raises nothing and leaves the combined
    script, the flag, the files and the record of what the script did as
    they were: the run goes on as if the line were not there. *)
Theorem combine_step_skips_missing_module
  (mf line g : pystr) (combined : list pystr) (post : list pystr)
  (w : world) :
  contains function_show_dragon line = false ->
  module_match line = Some g ->
  path_exists w (path_div (Path mf) (path_name (Path g))) = false ->
  combine_step mf (false, combined) line w = (w, Ok (false, combined))
  /\ for_each (combine_step mf) (false, combined) (line :: post) w
     = for_each (combine_step mf) (false, combined) post w.
Proof.
  intros Hfun Hmatch Habsent.
  assert (Hstep : combine_step mf (false, combined) line w
                  = (w, Ok (false, combined))).
  { unfold combine_step. rewrite Hfun, Hmatch.
    unfold bind, exists_, ret. now rewrite Habsent. }
  split; [exact Hstep|].
  cbn [for_each]. unfold bind at 1. now rewrite Hstep.
Qed.

(** ** What a run does, step by step *)

Lemma bind_ok {A B} (m : M A) (k : A -> M B) (w w' : world) (b : B) :
  bind m k w = (w', Ok b) ->
  exists w1 a, m w = (w1, Ok a) /\ k a w1 = (w', Ok b).
Proof.
  unfold bind. destruct (m w) as [w1 [a|e]]; [|discriminate].
  intros Hk. now exists w1, a.
Qed.

Lemma lift_ok {A} (r : result A) (w w' : world) (a : A) :
  lift r w = (w', Ok a) -> w' = w /\ r = Ok a.
Proof. unfold lift. intros Hl. inversion Hl. now subst. Qed.

Lemma write_text_trace (p : path) (t : pystr) (w w' : world) (u : unit) :
  write_text p t w = (w', Ok u) -> trace w' = trace w ++ [EWrite p t].
Proof.
  unfold write_text.
  destruct (is_dir w p || negb (is_dir w (parent p))); [discriminate|].
  intros Hw. inversion Hw. reflexivity.
Qed.

Lemma read_text_trace (p : path) (w w' : world) (t : pystr) :
  read_text p w = (w', Ok t) ->
  trace w' = trace w ++ [ERead p] /\ fs w !! p = Some (File t).
Proof.
  unfold read_text. destruct (fs w !! p) as [[t'|]|]; try discriminate.
  intros Hr. inversion Hr. subst. split; reflexivity.
Qed.

Lemma read_file_trace (p : path) (w w' : world) (ls : list pystr) :
  read_file p w = (w', Ok ls) ->
  exists text, ls = readlines text /\ trace w' = trace w ++ [ERead p]
               /\ fs w !! p = Some (File text).
Proof.
  unfold read_file. intros Hr.
  apply bind_ok in Hr as (w1 & text & Hread & Hret).
  unfold ret in Hret. inversion Hret. subst.
  apply read_text_trace in Hread as [Ht Hf]. now exists text.
Qed.

Lemma delete_build_directory_trace (d : pystr) (w : world) :
  exists w1 del,
    delete_build_directory d w = (w1, Ok tt)
    /\ (del = [] \/ del = [ERmtree (Path d)])
    /\ trace w1 = trace w ++ del.
Proof.
  unfold delete_build_directory.
  destruct (path_exists w (Path d) && is_dir w (Path d)).
  - eexists _, [ERmtree (Path d)]. split; [reflexivity|].
    split; [now right|reflexivity].
  - exists w, []. split; [reflexivity|]. split; [now left|].
    now rewrite app_nil_r.
Qed.

Lemma read_settings_trace (f : pystr) (w w' : world) (s : json) :
  read_settings f w = (w', Ok s) ->
  trace w' = trace w ++ [ERead (Path f)]
  \/ trace w' = trace w ++ [EWrite (Path f) (json_dumps s)].
Proof.
  unfold read_settings. intros Hr.
  apply bind_ok in Hr as (w1 & present & Hex & Hr).
  unfold exists_ in Hex. inversion Hex. subst w1. clear Hex.
  destruct (negb present).
  - right. apply bind_ok in Hr as (w1 & u & Hw & Hret).
    unfold ret in Hret. inversion Hret. subst.
    now apply write_text_trace in Hw.
  - left. apply bind_ok in Hr as (w1 & text & Hread & Hr).
    apply read_text_trace in Hread as [Ht _].
    destruct (json_loads text) as [s0|]; [|discriminate].
    apply bind_ok in Hr as (w2 & has & Hin & Hr).
    apply lift_ok in Hin as [-> _].
    destruct (negb has).
    + apply lift_ok in Hr as [-> _]. exact Ht.
    + unfold ret in Hr. inversion Hr. subst. exact Ht.
Qed.

Lemma combine_step_trace (mf : pystr) (st st' : bool * list pystr)
  (line : pystr) (w w' : world) :
  combine_step mf st line w = (w', Ok st') ->
  exists mods, trace w' = trace w ++ map ERead mods.
Proof.
  destruct st as [flag combined]. unfold combine_step.
  destruct (if contains function_show_dragon line then true else flag).
  { unfold ret. intros Hs. inversion Hs. exists []. cbn.
    now rewrite app_nil_r. }
  destruct (module_match line) as [g|].
  - intros Hs. apply bind_ok in Hs as (w1 & present & Hex & Hs).
    unfold exists_ in Hex. inversion Hex. subst w1. clear Hex.
    destruct present.
    + apply bind_ok in Hs as (w1 & ls & Hread & Hret).
      unfold ret in Hret. inversion Hret. subst.
      apply read_file_trace in Hread as (text & _ & Ht & _).
      now exists [path_div (Path mf) (path_name (Path g))].
    + unfold ret in Hs. inversion Hs. exists []. cbn.
      now rewrite app_nil_r.
  - unfold ret. intros Hs. inversion Hs. exists []. cbn.
    now rewrite app_nil_r.
Qed.

Lemma combine_loop_trace (mf : pystr) (lines : list pystr)
  (st st' : bool * list pystr) (w w' : world) :
  for_each (combine_step mf) st lines w = (w', Ok st') ->
  exists mods, trace w' = trace w ++ map ERead mods.
Proof.
  revert st w. induction lines as [|l lines IH]; intros st w; cbn [for_each].
  - unfold ret. intros Hs. inversion Hs. exists []. cbn.
    now rewrite app_nil_r.
  - intros Hs. apply bind_ok in Hs as (w1 & st1 & Hstep & Hrest).
    apply combine_step_trace in Hstep as (m1 & H1).
    apply IH in Hrest as (m2 & H2).
    exists (m1 ++ m2). rewrite H2, H1, map_app. now rewrite <- app_assoc.
Qed.

Lemma combine_powershell_scripts_trace
  (src mf : pystr) (out : path) (w w' : world) :
  combine_powershell_scripts src mf out w = (w', Ok tt) ->
  exists mods entries,
    trace w' = trace w ++ [EMkdir (Path (py "build")); ERead (Path src)]
               ++ map ERead mods ++ [EWrite out (join [LF] entries)].
Proof.
  unfold combine_powershell_scripts, ensure_directory_exists. intros Hc.
  apply bind_ok in Hc as (w1 & u & Hmk & Hc).
  apply bind_ok in Hc as (w2 & ls & Hread & Hc).
  apply bind_ok in Hc as (w3 & st & Hloop & Hw).
  unfold mkdir_p in Hmk.
  destruct (mkdirs [] (Path (py "build")) (fs w)); [|discriminate].
  inversion Hmk. subst w1. clear Hmk.
  apply read_file_trace in Hread as (text & _ & Ht2 & _).
  apply combine_loop_trace in Hloop as (mods & Ht3).
  apply write_text_trace in Hw.
  exists mods, (snd st). rewrite Hw, Ht3, Ht2. cbn [log trace set_fs].
  now rewrite <- !app_assoc.
Qed.

Lemma update_launcher_script_trace
  (launcher : pystr) (out : path) (w w' : world) :
  update_launcher_script launcher out w = (w', Ok tt) ->
  exists text,
    fs w !! Path launcher = Some (File text)
    /\ trace w' =
       trace w ++
       [ERead (Path launcher);
        EWrite (path_div (Path (py "build")) (path_name (Path launcher)))
          (join [LF] (updated_lines (path_name out) (readlines text)))].
Proof.
  unfold update_launcher_script. intros Hu.
  apply bind_ok in Hu as (w1 & ls & Hread & Hw).
  apply read_file_trace in Hread as (text & -> & Ht & Hf).
  apply write_text_trace in Hw. exists text. split; [exact Hf|].
  rewrite Hw, Ht. now rewrite <- app_assoc.
Qed.

Lemma update_build_number_trace (f : pystr) (s s' : json) (w w' : world) :
  update_build_number f s w = (w', Ok s') ->
  trace w' = trace w ++ [EWrite (Path f) (json_dumps s')]
  /\ exists bv b,
       version_field (py "build") s = Some bv /\ as_int bv = Some b
       /\ version_field (py "build") s'
          = Some (JInt (if (9999 <=? b)%Z then 0 else b + 1)).
Proof.
  unfold update_build_number. intros Hu.
  apply bind_ok in Hu as (w1 & version & Hv & Hu).
  apply lift_ok in Hv as [-> Hv].
  apply bind_ok in Hu as (w1 & build & Hb & Hu).
  apply lift_ok in Hb as [-> Hb].
  apply bind_ok in Hu as (w1 & rollover & Hge & Hu).
  apply lift_ok in Hge as [-> Hge].
  apply bind_ok in Hu as (w1 & s1 & Hs1 & Hu).
  apply bind_ok in Hu as (w2 & u & Hw & Hret).
  unfold ret in Hret. inversion Hret. subst w2 s1. clear Hret.
  apply write_text_trace in Hw.
  unfold py_ge in Hge. destruct (as_int build) as [b|] eqn:Eb; [|discriminate].
  inversion Hge. subst rollover. clear Hge.
  assert (Hfield : version_field (py "build") s = Some build).
  { unfold version_field. rewrite Hv, Hb. reflexivity. }
  destruct (version_field_inv _ _ _ Hfield) as (kv & vkv & -> & Hkv & Hvkv).
  unfold getitem in Hv. rewrite Hkv in Hv. inversion Hv. subst version.
  assert (Hw1 : w1 = w /\ version_field (py "build") s'
                         = Some (JInt (if (9999 <=? b)%Z then 0 else b + 1))).
  { destruct (9999 <=? b)%Z.
    - apply bind_ok in Hs1 as (w3 & v1 & H1 & Hs1).
      apply lift_ok in H1 as [-> H1]. cbn [setitem] in H1. inversion H1.
      subst v1. clear H1.
      apply bind_ok in Hs1 as (w3 & patch & H2 & Hs1).
      apply lift_ok in H2 as [-> _].
      apply bind_ok in Hs1 as (w3 & patch' & H3 & Hs1).
      apply lift_ok in H3 as [-> _].
      apply bind_ok in Hs1 as (w3 & v2 & H4 & Hs1).
      apply lift_ok in H4 as [-> H4]. cbn [setitem] in H4. inversion H4.
      subst v2. clear H4.
      apply lift_ok in Hs1 as [-> Hs1]. cbn [setitem] in Hs1.
      inversion Hs1. split; [reflexivity|].
      rewrite version_field_set.
      rewrite dict_get_set_ne by discriminate. apply dict_get_set_eq.
    - apply bind_ok in Hs1 as (w3 & build' & H1 & Hs1).
      apply lift_ok in H1 as [-> H1]. unfold py_add in H1.
      rewrite Eb in H1. inversion H1. subst build'. clear H1.
      apply bind_ok in Hs1 as (w3 & v1 & H2 & Hs1).
      apply lift_ok in H2 as [-> H2]. cbn [setitem] in H2. inversion H2.
      subst v1. clear H2.
      apply lift_ok in Hs1 as [-> Hs1]. cbn [setitem] in Hs1.
      inversion Hs1. split; [reflexivity|].
      rewrite version_field_set. apply dict_get_set_eq. }
  destruct Hw1 as [-> Hnew]. split; [exact Hw|].
  exists build, b. auto.
Qed.

Lemma write_text_returns (p : path) (t : pystr) (w w' : world) (u : unit) :
  write_text p t w = (w', Ok u) -> w' = written p t w.
Proof.
  unfold write_text.
  destruct (is_dir w p || negb (is_dir w (parent p))); [discriminate|].
  intros Hw. now inversion Hw.
Qed.

(** A call of the Combiner that returns: the directory is made, the main
    script is read, the loop runs over its lines, and the entries it
    ends with are written, joined by line feeds. *)
Lemma combine_powershell_scripts_returns
  (src mf : pystr) (out : path) (w w' : world) :
  combine_powershell_scripts src mf out w = (w', Ok tt) ->
  exists (m : gmap path node) (text : pystr) (st : bool * list pystr)
         (w2 : world),
    mkdirs [] (Path (py "build")) (fs w) = Some m
    /\ m !! Path src = Some (File text)
    /\ for_each (combine_step mf) (false, []) (readlines text)
         (log (ERead (Path src))
            (log (EMkdir (Path (py "build"))) (set_fs m w)))
       = (w2, Ok st)
    /\ w' = written out (join [LF] (snd st)) w2.
Proof.
  unfold combine_powershell_scripts, ensure_directory_exists. intros Hc.
  apply bind_ok in Hc as (w1 & u & Hmk & Hc).
  apply bind_ok in Hc as (w2 & ls & Hread & Hc).
  apply bind_ok in Hc as (w3 & st & Hloop & Hw).
  unfold mkdir_p in Hmk.
  destruct (mkdirs [] (Path (py "build")) (fs w)) as [m|] eqn:Em;
    [|discriminate].
  inversion Hmk. subst w1. clear Hmk.
  unfold read_file in Hread.
  apply bind_ok in Hread as (w2' & text & Hread & Hret).
  unfold ret in Hret. inversion Hret. subst w2' ls. clear Hret.
  unfold read_text in Hread. cbn [log set_fs fs] in Hread.
  destruct (m !! Path src) as [[t|]|] eqn:Esrc; try discriminate.
  inversion Hread. subst w2 t. clear Hread.
  apply write_text_returns in Hw.
  exists m, text, st, w3. repeat split; assumption.
Qed.

(** The steps of a run that ends well, one after the other. *)
Lemma main_steps (w w' : world) :
  main w = (w', Ok tt) ->
  exists (w1 w2 w3 w4 w5 : world) (settings settings' version : json)
         (version_string : pystr),
    let output_file :=
      path_div (Path (py "build"))
        (py "winDragon_" ++ version_string ++ py ".ps1") in
    delete_build_directory (py "build") w = (w1, Ok tt)
    /\ read_settings settings_file w1 = (w2, Ok settings)
    /\ getitem settings (py "version") = Ok version
    /\ get_version_string version = Ok version_string
    /\ combine_powershell_scripts source_file modules_folder output_file w2
       = (w3, Ok tt)
    /\ update_build_number settings_file settings w3 = (w4, Ok settings')
    /\ update_launcher_script (py "launcher.ps1") output_file w4
       = (w5, Ok tt)
    /\ w' = log (EPrint (py "Combined script has been saved to "
                         ++ path_text output_file)) w5.
Proof.
  unfold main. intros Hm.
  apply bind_ok in Hm as (w1 & u1 & Hdel & Hm). destruct u1.
  apply bind_ok in Hm as (w2 & settings & Hload & Hm).
  apply bind_ok in Hm as (w3 & version & Hver & Hm).
  apply lift_ok in Hver as [-> Hver].
  apply bind_ok in Hm as (w3 & version_string & Hvs & Hm).
  apply lift_ok in Hvs as [-> Hvs].
  apply bind_ok in Hm as (w3 & u3 & Hcomb & Hm). destruct u3.
  apply bind_ok in Hm as (w4 & settings' & Hadv & Hm).
  apply bind_ok in Hm as (w5 & u5 & Hpatch & Hprint). destruct u5.
  unfold print in Hprint. inversion Hprint.
  exists w1, w2, w3, w4, w5, settings, settings', version, version_string.
  cbn zeta. repeat split; assumption.
Qed.

(** C2, as the code has it: a run that ends well has deleted the output
    directory when there was one, loaded the settings, computed the
    version string from the settings it loaded, run the Combiner, which
    wrote the artifact named with that version string, then advanced the
    build number of the loaded settings and written them, then run the
    Patcher with the file name of that same artifact, then printed the
    output path.  The build number is advanced before the Patcher runs,
    and the artifact is named after the version as loaded, before the
    advance. *)
Theorem main_order (w w' : world) :
  main w = (w', Ok tt) ->
  exists (w1 w2 w3 w4 w5 : world) (del load : list event)
         (settings settings' version : json)
         (version_string artifact launcher_text : pystr)
         (mods : list path) (build : json) (b : Z),
    let output_file :=
      path_div (Path (py "build"))
        (py "winDragon_" ++ version_string ++ py ".ps1") in
    delete_build_directory (py "build") w = (w1, Ok tt)
    /\ read_settings settings_file w1 = (w2, Ok settings)
    /\ getitem settings (py "version") = Ok version
    /\ get_version_string version = Ok version_string
    /\ combine_powershell_scripts source_file modules_folder output_file w2
       = (w3, Ok tt)
    /\ fs w3 !! output_file = Some (File artifact)
    /\ update_build_number settings_file settings w3 = (w4, Ok settings')
    /\ update_launcher_script (py "launcher.ps1") output_file w4
       = (w5, Ok tt)
    /\ w' = log (EPrint (py "Combined script has been saved to "
                         ++ path_text output_file)) w5
    /\ (del = [] \/ del = [ERmtree (Path (py "build"))])
    /\ (load = [ERead (Path settings_file)]
        \/ load = [EWrite (Path settings_file) (json_dumps settings)])
    /\ version_field (py "build") settings = Some build
    /\ as_int build = Some b
    /\ version_field (py "build") settings'
       = Some (JInt (if (9999 <=? b)%Z then 0 else b + 1))
    /\ trace w' =
       trace w ++ del ++ load
       ++ [EMkdir (Path (py "build")); ERead (Path source_file)]
       ++ map ERead mods
       ++ [EWrite output_file artifact;
           EWrite (Path settings_file) (json_dumps settings');
           ERead (Path (py "launcher.ps1"));
           EWrite (path_div (Path (py "build"))
                     (path_name (Path (py "launcher.ps1"))))
             (join [LF]
                (updated_lines (path_name output_file)
                   (readlines launcher_text)));
           EPrint (py "Combined script has been saved to "
                   ++ path_text output_file)].
Proof.
  intros Hm.
  destruct (main_steps _ _ Hm)
    as (w1 & w2 & w3 & w4 & w5 & settings & settings' & version
        & version_string & Hdel & Hload & Hver & Hvs & Hcomb & Hadv
        & Hpatch & Hw').
  cbn zeta in *.
  destruct (delete_build_directory_trace (py "build") w)
    as (w1' & del & Hdel' & Hdel_shape & Htr1).
  rewrite Hdel in Hdel'. inversion Hdel'. subst w1'. clear Hdel'.
  destruct (combine_powershell_scripts_returns _ _ _ _ _ Hcomb)
    as (m & text & st & w2' & Hmk & Hsrc & Hloop & Hw3).
  pose proof (combine_loop_trace _ _ _ _ _ _ Hloop) as (mods & Htr3).
  destruct (update_build_number_trace _ _ _ _ _ Hadv)
    as (Htr4 & build & b & Hbuild & Hb & Hnew).
  destruct (update_launcher_script_trace _ _ _ _ Hpatch)
    as (launcher_text & _ & Htr5).
  assert (Hload_tr :
            exists load,
              (load = [ERead (Path settings_file)]
               \/ load = [EWrite (Path settings_file) (json_dumps settings)])
              /\ trace w2 = trace w1 ++ load).
  { destruct (read_settings_trace _ _ _ _ Hload) as [Htr2|Htr2];
      eexists; (split; [|exact Htr2]); auto. }
  destruct Hload_tr as (load & Hload_shape & Htr2).
  exists w1, w2, w3, w4, w5, del, load, settings, settings', version,
    version_string, (join [LF] (snd st)), launcher_text, mods, build, b.
  cbn zeta.
  repeat (split; [assumption|]).
  split; [rewrite Hw3; apply lookup_insert_eq|].
  repeat (split; [assumption|]).
  rewrite Hw'. cbn [log trace]. rewrite Htr5, Htr4, Hw3.
  cbn [written log set_fs trace]. rewrite Htr3. cbn [log set_fs trace].
  rewrite Htr2, Htr1. now rewrite <- !app_assoc.
Qed.

End Properties.

(** ** The theorems at work on the example worlds *)

Lemma update_build_number_advance_witness :
  (exists s',
     @update_build_number sample_runtime settings_file
       (settings_at 7 9998)%Z fresh_project
     = (written [py "settings.json"] (json_dumps s') fresh_project, Ok s')
     /\ version_field (py "build") s' = Some (JInt 9999)
     /\ version_field (py "patch") s' = Some (JInt 7))
  /\ (exists s',
        @update_build_number sample_runtime settings_file
          (settings_at 7 9999)%Z fresh_project
        = (written [py "settings.json"] (json_dumps s') fresh_project, Ok s')
        /\ version_field (py "build") s' = Some (JInt 0)
        /\ version_field (py "patch") s' = Some (JInt 8)).
Proof.
  split.
  - destruct (proj1 (@update_build_number_advance sample_runtime
                       settings_file (settings_at 7 9998)%Z (JInt 9998) 9998%Z
                       fresh_project eq_refl eq_refl eq_refl eq_refl)
                eq_refl) as (s' & Hrun & Hbuild & Hrest & _).
    exists s'. split; [exact Hrun|]. split; [exact Hbuild|].
    rewrite (Hrest (py "patch")) by discriminate. reflexivity.
  - destruct (proj2 (@update_build_number_advance sample_runtime
                       settings_file (settings_at 7 9999)%Z (JInt 9999) 9999%Z
                       fresh_project eq_refl eq_refl eq_refl eq_refl)
                ltac:(discriminate) (JInt 7) 7%Z eq_refl eq_refl)
      as (s' & Hrun & Hbuild & Hpatch & _).
    exists s'. auto.
Defined.

Lemma read_settings_defaults_witness :
  @read_settings sample_runtime settings_file fresh_project
    = (written [py "settings.json"] (json_dumps default_settings)
         fresh_project,
       Ok default_settings)
  /\ @read_settings sample_runtime settings_file unversioned_project
     = (log (ERead [py "settings.json"]) unversioned_project,
        Ok (JDict [(py "defaultSource", JStr (py "E:" ++ [BACKSLASH]));
                   (py "version", default_version)])).
Proof.
  split.
  - exact (proj1 (@read_settings_defaults sample_runtime settings_file
                    fresh_project) eq_refl eq_refl).
  - exact (proj2 (@read_settings_defaults sample_runtime settings_file
                    unversioned_project)
             (json_dumps
                (JDict [(py "defaultSource", JStr (py "E:" ++ [BACKSLASH]))]))
             [(py "defaultSource", JStr (py "E:" ++ [BACKSLASH]))]
             eq_refl eq_refl eq_refl).
Defined.

Lemma combine_step_inlines_module_witness :
  @combine_step sample_runtime modules_folder (false, [py "$a = 1"])
    import_foo fresh_project
  = (log (ERead [py "Modules"; py "Foo.ps1"]) fresh_project,
     Ok (false, [py "$a = 1"; py "X" ++ [LF]; py "# c" ++ [LF];
                 py "Y" ++ [LF]])).
Proof.
  exact (proj1 (@combine_step_inlines_module sample_runtime modules_folder
                  import_foo
                  (py "C:" ++ [BACKSLASH] ++ py "proj" ++ modules_segment
                   ++ py "Foo.ps1")
                  foo_text [py "$a = 1"] fresh_project
                  eq_refl eq_refl eq_refl)).
Defined.

Lemma combine_step_skips_missing_module_witness :
  @combine_step sample_runtime modules_folder (false, [py "$a = 1"])
    import_bar fresh_project
  = (fresh_project, Ok (false, [py "$a = 1"])).
Proof.
  exact (proj1 (@combine_step_skips_missing_module sample_runtime
                  modules_folder import_bar
                  (py "C:" ++ [BACKSLASH] ++ py "proj" ++ modules_segment
                   ++ py "Bar.ps1")
                  [py "$a = 1"] [] fresh_project
                  eq_refl eq_refl eq_refl)).
Defined.

Lemma main_order_witness :
  let w' := fst (@main sample_runtime fresh_project) in
  exists (w1 w2 w3 w4 w5 : world) (del load : list event)
         (settings settings' version : json)
         (version_string artifact launcher_text : pystr)
         (mods : list path) (build : json) (b : Z),
    let output_file :=
      @path_div sample_runtime (@Path sample_runtime (py "build"))
        (py "winDragon_" ++ version_string ++ py ".ps1") in
    @delete_build_directory sample_runtime (py "build") fresh_project
      = (w1, Ok tt)
    /\ @read_settings sample_runtime settings_file w1 = (w2, Ok settings)
    /\ getitem settings (py "version") = Ok version
    /\ @get_version_string sample_runtime version = Ok version_string
    /\ @combine_powershell_scripts sample_runtime source_file modules_folder
         output_file w2
       = (w3, Ok tt)
    /\ fs w3 !! output_file = Some (File artifact)
    /\ @update_build_number sample_runtime settings_file settings w3
       = (w4, Ok settings')
    /\ @update_launcher_script sample_runtime (py "launcher.ps1")
         output_file w4
       = (w5, Ok tt)
    /\ w' = log (EPrint (py "Combined script has been saved to "
                         ++ @path_text sample_runtime output_file)) w5
    /\ (del = [] \/ del = [ERmtree (@Path sample_runtime (py "build"))])
    /\ (load = [ERead (@Path sample_runtime settings_file)]
        \/ load = [EWrite (@Path sample_runtime settings_file)
                     (json_dumps settings)])
    /\ version_field (py "build") settings = Some build
    /\ as_int build = Some b
    /\ version_field (py "build") settings'
       = Some (JInt (if (9999 <=? b)%Z then 0 else b + 1))
    /\ trace w' =
       trace fresh_project ++ del ++ load
       ++ [EMkdir (@Path sample_runtime (py "build"));
           ERead (@Path sample_runtime source_file)]
       ++ map ERead mods
       ++ [EWrite output_file artifact;
           EWrite (@Path sample_runtime settings_file)
             (json_dumps settings');
           ERead (@Path sample_runtime (py "launcher.ps1"));
           EWrite (@path_div sample_runtime
                     (@Path sample_runtime (py "build"))
                     (path_name (@Path sample_runtime (py "launcher.ps1"))))
             (join [LF]
                (updated_lines (path_name output_file)
                   (readlines launcher_text)));
           EPrint (py "Combined script has been saved to "
                   ++ @path_text sample_runtime output_file)].
Proof.
  apply (@main_order sample_runtime fresh_project).
  vm_compute. reflexivity.
Defined.

(** C2, counterexample: the Patcher does not run before the build number
    is advanced.  In a run that ends well the advanced settings are
    written just before the launcher is read; in a project without a
    launcher script the run fails in the Patcher, and the settings file
    already holds the advanced build number. *)
Lemma main_advances_before_patching :
  let good := @main sample_runtime fresh_project in
  let bad := @main sample_runtime no_launcher_project in
  snd good = Ok tt
  /\ trace (fst good) !! 5%nat
     = Some (EWrite [py "settings.json"]
               (json_dumps settings_after_first_build))
  /\ trace (fst good) !! 6%nat = Some (ERead [py "launcher.ps1"])
  /\ snd bad = Raise OSError
  /\ fs (fst bad) !! [py "settings.json"]
     = Some (File (json_dumps settings_after_first_build))
  /\ fs (fst bad) !! [py "build"; py "launcher.ps1"] = None.
Proof. vm_compute. repeat split. Qed.

(** C3, counterexample: an import line inside the verbatim function
    matches the import pattern and its module file exists, yet the lines
    of the module are not put in; the import line is copied instead. *)
Lemma import_inside_verbatim_block_not_inlined :
  let run := @combine_powershell_scripts sample_runtime source_file
               modules_folder [py "build"; py "out.ps1"]
               verbatim_import_project in
  module_match import_foo
    = Some (py "C:" ++ [BACKSLASH] ++ py "proj" ++ modules_segment
            ++ py "Foo.ps1")
  /\ fs verbatim_import_project !! [py "Modules"; py "Foo.ps1"]
     = Some (File foo_text)
  /\ snd run = Ok tt
  /\ fs (fst run) !! [py "build"; py "out.ps1"]
     = Some (File (join [LF]
                     [py "function Show-Dragon {"; rstrip import_foo;
                      rstrip import_bar; py "}"; []]))
  /\ trace (fst run)
     = [EMkdir [py "build"]; ERead [py "winDragon.ps1"];
        EWrite [py "build"; py "out.ps1"]
          (join [LF]
             [py "function Show-Dragon {"; rstrip import_foo;
              rstrip import_bar; py "}"; []])].
Proof. vm_compute. repeat split. Qed.

(** C4, counterexample: an import line inside the verbatim function
    whose module file does not exist is not dropped; it is one of the
    entries of the combined script. *)
Lemma missing_import_inside_verbatim_block_emitted :
  module_match import_bar
    = Some (py "C:" ++ [BACKSLASH] ++ py "proj" ++ modules_segment
            ++ py "Bar.ps1")
  /\ path_exists verbatim_import_project [py "Modules"; py "Bar.ps1"]
     = false
  /\ @for_each _ _ (@combine_step sample_runtime modules_folder)
       (false, []) (readlines verbatim_import_text) verbatim_import_project
     = (verbatim_import_project,
        Ok (false,
            [py "function Show-Dragon {"; rstrip import_foo;
             rstrip import_bar; py "}"; []]))
  /\ rstrip import_bar
     = py ". C:" ++ [BACKSLASH] ++ py "proj" ++ modules_segment
       ++ py "Bar.ps1".
Proof. vm_compute. repeat split. Qed.

(** * Further properties of the functions of build.py *)

(** ** What the Line Cleaner emits *)

Lemma rstrip_idem (s : pystr) : rstrip (rstrip s) = rstrip s.
Proof.
  induction s as [|c s IH]; [reflexivity|]. cbn [rstrip].
  destruct (rstrip s) as [|d r] eqn:E.
  - destruct (is_space c) eqn:Ec; [reflexivity|]. simpl. now rewrite Ec.
  - change (rstrip (c :: d :: r))
      with (match rstrip (d :: r) with
            | [] => if is_space c then [] else [c]
            | x => c :: x
            end).
    now rewrite IH.
Qed.

Lemma rstrip_fixed_tail (c : N) (s : pystr) :
  rstrip (c :: s) = c :: s -> rstrip s = s.
Proof.
  cbn [rstrip]. destruct (rstrip s) as [|d r].
  - destruct (is_space c); [discriminate|]. intros Hs. now inversion Hs.
  - intros Hs. now inversion Hs.
Qed.

Lemma rstrip_lstrip_fixed (s : pystr) :
  rstrip s = s -> rstrip (lstrip s) = lstrip s.
Proof.
  induction s as [|c s IH]; [reflexivity|]. intros Hs. cbn [lstrip].
  destruct (is_space c); [|exact Hs].
  apply IH. now apply rstrip_fixed_tail in Hs.
Qed.

Lemma rstrip_strip (s : pystr) : rstrip (strip s) = strip s.
Proof. unfold strip. apply rstrip_lstrip_fixed, rstrip_idem. Qed.

Lemma lstrip_idem (s : pystr) : lstrip (lstrip s) = lstrip s.
Proof.
  induction s as [|c s IH]; [reflexivity|]. simpl.
  destruct (is_space c) eqn:E; [exact IH|]. simpl. now rewrite E.
Qed.

Lemma strip_idem (s : pystr) : strip (strip s) = strip s.
Proof.
  unfold strip at 1. rewrite rstrip_strip. unfold strip.
  apply lstrip_idem.
Qed.

Lemma lstrip_Forall (P : N -> Prop) (s : pystr) :
  Forall P s -> Forall P (lstrip s).
Proof.
  induction 1 as [|c s Hc Hs IH]; [constructor|]. simpl.
  destruct (is_space c); [exact IH|now constructor].
Qed.

Lemma rstrip_Forall (P : N -> Prop) (s : pystr) :
  Forall P s -> Forall P (rstrip s).
Proof.
  induction 1 as [|c s Hc Hs IH]; [constructor|]. cbn [rstrip].
  destruct (rstrip s).
  - destruct (is_space c); [constructor|now repeat constructor].
  - now constructor.
Qed.

Lemma sub_comment_no_hash (b : bool) (s : pystr) :
  Forall (fun c => c <> HASH) (sub_comment b s).
Proof.
  revert b. induction s as [|c s IH]; intros b; [constructor|].
  cbn [sub_comment]. destruct (N.eqb_spec c LF) as [->|_].
  - constructor; [discriminate|apply IH].
  - destruct b; [apply IH|].
    destruct (N.eqb_spec c HASH) as [->|Hc]; [apply IH|].
    constructor; [exact Hc|apply IH].
Qed.

Lemma clean_from_emits (P : pystr -> Prop) (flag : bool)
  (lines : list pystr) :
  (forall f l, Forall P (snd (clean_step (f, []) l))) ->
  Forall P (snd (clean_from flag lines)).
Proof.
  intros Hstep. revert flag.
  induction lines as [|l lines IH]; intros flag; [constructor|].
  rewrite clean_from_cons. cbn [snd]. apply Forall_app. split.
  - apply Hstep.
  - apply IH.
Qed.

Lemma clean_from_length (flag : bool) (lines : list pystr) :
  length (snd (clean_from flag lines)) <= length lines.
Proof.
  revert flag. induction lines as [|l lines IH]; intros flag;
    [simpl; lia|].
  rewrite clean_from_cons. cbn [snd]. rewrite length_app.
  specialize (IH (fst (clean_step (flag, []) l))).
  assert (length (snd (clean_step (flag, []) l)) <= 1).
  { unfold clean_step.
    destruct (if contains show_dragon l then true else flag);
      [simpl; lia|].
    destruct (strip (re_sub_comment l)); simpl; lia. }
  change (length (l :: lines)) with (S (length lines)). lia.
Qed.

(** X1: whatever lines [clean_lines] is given, no line it returns ends
    in white space, and it returns no more lines than it was given. *)
Theorem clean_lines_right_stripped (lines : list pystr) :
  Forall (fun l => rstrip l = l) (clean_lines lines)
  /\ length (clean_lines lines) <= length lines.
Proof.
  split; [|apply clean_from_length].
  unfold clean_lines. fold (clean_from false lines).
  apply clean_from_emits. intros f l. unfold clean_step.
  destruct (if contains show_dragon l then true else f); cbn [snd app].
  - constructor; [apply rstrip_idem|constructor].
  - destruct (strip (re_sub_comment l)) as [|c r] eqn:E; cbn [snd app];
      [constructor|].
    constructor; [|constructor]. rewrite <- E. apply rstrip_strip.
Qed.

Lemma clean_from_plain_emits (P : pystr -> Prop) (lines : list pystr) :
  Forall (fun l => contains show_dragon l = false) lines ->
  (forall l, strip (re_sub_comment l) <> [] ->
             P (strip (re_sub_comment l))) ->
  clean_from false lines
  = (false, snd (clean_from false lines))
  /\ Forall P (snd (clean_from false lines)).
Proof.
  intros Hlines HP.
  induction Hlines as [|l lines Hl _ [IHf IH]]; [split; [reflexivity|constructor]|].
  rewrite clean_from_cons. unfold clean_step. rewrite Hl.
  destruct (strip (re_sub_comment l)) as [|c r] eqn:E; cbn [fst snd app].
  - split; [now rewrite IHf at 1|exact IH].
  - split; [now rewrite IHf at 1|].
    constructor; [|exact IH]. rewrite <- E. apply HP. now rewrite E.
Qed.

(** X2: when no line given to [clean_lines] holds the banner trigger,
    every line it returns is non-empty, has no white space at either end
    and holds no [#]. *)
Theorem clean_lines_plain_output (lines : list pystr) :
  Forall (fun l => contains show_dragon l = false) lines ->
  Forall (fun l => l <> [] /\ strip l = l /\ Forall (fun c => c <> HASH) l)
    (clean_lines lines).
Proof.
  intros Hlines. unfold clean_lines. fold (clean_from false lines).
  apply (clean_from_plain_emits _ lines Hlines).
  intros l Hne. split; [exact Hne|split; [apply strip_idem|]].
  unfold strip. apply lstrip_Forall, rstrip_Forall, sub_comment_no_hash.
Qed.

Lemma clean_lines_plain_output_witness :
  Forall (fun l => l <> [] /\ strip l = l /\ Forall (fun c => c <> HASH) l)
    (clean_lines [py "  $a = 1  # one"; py "# only"; py "Start-Backup  "]).
Proof.
  apply clean_lines_plain_output. repeat constructor.
Defined.

(** ** What the Script Combiner does to lines and to files *)

Lemma bind_inv {A B} (m : M A) (k : A -> M B) (w w' : world)
  (r : result B) :
  bind m k w = (w', r) ->
  (exists w1 a, m w = (w1, Ok a) /\ k a w1 = (w', r))
  \/ (exists e, m w = (w', Raise e) /\ r = Raise e).
Proof.
  unfold bind. destruct (m w) as [w1 [a|e]]; intros Hk.
  - left. now exists w1, a.
  - right. inversion Hk. now exists e.
Qed.

Lemma for_each_app {A S} (body : S -> A -> M S) (st : S)
  (l1 l2 : list A) (w : world) :
  for_each body st (l1 ++ l2) w
  = bind (for_each body st l1) (fun st' => for_each body st' l2) w.
Proof.
  revert st w. induction l1 as [|x l1 IH]; intros st w; [reflexivity|].
  cbn [app for_each]. unfold bind.
  destruct (body st x w) as [w1 [st1|e]]; [|reflexivity].
  rewrite IH. reflexivity.
Qed.

Lemma function_start_not_blank (line : pystr) :
  contains function_show_dragon line = true -> strip line <> [].
Proof.
  intros Hc Hs. apply strip_nil_all_space in Hs.
  apply contains_head in Hc.
  rewrite (all_space_no_letter 102%N line eq_refl Hc) in Hs. discriminate.
Qed.

Lemma read_text_fs (p : path) (w w' : world) (r : result pystr) :
  read_text p w = (w', r) -> fs w' = fs w.
Proof.
  unfold read_text. destruct (fs w !! p) as [[t|]|];
    intros Hr; inversion Hr; reflexivity.
Qed.

Lemma write_text_fs (p : path) (t : pystr) (w w' : world)
  (r : result unit) :
  write_text p t w = (w', r) ->
  (r = Ok tt /\ fs w' = <[p := File t]> (fs w)
   /\ is_dir w p = false /\ is_dir w (parent p) = true)
  \/ (r = Raise OSError /\ w' = w).
Proof.
  unfold write_text. destruct (is_dir w p) eqn:E1; cbn [orb].
  - intros Hw. inversion Hw. now right.
  - destruct (is_dir w (parent p)) eqn:E2; cbn [negb];
      intros Hw; inversion Hw; [left|now right].
    repeat split; reflexivity.
Qed.

Lemma mkdirs_adds_directories (todo done : path)
  (m m' : gmap path node) :
  mkdirs done todo m = Some m' ->
  forall p, m' !! p = m !! p \/ (m !! p = None /\ m' !! p = Some Dir).
Proof.
  revert done m. induction todo as [|c todo IH]; intros done m; cbn [mkdirs].
  - intros Hm p. inversion Hm. now left.
  - destruct (m !! (done ++ [c])) as [[t|]|] eqn:E; [discriminate| |].
    + apply IH.
    + intros Hm p. destruct (IH _ _ Hm p) as [Hp|[Hp1 Hp2]].
      * destruct (decide (p = done ++ [c])) as [->|Hne].
        -- right. split; [exact E|].
           rewrite Hp. apply lookup_insert_eq.
        -- left. rewrite Hp. now apply lookup_insert_ne.
      * right. split; [|exact Hp2].
        destruct (decide (p = done ++ [c])) as [->|Hne].
        -- exact E.
        -- now rewrite lookup_insert_ne in Hp1.
Qed.

Lemma mkdirs_files (todo done : path) (m m' : gmap path node)
  (p : path) (t : pystr) :
  mkdirs done todo m = Some m' ->
  m' !! p = Some (File t) <-> m !! p = Some (File t).
Proof.
  intros Hm. destruct (mkdirs_adds_directories _ _ _ _ Hm p)
    as [Hp|[Hp1 Hp2]].
  - now rewrite Hp.
  - rewrite Hp1, Hp2. split; discriminate.
Qed.

Section Combiner.

Context `{Runtime}.

Lemma combine_step_fs (mf : pystr) (st : bool * list pystr)
  (line : pystr) (w w' : world) (r : result (bool * list pystr)) :
  combine_step mf st line w = (w', r) -> fs w' = fs w.
Proof.
  destruct st as [flag combined]. unfold combine_step.
  destruct (if contains function_show_dragon line then true else flag).
  { unfold ret. intros Hs. now inversion Hs. }
  destruct (module_match line) as [g|].
  - set (p := path_div (Path mf) (path_name (Path g))).
    unfold read_file, bind, exists_, ret.
    destruct (path_exists w p).
    + destruct (read_text p w) as [w1 [t|e]] eqn:E;
        intros Hs; inversion Hs; subst; now apply read_text_fs in E.
    + intros Hs. now inversion Hs.
  - unfold ret. intros Hs. now inversion Hs.
Qed.

Lemma combine_loop_fs (mf : pystr) (lines : list pystr)
  (st : bool * list pystr) (w w' : world)
  (r : result (bool * list pystr)) :
  for_each (combine_step mf) st lines w = (w', r) -> fs w' = fs w.
Proof.
  revert st w. induction lines as [|l lines IH]; intros st w; cbn [for_each].
  - unfold ret. intros Hs. now inversion Hs.
  - intros Hs. apply bind_inv in Hs
      as [(w1 & st1 & Hstep & Hrest)|(e & Hstep & _)].
    + apply combine_step_fs in Hstep. apply IH in Hrest. congruence.
    + now apply combine_step_fs in Hstep.
Qed.

Lemma combine_loop_verbatim (mf : pystr) (body acc : list pystr)
  (w : world) :
  Forall (fun l => strip l <> []) body ->
  for_each (combine_step mf) (true, acc) body w
  = (w, Ok (true, acc ++ map rstrip body)).
Proof.
  intros Hbody. revert acc.
  induction Hbody as [|l body Hl _ IH]; intros acc; cbn [for_each map].
  - unfold ret. now rewrite app_nil_r.
  - unfold bind, combine_step, ret.
    replace (if contains function_show_dragon l then true else true)
      with true by now destruct (contains function_show_dragon l).
    rewrite bool_decide_eq_false_2 by exact Hl.
    rewrite IH. now rewrite <- app_assoc.
Qed.

(** X3: in the Combiner, the lines from one that holds
    [function Show-Dragon] to the next blank line are copied with only
    their trailing white space removed, import lines among them too; no
    file is read for them, and the verbatim flag is false again after
    the blank line. *)
Theorem combine_verbatim_block
  (mf start blank : pystr) (body acc : list pystr) (flag : bool)
  (w : world) :
  contains function_show_dragon start = true ->
  Forall (fun l => strip l <> []) body ->
  strip blank = [] ->
  for_each (combine_step mf) (flag, acc) (start :: body ++ [blank]) w
  = (w, Ok (false, acc ++ map rstrip (start :: body ++ [blank]))).
Proof.
  intros Hstart Hbody Hblank. cbn [for_each].
  unfold bind at 1. unfold combine_step at 1. rewrite Hstart.
  rewrite bool_decide_eq_false_2 by now apply function_start_not_blank.
  unfold ret at 1. rewrite for_each_app. unfold bind at 1.
  rewrite (combine_loop_verbatim mf body _ w Hbody).
  cbn [for_each]. unfold bind, combine_step, ret.
  replace (if contains function_show_dragon blank then true else true)
    with true by now destruct (contains function_show_dragon blank).
  rewrite bool_decide_eq_true_2 by exact Hblank.
  cbn [map]. rewrite map_app. cbn [map]. now rewrite <- !app_assoc.
Qed.

(** X4: on lines that neither hold [function Show-Dragon] nor match the
    import pattern, met with the verbatim flag false, the Combiner reads
    no file and adds to the combined script what [clean_lines] gives for
    each line on its own. *)
Theorem combine_plain_lines
  (mf : pystr) (lines acc : list pystr) (w : world) :
  Forall (fun l => contains function_show_dragon l = false
                   /\ module_match l = None) lines ->
  for_each (combine_step mf) (false, acc) lines w
  = (w, Ok (false,
            acc ++ concat (map (fun l => clean_lines [l]) lines))).
Proof.
  intros Hlines. revert acc.
  induction Hlines as [|l lines [Hf Hm] _ IH]; intros acc;
    cbn [for_each map concat].
  - unfold ret. now rewrite app_nil_r.
  - unfold bind, combine_step, ret. rewrite Hf, Hm.
    rewrite IH. now rewrite <- app_assoc.
Qed.

(** X5: a call of [combine_powershell_scripts] that returns has made the
    build directory, read the main script, run the loop over its lines
    and written the entries the loop ended with, joined by line feeds, to
    the output file; it has neither changed nor removed nor created any
    other file: the main script and the modules are as they were. *)
Theorem combine_powershell_scripts_files
  (src mf : pystr) (out : path) (w w' : world) :
  combine_powershell_scripts src mf out w = (w', Ok tt) ->
  (exists (m : gmap path node) (text : pystr) (st : bool * list pystr)
          (w2 : world),
     mkdirs [] (Path (py "build")) (fs w) = Some m
     /\ fs w !! Path src = Some (File text)
     /\ for_each (combine_step mf) (false, []) (readlines text)
          (log (ERead (Path src))
             (log (EMkdir (Path (py "build"))) (set_fs m w)))
        = (w2, Ok st)
     /\ fs w' = <[out := File (join [LF] (snd st))]> m)
  /\ forall (p : path) (t : pystr),
       p <> out ->
       fs w' !! p = Some (File t) <-> fs w !! p = Some (File t).
Proof.
  intros Hc.
  destruct (combine_powershell_scripts_returns _ _ _ _ _ Hc)
    as (m & text & st & w2 & Hmk & Hsrc & Hloop & Hw').
  assert (Hfs : fs w' = <[out := File (join [LF] (snd st))]> m).
  { rewrite Hw'. cbn [written log set_fs fs].
    now rewrite (combine_loop_fs _ _ _ _ _ _ Hloop). }
  split.
  - exists m, text, st, w2. repeat split; try assumption.
    now apply (mkdirs_files _ _ _ _ _ _ Hmk).
  - intros p t Hp. rewrite Hfs, lookup_insert_ne by congruence.
    apply (mkdirs_files _ _ _ _ _ _ Hmk).
Qed.

(** X6: when there is no main script to read, [combine_powershell_scripts]
    raises an [OSError] and no file is written, changed or removed. *)
Theorem combine_powershell_scripts_no_source
  (src mf : pystr) (out : path) (w : world) :
  (forall text, fs w !! Path src <> Some (File text)) ->
  snd (combine_powershell_scripts src mf out w) = Raise OSError
  /\ forall (p : path) (t : pystr),
       fs (fst (combine_powershell_scripts src mf out w)) !! p
         = Some (File t)
       <-> fs w !! p = Some (File t).
Proof.
  intros Hsrc.
  assert (Hrun : exists w',
             combine_powershell_scripts src mf out w = (w', Raise OSError)
             /\ forall (p : path) (t : pystr),
                  fs w' !! p = Some (File t) <-> fs w !! p = Some (File t)).
  { unfold combine_powershell_scripts, ensure_directory_exists, mkdir_p.
    unfold bind at 1.
    destruct (mkdirs [] (Path (py "build")) (fs w)) as [m|] eqn:Em.
    - exists (log (EMkdir (Path (py "build"))) (set_fs m w)). split.
      + unfold read_file, bind, read_text. cbn [log set_fs fs].
        destruct (m !! Path src) as [[t|]|] eqn:E; try reflexivity.
        apply (mkdirs_files _ _ _ _ _ _ Em) in E.
        now contradiction (Hsrc t).
      + intros p t. cbn [log set_fs fs].
        apply (mkdirs_files _ _ _ _ _ _ Em).
    - exists w. split; [reflexivity|]. intros p t. reflexivity. }
  destruct Hrun as (w' & -> & Hfiles). split; [reflexivity|exact Hfiles].
Qed.

End Combiner.

(** ** What the Settings Store does on other inputs *)

Section SettingsStore.

Context `{Runtime}.

Lemma read_settings_keeps_version_aux
  (f text : pystr) (kv : list (pystr * json)) (v : json) (w : world) :
  fs w !! Path f = Some (File text) ->
  json_loads text = Some (JDict kv) ->
  dict_get (py "version") kv = Some v ->
  read_settings f w = (log (ERead (Path f)) w, Ok (JDict kv)).
Proof.
  intros Hfile Hload Hv.
  unfold read_settings, bind, exists_, ret, lift, path_exists.
  rewrite Hfile, bool_decide_eq_true_2 by eauto. cbn [negb].
  rewrite (read_text_ok _ _ _ Hfile), Hload.
  unfold py_in. rewrite Hv.
  now rewrite bool_decide_eq_true_2 by eauto.
Qed.

(** X7: a settings file that holds a JSON object with a [version] entry
    is returned by [read_settings] as it was parsed, whatever the version
    entry is, and nothing is written. *)
Theorem read_settings_keeps_version
  (f text : pystr) (kv : list (pystr * json)) (v : json) (w : world) :
  fs w !! Path f = Some (File text) ->
  json_loads text = Some (JDict kv) ->
  dict_get (py "version") kv = Some v ->
  read_settings f w = (log (ERead (Path f)) w, Ok (JDict kv)).
Proof. apply read_settings_keeps_version_aux. Qed.

(** X8: a settings file that is not a JSON document makes
    [read_settings] raise the decoding error, and one that holds a JSON
    value other than an object, with no [version] in it, makes it raise a
    [TypeError]; in both cases the file has been read and nothing is
    written. *)
Theorem read_settings_bad_document (f text : pystr) (w : world) :
  fs w !! Path f = Some (File text) ->
  (json_loads text = None ->
   read_settings f w = (log (ERead (Path f)) w, Raise JSONDecodeError))
  /\ (forall s : json,
        json_loads text = Some s ->
        (forall kv, s <> JDict kv) ->
        py_in (py "version") s <> Ok true ->
        read_settings f w = (log (ERead (Path f)) w, Raise TypeError)).
Proof.
  intros Hfile.
  assert (Hrun : read_settings f w
                 = match json_loads text with
                   | None => (log (ERead (Path f)) w, Raise JSONDecodeError)
                   | Some settings =>
                       (has_version <- lift (py_in (py "version") settings) ;;
                        if negb has_version
                        then lift (setitem settings (py "version")
                                     default_version)
                        else ret settings) (log (ERead (Path f)) w)
                   end).
  { unfold read_settings, bind at 1, exists_, path_exists.
    rewrite Hfile, bool_decide_eq_true_2 by eauto. cbn [negb].
    unfold bind at 1. rewrite (read_text_ok _ _ _ Hfile).
    now destruct (json_loads text). }
  rewrite Hrun. split.
  - now intros ->.
  - intros s -> Hnot Hin. unfold bind, lift.
    destruct s as [|b|z|str|l|kv]; try reflexivity.
    + cbn [py_in] in *. destruct (contains (py "version") str);
        [congruence|reflexivity].
    + cbn [py_in] in *. destruct (existsb (is_str (py "version")) l);
        [congruence|reflexivity].
    + now contradiction (Hnot kv).
Qed.

(** X9: [read_settings] never changes a settings file that exists:
    whatever it returns or raises, the files are as they were. *)
Theorem read_settings_leaves_existing_file (f : pystr) (w : world) :
  path_exists w (Path f) = true ->
  fs (fst (read_settings f w)) = fs w.
Proof.
  intros Hex.
  assert (Hrun : read_settings f w
                 = (text <- read_text (Path f) ;;
                    match json_loads text with
                    | None => raise JSONDecodeError
                    | Some settings =>
                        has_version <- lift (py_in (py "version") settings) ;;
                        if negb has_version
                        then lift (setitem settings (py "version")
                                     default_version)
                        else ret settings
                    end) w).
  { unfold read_settings, bind at 1, exists_. now rewrite Hex. }
  rewrite Hrun. unfold bind at 1.
  destruct (read_text (Path f) w) as [w1 [text|e]] eqn:Eread;
    apply read_text_fs in Eread; [|exact Eread].
  rewrite <- Eread.
  destruct (json_loads text) as [s|]; [|reflexivity].
  unfold bind, lift, ret.
  destruct (py_in (py "version") s) as [[|]|e]; try reflexivity.
Qed.

Lemma update_build_number_ok
  (f : pystr) (s s' : json) (w w' : world) :
  update_build_number f s w = (w', Ok s') ->
  exists (kv vkv : list (pystr * json)) (bv : json) (b : Z),
    s = JDict kv
    /\ dict_get (py "version") kv = Some (JDict vkv)
    /\ dict_get (py "build") vkv = Some bv
    /\ as_int bv = Some b
    /\ fs w' = <[Path f := File (json_dumps s')]> (fs w)
    /\ (((b < 9999)%Z
         /\ s' = JDict (dict_set (py "version")
                          (JDict (dict_set (py "build") (JInt (b + 1)) vkv))
                          kv))
        \/ ((9999 <= b)%Z
            /\ exists (pv : json) (p : Z),
                 dict_get (py "patch") vkv = Some pv
                 /\ as_int pv = Some p
                 /\ s' = JDict (dict_set (py "version")
                                  (JDict (dict_set (py "patch")
                                            (JInt (p + 1))
                                            (dict_set (py "build") (JInt 0)
                                               vkv)))
                                  kv))).
Proof.
  unfold update_build_number. intros Hu.
  apply bind_ok in Hu as (w1 & version & Hv & Hu).
  apply lift_ok in Hv as [-> Hv].
  apply bind_ok in Hu as (w1 & build & Hb & Hu).
  apply lift_ok in Hb as [-> Hb].
  apply bind_ok in Hu as (w1 & rollover & Hge & Hu).
  apply lift_ok in Hge as [-> Hge].
  apply bind_ok in Hu as (w1 & s1 & Hs1 & Hu).
  apply bind_ok in Hu as (w2 & u & Hw & Hret).
  unfold ret in Hret. inversion Hret. subst w2 s1. clear Hret.
  apply write_text_fs in Hw as [(_ & Hfs & _)|[Hr _]]; [|discriminate].
  unfold py_ge in Hge. destruct (as_int build) as [b|] eqn:Eb; [|discriminate].
  inversion Hge. subst rollover. clear Hge.
  assert (Hfield : version_field (py "build") s = Some build).
  { unfold version_field. rewrite Hv, Hb. reflexivity. }
  destruct (version_field_inv _ _ _ Hfield) as (kv & vkv & -> & Hkv & Hvkv).
  unfold getitem in Hv. rewrite Hkv in Hv. inversion Hv. subst version.
  exists kv, vkv, build, b.
  destruct (9999 <=? b)%Z eqn:Ecmp.
  - apply bind_ok in Hs1 as (w3 & v1 & H1 & Hs1).
    apply lift_ok in H1 as [-> H1]. cbn [setitem] in H1. inversion H1.
    subst v1. clear H1.
    apply bind_ok in Hs1 as (w3 & patch & H2 & Hs1).
    apply lift_ok in H2 as [-> H2].
    apply bind_ok in Hs1 as (w3 & patch' & H3 & Hs1).
    apply lift_ok in H3 as [-> H3].
    apply bind_ok in Hs1 as (w3 & v2 & H4 & Hs1).
    apply lift_ok in H4 as [-> H4]. cbn [setitem] in H4. inversion H4.
    subst v2. clear H4.
    apply lift_ok in Hs1 as [-> Hs1]. cbn [setitem] in Hs1.
    inversion Hs1. subst s'. clear Hs1.
    unfold getitem in H2.
    rewrite dict_get_set_ne in H2 by discriminate.
    destruct (dict_get (py "patch") vkv) as [pv|] eqn:Ep; [|discriminate].
    inversion H2. subst patch. clear H2.
    unfold py_add in H3. destruct (as_int pv) as [p|] eqn:Epv; [|discriminate].
    inversion H3. subst patch'. clear H3.
    repeat (split; [assumption || reflexivity|]).
    right. split; [now apply Z.leb_le|]. now exists pv, p.
  - apply bind_ok in Hs1 as (w3 & build' & H1 & Hs1).
    apply lift_ok in H1 as [-> H1]. unfold py_add in H1.
    rewrite Eb in H1. inversion H1. subst build'. clear H1.
    apply bind_ok in Hs1 as (w3 & v1 & H2 & Hs1).
    apply lift_ok in H2 as [-> H2]. cbn [setitem] in H2. inversion H2.
    subst v1. clear H2.
    apply lift_ok in Hs1 as [-> Hs1]. cbn [setitem] in Hs1.
    inversion Hs1. subst s'. clear Hs1.
    repeat (split; [assumption || reflexivity|]).
    left. split; [now apply Z.leb_gt|reflexivity].
Qed.

Lemma update_build_number_steps (f : pystr) (s : json) (w : world) :
  update_build_number f s w
  = match advanced s with
    | Ok s' => (write_text (Path f) (json_dumps s') ;;; ret s') w
    | Raise e => (w, Raise e)
    end.
Proof.
  unfold update_build_number, advanced, bind, lift.
  destruct (getitem s (py "version")) as [version|e]; [|reflexivity].
  destruct (getitem version (py "build")) as [build|e]; [|reflexivity].
  destruct (py_ge build 9999) as [[|]|e]; [| |reflexivity].
  - destruct (setitem version (py "build") (JInt 0)) as [v1|e];
      [|reflexivity].
    destruct (getitem v1 (py "patch")) as [patch|e]; [|reflexivity].
    destruct (py_add patch 1) as [patch'|e]; [|reflexivity].
    destruct (setitem v1 (py "patch") patch') as [v2|e]; [|reflexivity].
    destruct (setitem s (py "version") v2) as [s'|e]; reflexivity.
  - destruct (py_add build 1) as [build'|e]; [|reflexivity].
    destruct (setitem version (py "build") build') as [v1|e];
      [|reflexivity].
    destruct (setitem s (py "version") v1) as [s'|e]; reflexivity.
Qed.

(** X10: when [update_build_number] raises, nothing has been written:
    the files and the record of the run are as before the call.  It
    raises a [KeyError] when the settings have no [version] entry, and a
    [TypeError] when [version.build] is not a number. *)
Theorem update_build_number_raises (f : pystr) (s : json) (w : world) :
  (forall (w' : world) (e : pyerr),
     update_build_number f s w = (w', Raise e) -> w' = w)
  /\ (forall kv, s = JDict kv -> dict_get (py "version") kv = None ->
      update_build_number f s w = (w, Raise KeyError))
  /\ (forall bv, version_field (py "build") s = Some bv ->
      as_int bv = None ->
      update_build_number f s w = (w, Raise TypeError)).
Proof.
  rewrite update_build_number_steps. split; [|split].
  - intros w' e. destruct (advanced s) as [s'|e0].
    + unfold bind, ret.
      destruct (write_text (Path f) (json_dumps s') w) as [w1 [u|e1]] eqn:Ew;
        [discriminate|].
      apply write_text_fs in Ew as [[Hr _]|[_ ->]]; [discriminate|].
      intros Hr. now inversion Hr.
    + intros Hr. now inversion Hr.
  - intros kv -> Hv. unfold advanced, getitem. now rewrite Hv.
  - intros bv Hb Hbv.
    destruct (version_field_inv _ _ _ Hb) as (kv & vkv & -> & Hv & Hbuild).
    unfold advanced, getitem, py_ge. now rewrite Hv, Hbuild, Hbv.
Qed.

(** X11: for settings whose [version.build] is an integer, every call
    of [update_build_number] that returns is one of two cases: the build
    number was below 9999 and is now one more, the patch entry as
    before; or it was 9999 or more and is now 0, and a patch entry that
    is an integer is one more.  So an integer build number that is not
    negative is within 0 to 9999 after the call. *)
Theorem update_build_number_cases
  (f : pystr) (s s' bv : json) (b : Z) (w w' : world) :
  update_build_number f s w = (w', Ok s') ->
  version_field (py "build") s = Some bv ->
  as_int bv = Some b ->
  (((b < 9999)%Z
    /\ version_field (py "build") s' = Some (JInt (b + 1))
    /\ version_field (py "patch") s' = version_field (py "patch") s)
   \/ ((9999 <= b)%Z
       /\ version_field (py "build") s' = Some (JInt 0)
       /\ forall (pv : json) (p : Z),
            version_field (py "patch") s = Some pv ->
            as_int pv = Some p ->
            version_field (py "patch") s' = Some (JInt (p + 1))))
  /\ ((0 <= b)%Z ->
      exists b', version_field (py "build") s' = Some (JInt b')
                 /\ (0 <= b' <= 9999)%Z).
Proof.
  intros Hu Hfield Hint.
  destruct (update_build_number_ok _ _ _ _ _ Hu)
    as (kv & vkv & bv0 & b0 & -> & Hv & Hb & Hbv & _ & Hcase).
  rewrite (version_field_dict _ kv vkv Hv), Hb in Hfield.
  inversion Hfield. subst bv0. clear Hfield.
  rewrite Hbv in Hint. inversion Hint. subst b0. clear Hint.
  destruct Hcase as [[Hlt ->]|(Hge & pv & p & Hp & Hpv & ->)].
  - assert (Hnew : version_field (py "build")
                     (JDict (dict_set (py "version")
                               (JDict (dict_set (py "build")
                                         (JInt (b + 1)) vkv)) kv))
                   = Some (JInt (b + 1))).
    { rewrite version_field_set. apply dict_get_set_eq. }
    split.
    + left. split; [exact Hlt|]. split; [exact Hnew|].
      rewrite version_field_set, (version_field_dict _ kv vkv Hv).
      apply dict_get_set_ne. discriminate.
    + intros H0. exists (b + 1)%Z. split; [exact Hnew|lia].
  - assert (Hnew : version_field (py "build")
                     (JDict (dict_set (py "version")
                               (JDict (dict_set (py "patch") (JInt (p + 1))
                                         (dict_set (py "build") (JInt 0)
                                            vkv))) kv))
                   = Some (JInt 0)).
    { rewrite version_field_set.
      rewrite dict_get_set_ne by discriminate. apply dict_get_set_eq. }
    split.
    + right. split; [exact Hge|]. split; [exact Hnew|].
      intros pv' p' Hp' Hpv'.
      rewrite (version_field_dict _ kv vkv Hv), Hp in Hp'.
      inversion Hp'. subst pv'. rewrite Hpv in Hpv'. inversion Hpv'.
      subst p'. rewrite version_field_set. apply dict_get_set_eq.
    + intros H0. exists 0%Z. split; [exact Hnew|lia].
Qed.

(** X12: what is saved is what is loaded.  After a call of
    [update_build_number] that returns, and after a call of
    [read_settings] that found no settings file, a call of
    [read_settings] on the same file returns the very settings the first
    call returned, provided [json.load] reads back what [json.dump]
    wrote for them. *)
Theorem settings_round_trip (f : pystr) (s s' : json) (w w' : world) :
  json_loads (json_dumps s') = Some s' ->
  (update_build_number f s w = (w', Ok s') ->
   read_settings f w' = (log (ERead (Path f)) w', Ok s'))
  /\ (path_exists w (Path f) = false ->
      read_settings f w = (w', Ok s') ->
      read_settings f w' = (log (ERead (Path f)) w', Ok s')).
Proof.
  intros Hround.
  assert (Hread : forall kv v,
             s' = JDict kv -> dict_get (py "version") kv = Some v ->
             fs w' !! Path f = Some (File (json_dumps s')) ->
             read_settings f w' = (log (ERead (Path f)) w', Ok s')).
  { intros kv v -> Hv Hfile.
    now apply (read_settings_keeps_version_aux f
                 (json_dumps (JDict kv)) kv v w'). }
  split.
  - intros Hu.
    destruct (update_build_number_ok _ _ _ _ _ Hu)
      as (kv & vkv & bv & b & -> & Hv & Hb & Hbv & Hfs & Hcase).
    assert (Hfile : fs w' !! Path f = Some (File (json_dumps s')))
      by (rewrite Hfs; apply lookup_insert_eq).
    destruct Hcase as [[_ Hs']|(_ & pv & p & _ & _ & Hs')];
      eapply Hread; try exact Hs'; try exact Hfile;
      apply dict_get_set_eq.
  - intros Habsent Hr. unfold read_settings, bind at 1, exists_ in Hr.
    rewrite Habsent in Hr. cbn [negb] in Hr.
    apply bind_ok in Hr as (w1 & u & Hw & Hret).
    unfold ret in Hret. inversion Hret. subst w1 s'. clear Hret.
    apply write_text_fs in Hw as [(_ & Hfs & _)|[Hr _]]; [|discriminate].
    eapply Hread; [reflexivity|reflexivity|].
    rewrite Hfs. apply lookup_insert_eq.
Qed.

End SettingsStore.

(** ** The version string *)

Lemma uint_string_no_dot (d : Decimal.uint) :
  Forall (fun a => N_of_ascii a <> DOT)
    (list_ascii_of_string (NilEmpty.string_of_uint d)).
Proof.
  induction d; cbn [NilEmpty.string_of_uint list_ascii_of_string];
    constructor; (discriminate || assumption).
Qed.

Lemma str_of_int_no_dot (z : Z) :
  Forall (fun c => c <> DOT) (str_of_int z).
Proof.
  unfold str_of_int, py. apply Forall_map.
  assert (Hu : forall d, Forall (fun a => N_of_ascii a <> DOT)
                           (list_ascii_of_string (NilZero.string_of_uint d))).
  { intros d. destruct d; try apply uint_string_no_dot.
    repeat constructor. discriminate. }
  destruct (Z.to_int z) as [d|d]; cbn [NilZero.string_of_int].
  - apply Hu.
  - cbn [list_ascii_of_string]. constructor; [discriminate|apply Hu].
Qed.

Lemma py_inj (s t : string) : py s = py t -> s = t.
Proof.
  unfold py. intros Heq.
  rewrite <- (string_of_list_ascii_of_string s),
    <- (string_of_list_ascii_of_string t).
  f_equal. revert Heq.
  generalize (list_ascii_of_string s) (list_ascii_of_string t).
  intros l. induction l as [|a l IH]; intros [|b l']; cbn [map];
    try discriminate; [reflexivity|].
  intros Heq. inversion Heq as [[Hab Hl]].
  apply (f_equal ascii_of_N) in Hab. rewrite !ascii_N_embedding in Hab.
  subst b. f_equal. now apply IH.
Qed.

Lemma to_int_not_nil (z : Z) :
  Z.to_int z <> Decimal.Pos Decimal.Nil
  /\ Z.to_int z <> Decimal.Neg Decimal.Nil.
Proof.
  destruct z as [|p|p]; cbn; split; try discriminate;
    intros Heq; inversion Heq as [Hp];
    now apply DecimalPos.Unsigned.to_uint_nonnil in Hp.
Qed.

Lemma str_of_int_inj (z z' : Z) : str_of_int z = str_of_int z' -> z = z'.
Proof.
  unfold str_of_int. intros Heq. apply py_inj in Heq.
  apply DecimalZ.to_int_inj.
  destruct (to_int_not_nil z) as [H1 H2].
  destruct (to_int_not_nil z') as [H1' H2'].
  apply (f_equal NilZero.int_of_string) in Heq.
  rewrite !NilZero.isi in Heq by assumption. now inversion Heq.
Qed.

Lemma split_at_dot (x x' r r' : pystr) :
  Forall (fun c => c <> DOT) x -> Forall (fun c => c <> DOT) x' ->
  x ++ DOT :: r = x' ++ DOT :: r' -> x = x' /\ r = r'.
Proof.
  intros Hx. revert x'. induction Hx as [|c x Hc _ IH]; intros x' Hx' Heq.
  - destruct Hx' as [|c' x' Hc' _]; cbn [app] in Heq.
    + now inversion Heq.
    + inversion Heq. congruence.
  - destruct Hx' as [|c' x' Hc' Hx']; cbn [app] in Heq.
    + inversion Heq. congruence.
    + inversion Heq as [[Hcc Hrest]]. subst c'.
      destruct (IH x' Hx' Hrest) as [-> ->]. now split.
Qed.

Section VersionString.

Context `{Runtime}.

(** X13: [get_version_string] returns exactly when the version is an
    object that has the entries [major], [minor], [patch] and [build]; it
    then returns the four values as an f-string prints them, with dots
    between.  A version that is not an object raises a [TypeError], an
    object that lacks one of the four entries a [KeyError]. *)
Theorem get_version_string_returns (version : json) (text : pystr) :
  (get_version_string version = Ok text <->
   exists (kv : list (pystr * json)) (major minor patch build : json),
     version = JDict kv
     /\ dict_get (py "major") kv = Some major
     /\ dict_get (py "minor") kv = Some minor
     /\ dict_get (py "patch") kv = Some patch
     /\ dict_get (py "build") kv = Some build
     /\ text = py_str major ++ [DOT] ++ py_str minor ++ [DOT]
               ++ py_str patch ++ [DOT] ++ py_str build)
  /\ ((forall kv, version <> JDict kv) ->
      get_version_string version = Raise TypeError)
  /\ (forall kv, version = JDict kv ->
      (dict_get (py "major") kv = None \/ dict_get (py "minor") kv = None
       \/ dict_get (py "patch") kv = None
       \/ dict_get (py "build") kv = None) ->
      get_version_string version = Raise KeyError).
Proof.
  split; [split|split].
  - unfold get_version_string, getitem. intros Hg.
    destruct version as [| | | | |kv]; try discriminate.
    destruct (dict_get (py "major") kv) as [a|] eqn:Ea; [|discriminate].
    destruct (dict_get (py "minor") kv) as [b|] eqn:Eb; [|discriminate].
    destruct (dict_get (py "patch") kv) as [c|] eqn:Ec; [|discriminate].
    destruct (dict_get (py "build") kv) as [d|] eqn:Ed; [|discriminate].
    exists kv, a, b, c, d. inversion Hg as [Ht]. clear Hg Ht.
    repeat split; assumption || reflexivity.
  - intros (kv & a & b & c & d & -> & Ha & Hb & Hc & Hd & ->).
    unfold get_version_string, getitem. now rewrite Ha, Hb, Hc, Hd.
  - intros Hnot. destruct version as [| | | | |kv]; try reflexivity.
    now contradiction (Hnot kv).
  - intros kv -> Hmiss. unfold get_version_string, getitem.
    destruct (dict_get (py "major") kv); [|reflexivity].
    destruct (dict_get (py "minor") kv); [|reflexivity].
    destruct (dict_get (py "patch") kv); [|reflexivity].
    destruct (dict_get (py "build") kv); [|reflexivity].
    destruct Hmiss as [Hm|[Hm|[Hm|Hm]]]; discriminate.
Qed.

(** X14: two versions whose four entries are integers have the same
    version string only when they have the same four numbers, so builds
    of different versions never share an artifact name. *)
Theorem version_string_injective
  (kv kv' : list (pystr * json)) (a b c d a' b' c' d' : Z) :
  dict_get (py "major") kv = Some (JInt a) ->
  dict_get (py "minor") kv = Some (JInt b) ->
  dict_get (py "patch") kv = Some (JInt c) ->
  dict_get (py "build") kv = Some (JInt d) ->
  dict_get (py "major") kv' = Some (JInt a') ->
  dict_get (py "minor") kv' = Some (JInt b') ->
  dict_get (py "patch") kv' = Some (JInt c') ->
  dict_get (py "build") kv' = Some (JInt d') ->
  get_version_string (JDict kv) = get_version_string (JDict kv') ->
  a = a' /\ b = b' /\ c = c' /\ d = d'.
Proof.
  intros Ha Hb Hc Hd Ha' Hb' Hc' Hd'.
  unfold get_version_string, getitem.
  rewrite Ha, Hb, Hc, Hd, Ha', Hb', Hc', Hd'. cbn [py_str].
  change (py ".") with [DOT]. intros Heq. inversion Heq as [Hs]. clear Heq.
  cbn [app] in Hs.
  apply split_at_dot in Hs as [H1 Hs]; try apply str_of_int_no_dot.
  apply split_at_dot in Hs as [H2 Hs]; try apply str_of_int_no_dot.
  apply split_at_dot in Hs as [H3 H4]; try apply str_of_int_no_dot.
  repeat split; now apply str_of_int_inj.
Qed.

End VersionString.

(** ** The directories *)

Lemma rmtree_lookup (p q : path) (m : gmap path node) :
  filter (fun e => under p (fst e) = false) m !! q
  = if under p q then None else m !! q.
Proof.
  destruct (under p q) eqn:E.
  - apply map_lookup_filter_None. right. intros x _. cbn [fst].
    now rewrite E.
  - destruct (m !! q) as [x|] eqn:Eq.
    + apply map_lookup_filter_Some. now split.
    + apply map_lookup_filter_None. now left.
Qed.

Lemma mkdirs_keeps_dir (todo done p : path) (m m' : gmap path node) :
  mkdirs done todo m = Some m' -> m !! p = Some Dir -> m' !! p = Some Dir.
Proof.
  intros Hm Hp. destruct (mkdirs_adds_directories _ _ _ _ Hm p)
    as [Hq|[Hq _]]; congruence.
Qed.

Lemma mkdirs_makes (todo done : path) (m m' : gmap path node) :
  mkdirs done todo m = Some m' ->
  forall pre c post,
    todo = pre ++ c :: post -> m' !! (done ++ pre ++ [c]) = Some Dir.
Proof.
  revert done m. induction todo as [|c0 todo IH]; intros done m Hm pre c post;
    [now destruct pre|].
  cbn [mkdirs] in Hm. intros Htodo.
  destruct pre as [|c1 pre]; cbn [app] in Htodo; inversion Htodo; subst.
  - cbn [app].
    destruct (m !! (done ++ [c])) as [[t|]|] eqn:E; [discriminate| |].
    + now apply (mkdirs_keeps_dir _ _ _ _ _ Hm).
    + apply (mkdirs_keeps_dir _ _ _ _ _ Hm). apply lookup_insert_eq.
  - replace (done ++ (c1 :: pre) ++ [c]) with ((done ++ [c1]) ++ pre ++ [c])
      by (now rewrite <- !app_assoc).
    destruct (m !! (done ++ [c1])) as [[t|]|] eqn:E; [discriminate| |];
      now apply (IH _ _ Hm pre c post).
Qed.

Lemma mkdirs_again (todo done : path) (m : gmap path node) :
  (forall pre c post,
     todo = pre ++ c :: post -> m !! (done ++ pre ++ [c]) = Some Dir) ->
  mkdirs done todo m = Some m.
Proof.
  revert done. induction todo as [|c todo IH]; intros done Hdirs;
    [reflexivity|].
  cbn [mkdirs]. pose proof (Hdirs [] c todo eq_refl) as Hc.
  cbn [app] in Hc. rewrite Hc. apply IH.
  intros pre c' post ->.
  replace ((done ++ [c]) ++ pre ++ [c']) with (done ++ (c :: pre) ++ [c'])
    by (now rewrite <- !app_assoc).
  now apply (Hdirs (c :: pre) c' post).
Qed.

Lemma mkdirs_blocked (todo done : path) (m : gmap path node) :
  (exists pre c post t,
     todo = pre ++ c :: post /\ m !! (done ++ pre ++ [c]) = Some (File t)) ->
  mkdirs done todo m = None.
Proof.
  revert done m. induction todo as [|c0 todo IH];
    intros done m (pre & c & post & t & Htodo & Hfile);
    [now destruct pre|].
  cbn [mkdirs].
  destruct pre as [|c1 pre]; cbn [app] in Htodo; inversion Htodo; subst.
  - cbn [app] in Hfile. now rewrite Hfile.
  - assert (Hnext : forall m1,
               m1 !! ((done ++ [c1]) ++ pre ++ [c]) = Some (File t) ->
               mkdirs (done ++ [c1]) (pre ++ c :: post) m1 = None).
    { intros m1 Hm1. apply IH. now exists pre, c, post, t. }
    replace (done ++ (c1 :: pre) ++ [c]) with ((done ++ [c1]) ++ pre ++ [c])
      in Hfile by (now rewrite <- !app_assoc).
    destruct (m !! (done ++ [c1])) as [[t'|]|] eqn:E; [reflexivity| |].
    + now apply Hnext.
    + apply Hnext. rewrite lookup_insert_ne; [exact Hfile|].
      intros Heq. rewrite <- Heq in Hfile. congruence.
Qed.

Section Directories.

Context `{Runtime}.

(** X15: [delete_build_directory] never raises.  When the path is a
    directory, nothing is left at it or below it; whatever is not below
    it is as it was.  When the path is absent, or is a file, nothing
    changes at all. *)
Theorem delete_build_directory_effect (d : pystr) (w : world) :
  snd (delete_build_directory d w) = Ok tt
  /\ (is_dir w (Path d) = true ->
      forall q, Path d `prefix_of` q ->
                fs (fst (delete_build_directory d w)) !! q = None)
  /\ (forall q, ~ Path d `prefix_of` q ->
                fs (fst (delete_build_directory d w)) !! q = fs w !! q)
  /\ (is_dir w (Path d) = false -> fst (delete_build_directory d w) = w).
Proof.
  unfold delete_build_directory.
  destruct (is_dir w (Path d)) eqn:Edir.
  - assert (Hex : path_exists w (Path d) = true).
    { unfold path_exists, is_dir in *.
      destruct (fs w !! Path d); [|discriminate].
      now apply bool_decide_eq_true_2. }
    rewrite Hex. cbn [andb rmtree fst snd log set_fs fs].
    split; [reflexivity|split; [|split]].
    + intros _ q Hq. rewrite rmtree_lookup. unfold under.
      now rewrite bool_decide_eq_true_2.
    + intros q Hq. rewrite rmtree_lookup. unfold under.
      now rewrite bool_decide_eq_false_2.
    + discriminate.
  - rewrite andb_false_r. cbn [fst snd].
    split; [reflexivity|split; [discriminate|split; reflexivity]].
Qed.

(** X16: when [ensure_directory_exists] returns, the directory and every
    directory on the way to it exist, and whatever existed before is as
    it was; a second call then changes nothing.  When a file is in the
    way the call raises an [OSError] and changes nothing. *)
Theorem ensure_directory_exists_effect (d : pystr) (w : world) :
  (forall w', ensure_directory_exists d w = (w', Ok tt) ->
     (forall q, q `prefix_of` Path d -> q <> [] -> is_dir w' q = true)
     /\ (forall p x, fs w !! p = Some x -> fs w' !! p = Some x)
     /\ (forall p t, fs w' !! p = Some (File t) -> fs w !! p = Some (File t))
     /\ fs (fst (ensure_directory_exists d w')) = fs w'
     /\ snd (ensure_directory_exists d w') = Ok tt)
  /\ (forall q t, q `prefix_of` Path d -> fs w !! q = Some (File t) ->
      q <> [] ->
      ensure_directory_exists d w = (w, Raise OSError)).
Proof.
  unfold ensure_directory_exists, mkdir_p. split.
  - intros w' Hm.
    destruct (mkdirs [] (Path d) (fs w)) as [m|] eqn:Em; [|discriminate].
    inversion Hm. subst w'. clear Hm. cbn [log set_fs fs].
    assert (Hdirs : forall pre c post,
               Path d = pre ++ c :: post ->
               m !! ([] ++ pre ++ [c]) = Some Dir)
      by (apply (mkdirs_makes _ _ _ _ Em)).
    cbn [app] in Hdirs.
    split; [|split; [|split]].
    + intros q [k Hk] Hq. unfold is_dir. cbn [log set_fs fs].
      destruct (exists_last Hq) as (pre & c & ->).
      rewrite <- app_assoc in Hk. cbn [app] in Hk.
      exact (f_equal (fun o : option node =>
                        match o with Some Dir => true | _ => false end)
               (Hdirs pre c k Hk)).
    + intros p x Hp.
      destruct (mkdirs_adds_directories _ _ _ _ Em p) as [Hq|[Hq _]];
        congruence.
    + intros p t. apply (mkdirs_files _ _ _ _ _ _ Em).
    + rewrite (mkdirs_again (Path d) [] m Hdirs). split; reflexivity.
  - intros q t [k Hk] Hfile Hq.
    destruct (exists_last Hq) as (pre & c & ->).
    rewrite <- app_assoc in Hk. cbn [app] in Hk.
    rewrite (mkdirs_blocked (Path d) [] (fs w)); [reflexivity|].
    now exists pre, c, k, t.
Qed.

End Directories.

(** ** The Launcher Patcher and the files *)

Lemma launcher_fold_length (name : pystr) (lines acc : list pystr)
  (found : bool) :
  length (snd (fold_left (launcher_step name) lines (found, acc)))
  = length acc + length lines
    + (if negb found && existsb (contains script_path_token) lines
       then 1 else 0).
Proof.
  revert found acc. induction lines as [|l lines IH]; intros found acc;
    cbn [fold_left existsb length].
  - rewrite andb_false_r. cbn [snd]. lia.
  - unfold launcher_step at 2.
    destruct (contains script_path_token l) eqn:El; destruct found;
      cbn [andb negb orb]; rewrite IH, ?length_app; cbn [length negb andb];
      lia.
Qed.

(** X18: the patched launcher has one entry more than the launcher has
    lines when some line holds the variable token, and as many entries
    as the launcher has lines when none does. *)
Theorem updated_lines_length (name : pystr) (lines : list pystr) :
  length (updated_lines name lines)
  = length lines
    + (if existsb (contains script_path_token) lines then 1 else 0).
Proof.
  unfold updated_lines. rewrite launcher_fold_length. reflexivity.
Qed.

Section Launcher.

Context `{Runtime}.

(** X17: without a launcher file to read, [update_launcher_script]
    raises an [OSError] and changes nothing.  When it returns, the only
    file it has written is the copy of the launcher in the build
    directory, which holds the patched lines joined by line feeds; the
    launcher itself is as it was. *)
Theorem update_launcher_script_effect
  (launcher : pystr) (out : path) (w : world) :
  ((forall text, fs w !! Path launcher <> Some (File text)) ->
   update_launcher_script launcher out w = (w, Raise OSError))
  /\ (forall w',
        update_launcher_script launcher out w = (w', Ok tt) ->
        exists text,
          fs w !! Path launcher = Some (File text)
          /\ fs w'
             = <[path_div (Path (py "build")) (path_name (Path launcher))
                 := File (join [LF]
                            (updated_lines (path_name out)
                               (readlines text)))]> (fs w)).
Proof.
  split.
  - intros Hmiss. unfold update_launcher_script, read_file, bind, read_text.
    destruct (fs w !! Path launcher) as [[t|]|] eqn:E; try reflexivity.
    now contradiction (Hmiss t).
  - intros w' Hu. unfold update_launcher_script in Hu.
    apply bind_ok in Hu as (w1 & ls & Hread & Hw).
    unfold read_file in Hread.
    apply bind_ok in Hread as (w2 & text & Hread & Hret).
    unfold ret in Hret. inversion Hret. subst w2 ls. clear Hret.
    pose proof (read_text_fs _ _ _ _ Hread) as Hfs1.
    apply read_text_trace in Hread as [_ Hfile].
    apply write_text_fs in Hw as [(_ & Hfs & _)|[Hr _]]; [|discriminate].
    exists text. split; [exact Hfile|]. now rewrite Hfs, Hfs1.
Qed.

End Launcher.

(** ** A whole run and the files *)

Lemma delete_build_directory_effect_aux `{Runtime} (d : pystr) (w : world) :
  (forall q, ~ Path d `prefix_of` q ->
             fs (fst (delete_build_directory d w)) !! q = fs w !! q)
  /\ (is_dir w (Path d) = true ->
      forall q, Path d `prefix_of` q ->
                fs (fst (delete_build_directory d w)) !! q = None)
  /\ (is_dir w (Path d) = false -> fst (delete_build_directory d w) = w).
Proof.
  unfold delete_build_directory.
  destruct (is_dir w (Path d)) eqn:Edir.
  - assert (Hex : path_exists w (Path d) = true).
    { unfold path_exists, is_dir in *.
      destruct (fs w !! Path d); [|discriminate].
      now apply bool_decide_eq_true_2. }
    rewrite Hex. cbn [andb rmtree fst snd log set_fs fs].
    split; [|split].
    + intros q Hq. rewrite rmtree_lookup. unfold under.
      now rewrite bool_decide_eq_false_2.
    + intros _ q Hq. rewrite rmtree_lookup. unfold under.
      now rewrite bool_decide_eq_true_2.
    + discriminate.
  - rewrite andb_false_r. cbn [fst snd].
    split; [reflexivity|split; [discriminate|reflexivity]].
Qed.


Section Run.

Context `{Runtime}.

Lemma write_text_other (p q : path) (t : pystr) (w w' : world)
  (r : result unit) :
  write_text p t w = (w', r) -> q <> p -> fs w' !! q = fs w !! q.
Proof.
  intros Hw Hq.
  apply write_text_fs in Hw as [(_ & Hfs & _)|[_ ->]]; [|reflexivity].
  rewrite Hfs. now apply lookup_insert_ne.
Qed.

Lemma read_settings_other (f : pystr) (q : path) (w w' : world)
  (r : result json) :
  read_settings f w = (w', r) -> q <> Path f -> fs w' !! q = fs w !! q.
Proof.
  unfold read_settings, bind at 1, exists_. intros Hr Hq.
  destruct (negb (path_exists w (Path f))).
  - unfold bind, ret in Hr.
    destruct (write_text (Path f) (json_dumps default_settings) w)
      as [w1 [u|e]] eqn:Ew; inversion Hr; subst;
      now apply (write_text_other _ q) in Ew.
  - unfold bind at 1 in Hr.
    destruct (read_text (Path f) w) as [w1 [text|e]] eqn:Eread;
      apply read_text_fs in Eread.
    + destruct (json_loads text) as [s|].
      * unfold bind, lift, ret in Hr.
        destruct (py_in (py "version") s) as [[|]|e];
          inversion Hr; subst; now rewrite Eread.
      * inversion Hr. subst. now rewrite Eread.
    + inversion Hr. subst. now rewrite Eread.
Qed.

Lemma update_build_number_other (f : pystr) (s : json) (q : path)
  (w w' : world) (r : result json) :
  update_build_number f s w = (w', r) -> q <> Path f ->
  fs w' !! q = fs w !! q.
Proof.
  rewrite update_build_number_steps. intros Hu Hq.
  destruct (advanced s) as [s'|e].
  - unfold bind, ret in Hu.
    destruct (write_text (Path f) (json_dumps s') w) as [w1 [u|e]] eqn:Ew;
      inversion Hu; subst; now apply (write_text_other _ q) in Ew.
  - now inversion Hu.
Qed.

Lemma update_launcher_script_other (launcher : pystr) (out q : path)
  (w w' : world) (r : result unit) :
  update_launcher_script launcher out w = (w', r) ->
  q <> path_div (Path (py "build")) (path_name (Path launcher)) ->
  fs w' !! q = fs w !! q.
Proof.
  unfold update_launcher_script, read_file. intros Hu Hq.
  unfold bind at 1 2, ret in Hu.
  destruct (read_text (Path launcher) w) as [w1 [text|e]] eqn:Eread;
    apply read_text_fs in Eread.
  - apply (write_text_other _ q) in Hu; [|exact Hq]. now rewrite Hu, Eread.
  - inversion Hu. subst. now rewrite Eread.
Qed.

Lemma combine_powershell_scripts_other (src mf : pystr) (out q : path)
  (w w' : world) (r : result unit) (t : pystr) :
  combine_powershell_scripts src mf out w = (w', r) -> q <> out ->
  fs w' !! q = Some (File t) <-> fs w !! q = Some (File t).
Proof.
  unfold combine_powershell_scripts, ensure_directory_exists, mkdir_p.
  intros Hc Hq. unfold bind at 1 in Hc.
  destruct (mkdirs [] (Path (py "build")) (fs w)) as [m|] eqn:Em;
    [|now inversion Hc].
  rewrite <- (mkdirs_files _ _ _ _ q t Em).
  apply bind_inv in Hc as [(w2 & ls & Hread & Hc)|(e & Hread & _)].
  - unfold read_file in Hread.
    apply bind_ok in Hread as (w2' & text & Hread & Hret).
    unfold ret in Hret. inversion Hret. subst w2' ls. clear Hret.
    apply read_text_fs in Hread. cbn [log set_fs fs] in Hread.
    apply bind_inv in Hc as [(w3 & st & Hloop & Hw)|(e & Hloop & _)].
    + apply combine_loop_fs in Hloop.
      apply (write_text_other _ q) in Hw; [|exact Hq].
      now rewrite Hw, Hloop, Hread.
    + apply combine_loop_fs in Hloop. now rewrite Hloop, Hread.
  - unfold read_file, bind in Hread.
    destruct (read_text (Path src) _) as [w2 [text|e']] eqn:Eread;
      [discriminate|].
    apply read_text_fs in Eread. cbn [log set_fs fs] in Eread.
    inversion Hread. subst w2. now rewrite Eread.
Qed.

Lemma main_files (w w' : world) (r : result unit) :
  main w = (w', r) ->
  exists out : path,
    Path (py "build") `prefix_of` out
    /\ forall q t,
         q <> out ->
         q <> path_div (Path (py "build"))
                (path_name (Path (py "launcher.ps1"))) ->
         q <> Path settings_file ->
         fs w' !! q = Some (File t)
         <-> fs (fst (delete_build_directory (py "build") w)) !! q
             = Some (File t).
Proof.
  unfold main. intros Hm. unfold bind at 1 in Hm.
  destruct (delete_build_directory (py "build") w) as [w1 [u|e]] eqn:Edel.
  2:{ pose proof (delete_build_directory_trace (py "build") w)
        as (w0 & del & Hd & _). congruence. }
  cbn [fst].
  assert (Hdefault : Path (py "build") `prefix_of` Path (py "build"))
    by reflexivity.
  apply bind_inv in Hm as [(w2 & settings & Hload & Hm)|(e & Hload & _)].
  2:{ exists (Path (py "build")). split; [exact Hdefault|].
      intros q t _ _ Hq. now rewrite (read_settings_other _ q _ _ _ Hload Hq). }
  pose proof (fun q => read_settings_other _ q _ _ _ Hload) as Hstep2.
  apply bind_inv in Hm as [(w3 & version & Hv & Hm)|(e & Hv & _)].
  2:{ exists (Path (py "build")). split; [exact Hdefault|].
      intros q t _ _ Hq. unfold lift in Hv. inversion Hv. subst.
      now rewrite Hstep2. }
  unfold lift in Hv. inversion Hv. subst w3. clear Hv.
  apply bind_inv in Hm as [(w3 & vs & Hvs & Hm)|(e & Hvs & _)].
  2:{ exists (Path (py "build")). split; [exact Hdefault|].
      intros q t _ _ Hq. unfold lift in Hvs. inversion Hvs. subst.
      now rewrite Hstep2. }
  unfold lift in Hvs. inversion Hvs. subst w3. clear Hvs.
  exists (path_div (Path (py "build")) (py "winDragon_" ++ vs ++ py ".ps1")).
  split; [now apply prefix_app_r|].
  intros q t Hout Hlout Hsf.
  apply bind_inv in Hm as [(w3 & u3 & Hcomb & Hm)|(e & Hcomb & _)].
  2:{ rewrite (combine_powershell_scripts_other _ _ _ q _ _ _ t Hcomb Hout).
      now rewrite Hstep2. }
  pose proof (combine_powershell_scripts_other _ _ _ q _ _ _ t Hcomb Hout)
    as Hstep3.
  apply bind_inv in Hm as [(w4 & s' & Hadv & Hm)|(e & Hadv & _)].
  2:{ rewrite (update_build_number_other _ _ q _ _ _ Hadv Hsf), Hstep3.
      now rewrite Hstep2. }
  pose proof (update_build_number_other _ _ q _ _ _ Hadv Hsf) as Hstep4.
  apply bind_inv in Hm as [(w5 & u5 & Hpatch & Hprint)|(e & Hpatch & _)].
  2:{ rewrite (update_launcher_script_other _ _ q _ _ _ Hpatch Hlout), Hstep4, Hstep3.
      now rewrite Hstep2. }
  pose proof (update_launcher_script_other _ _ q _ _ _ Hpatch Hlout) as Hstep5.
  unfold print in Hprint. inversion Hprint. subst. cbn [log fs].
  rewrite Hstep5, Hstep4, Hstep3. now rewrite Hstep2.
Qed.

(** X19: whether a run ends well or fails, it neither changes nor
    removes nor creates any file outside the build directory other than
    the settings file: the main script, the modules and the launcher are
    as they were. *)
Theorem main_leaves_sources (w : world) (q : path) (t : pystr) :
  ~ Path (py "build") `prefix_of` q ->
  q <> Path settings_file ->
  fs (fst (main w)) !! q = Some (File t) <-> fs w !! q = Some (File t).
Proof.
  intros Hq Hsf.
  destruct (main w) as [w' r] eqn:Em. cbn [fst].
  destruct (main_files _ _ _ Em) as (out & Hout & Hfiles).
  rewrite Hfiles.
  - destruct (delete_build_directory_effect_aux (py "build") w) as [Hsame _].
    now rewrite Hsame.
  - intros ->. now apply Hq.
  - intros ->. apply Hq. now apply prefix_app_r.
  - exact Hsf.
Qed.

(** X20: after a run that ends well, the build directory holds the
    artifact of this run, named after the version string of the settings
    this run loaded and holding what the Combiner of this run wrote
    (unless the launcher copy has that very name), and the copy of the
    launcher, and no other file: what earlier runs left there is gone.  (The settings file is taken
    to lie outside the build directory, and nothing to lie below a
    build path that is not a directory.) *)
Theorem main_build_directory_contents (w w' : world) :
  main w = (w', Ok tt) ->
  ~ Path (py "build") `prefix_of` Path settings_file ->
  (is_dir w (Path (py "build")) = false ->
   forall q, Path (py "build") `prefix_of` q -> fs w !! q = None) ->
  exists (w1 w2 w3 : world) (settings version : json)
         (version_string artifact : pystr),
    let out :=
      path_div (Path (py "build"))
        (py "winDragon_" ++ version_string ++ py ".ps1") in
    let launcher_copy :=
      path_div (Path (py "build")) (path_name (Path (py "launcher.ps1"))) in
    delete_build_directory (py "build") w = (w1, Ok tt)
    /\ read_settings settings_file w1 = (w2, Ok settings)
    /\ getitem settings (py "version") = Ok version
    /\ get_version_string version = Ok version_string
    /\ combine_powershell_scripts source_file modules_folder out w2
       = (w3, Ok tt)
    /\ fs w3 !! out = Some (File artifact)
    /\ (out <> launcher_copy -> fs w' !! out = Some (File artifact))
    /\ (exists t, fs w' !! out = Some (File t))
    /\ (exists t, fs w' !! launcher_copy = Some (File t))
    /\ forall q t,
         Path (py "build") `prefix_of` q ->
         fs w' !! q = Some (File t) ->
         q = out \/ q = launcher_copy.
Proof.
  intros Hm Hsf Hwf.
  destruct (main_steps _ _ Hm)
    as (w1 & w2 & w3 & w4 & w5 & settings & settings' & version
        & version_string & Hdel & Hload & Hver & Hvs & Hcomb & Hadv
        & Hpatch & Hw').
  cbn zeta in *.
  set (out := path_div (Path (py "build"))
                (py "winDragon_" ++ version_string ++ py ".ps1")) in *.
  set (lout := path_div (Path (py "build"))
                 (path_name (Path (py "launcher.ps1")))) in *.
  assert (Hout : Path (py "build") `prefix_of` out)
    by (now apply prefix_app_r).
  assert (Hout_sf : out <> Path settings_file)
    by (intros Heq; apply Hsf; now rewrite <- Heq).
  assert (Hfs' : fs w' = fs w5) by (now rewrite Hw').
  destruct (combine_powershell_scripts_returns _ _ _ _ _ Hcomb)
    as (m & text & st & w2' & _ & _ & _ & Hw3).
  assert (Hart3 : fs w3 !! out = Some (File (join [LF] (snd st))))
    by (rewrite Hw3; apply lookup_insert_eq).
  pose proof (update_build_number_other _ _ out _ _ _ Hadv Hout_sf) as Hart4.
  unfold update_launcher_script in Hpatch.
  apply bind_ok in Hpatch as (w4' & ls & Hread & Hwrite).
  unfold read_file in Hread.
  apply bind_ok in Hread as (w4'' & ltext & Hread & Hret).
  unfold ret in Hret. inversion Hret. subst w4'' ls. clear Hret.
  apply read_text_fs in Hread. apply write_text_returns in Hwrite.
  fold lout in Hwrite.
  assert (Hfs5 : fs w5 = <[lout := File (join [LF]
                                          (updated_lines (path_name out)
                                             (readlines ltext)))]> (fs w4))
    by (rewrite Hwrite; cbn [written log set_fs fs]; now rewrite Hread).
  exists w1, w2, w3, settings, version, version_string,
    (join [LF] (snd st)).
  cbn zeta. fold out lout.
  repeat (split; [assumption|]).
  split; [|split; [|split]].
  - intros Hne. rewrite Hfs', Hfs5, lookup_insert_ne by congruence.
    rewrite Hart4. exact Hart3.
  - rewrite Hfs', Hfs5. destruct (decide (lout = out)) as [->|Hne].
    + eexists. apply lookup_insert_eq.
    + rewrite lookup_insert_ne by exact Hne.
      eexists. rewrite Hart4. exact Hart3.
  - rewrite Hfs', Hfs5. eexists. apply lookup_insert_eq.
  - intros q t Hq Hfile.
    destruct (decide (q = out)) as [|Hne1]; [now left|].
    destruct (decide (q = lout)) as [|Hne2]; [now right|].
    exfalso.
    assert (Hne3 : q <> Path settings_file) by (intros ->; now apply Hsf).
    rewrite Hfs', Hfs5, lookup_insert_ne in Hfile by congruence.
    pose proof (eq_trans
                  (eq_sym (update_build_number_other _ _ q _ _ _ Hadv Hne3))
                  Hfile) as Hfile3.
    apply (combine_powershell_scripts_other _ _ _ q _ _ _ t Hcomb Hne1)
      in Hfile3.
    pose proof (eq_trans
                  (eq_sym (read_settings_other _ q _ _ _ Hload Hne3))
                  Hfile3) as Hfile1.
    replace w1 with (fst (delete_build_directory (py "build") w)) in Hfile1
      by (now rewrite Hdel).
    destruct (delete_build_directory_effect_aux (py "build") w)
      as (_ & Hgone & Hkept).
    destruct (is_dir w (Path (py "build"))) eqn:Edir.
    + discriminate (eq_trans (eq_sym (Hgone eq_refl q Hq)) Hfile1).
    + rewrite (Hkept eq_refl) in Hfile1.
      discriminate (eq_trans (eq_sym (Hwf eq_refl q Hq)) Hfile1).
Qed.

End Run.

(** ** The further properties at work on the example worlds *)

Lemma combine_verbatim_block_witness :
  for_each (@combine_step sample_runtime modules_folder) (false, [py "a"])
    ((py "function Show-Dragon {" ++ [LF])
     :: [import_foo; py "}  " ++ [LF]] ++ [[LF]])
    fresh_project
  = (fresh_project,
     Ok (false,
         [py "a"]
         ++ map rstrip
              ((py "function Show-Dragon {" ++ [LF])
               :: [import_foo; py "}  " ++ [LF]] ++ [[LF]]))).
Proof.
  apply (@combine_verbatim_block sample_runtime);
    [reflexivity| |reflexivity].
  repeat constructor; discriminate.
Defined.

Lemma combine_plain_lines_witness :
  for_each (@combine_step sample_runtime modules_folder) (false, [])
    [py "$a = 1  # one" ++ [LF]; py "# only" ++ [LF]] fresh_project
  = (fresh_project,
     Ok (false,
         [] ++ concat (map (fun l => clean_lines [l])
                         [py "$a = 1  # one" ++ [LF]; py "# only" ++ [LF]]))).
Proof.
  apply (@combine_plain_lines sample_runtime). repeat constructor.
Defined.

Lemma combine_powershell_scripts_files_witness :
  let w' := fst (@combine_powershell_scripts sample_runtime source_file
                   modules_folder [py "build"; py "out.ps1"] fresh_project) in
  (exists (m : gmap path node) (text : pystr) (st : bool * list pystr)
          (w2 : world),
     mkdirs [] (@Path sample_runtime (py "build")) (fs fresh_project) = Some m
     /\ fs fresh_project !! @Path sample_runtime source_file
        = Some (File text)
     /\ for_each (@combine_step sample_runtime modules_folder) (false, [])
          (readlines text)
          (log (ERead (@Path sample_runtime source_file))
             (log (EMkdir (@Path sample_runtime (py "build")))
                (set_fs m fresh_project)))
        = (w2, Ok st)
     /\ fs w' = <[ [py "build"; py "out.ps1"]
                   := File (join [LF] (snd st)) ]> m)
  /\ forall (p : path) (t : pystr),
       p <> [py "build"; py "out.ps1"] ->
       fs w' !! p = Some (File t) <-> fs fresh_project !! p = Some (File t).
Proof.
  apply (@combine_powershell_scripts_files sample_runtime source_file
           modules_folder).
  vm_compute. reflexivity.
Defined.

Lemma combine_powershell_scripts_no_source_witness :
  snd (@combine_powershell_scripts sample_runtime source_file modules_folder
         [py "build"; py "out.ps1"] unversioned_project)
  = Raise OSError.
Proof.
  apply (@combine_powershell_scripts_no_source sample_runtime).
  intros text. vm_compute. discriminate.
Defined.

Lemma read_settings_keeps_version_witness :
  @read_settings (runtime_with [settings_at 7 41]%Z) settings_file
    (settings_text_project (json_dumps (settings_at 7 41)%Z))
  = (log (ERead [py "settings.json"])
       (settings_text_project (json_dumps (settings_at 7 41)%Z)),
     Ok (settings_at 7 41)%Z).
Proof.
  exact (@read_settings_keeps_version (runtime_with [settings_at 7 41]%Z)
           settings_file (json_dumps (settings_at 7 41)%Z) _
           (JDict [(py "major", JInt 2); (py "minor", JInt 1);
                   (py "patch", JInt 7); (py "build", JInt 41)])
           (settings_text_project (json_dumps (settings_at 7 41)%Z))
           eq_refl eq_refl eq_refl).
Defined.

Lemma read_settings_bad_document_witness :
  @read_settings sample_runtime settings_file
    (settings_text_project (py "{oops"))
  = (log (ERead [py "settings.json"]) (settings_text_project (py "{oops")),
     Raise JSONDecodeError)
  /\ @read_settings (runtime_with [JNull]) settings_file
       (settings_text_project (py "null"))
     = (log (ERead [py "settings.json"]) (settings_text_project (py "null")),
        Raise TypeError).
Proof.
  split.
  - exact (proj1 (@read_settings_bad_document sample_runtime settings_file
                    (py "{oops") (settings_text_project (py "{oops"))
                    eq_refl) eq_refl).
  - apply (proj2 (@read_settings_bad_document (runtime_with [JNull])
                    settings_file (py "null")
                    (settings_text_project (py "null")) eq_refl) JNull);
      [reflexivity|discriminate|discriminate].
Defined.

Lemma read_settings_leaves_existing_file_witness :
  fs (fst (@read_settings sample_runtime settings_file
             (settings_text_project (py "{oops"))))
  = fs (settings_text_project (py "{oops")).
Proof.
  apply (@read_settings_leaves_existing_file sample_runtime). reflexivity.
Defined.

Lemma update_build_number_raises_witness :
  @update_build_number sample_runtime settings_file (JDict [])
    fresh_project
  = (fresh_project, Raise KeyError)
  /\ @update_build_number sample_runtime settings_file
       (JDict [(py "version", JDict [(py "build", JStr (py "7"))])])
       fresh_project
     = (fresh_project, Raise TypeError).
Proof.
  split.
  - exact (proj1 (proj2 (@update_build_number_raises sample_runtime
                           settings_file (JDict []) fresh_project))
             [] eq_refl eq_refl).
  - exact (proj2 (proj2 (@update_build_number_raises sample_runtime
                           settings_file
                           (JDict [(py "version",
                                    JDict [(py "build", JStr (py "7"))])])
                           fresh_project))
             (JStr (py "7")) eq_refl eq_refl).
Defined.

Lemma update_build_number_cases_witness :
  let s' := snd_ok (@update_build_number sample_runtime settings_file
                      (settings_at 7 9999)%Z fresh_project) in
  (((9999 < 9999)%Z
    /\ version_field (py "build") s' = Some (JInt (9999 + 1))
    /\ version_field (py "patch") s'
       = version_field (py "patch") (settings_at 7 9999)%Z)
   \/ ((9999 <= 9999)%Z
       /\ version_field (py "build") s' = Some (JInt 0)
       /\ forall (pv : json) (p : Z),
            version_field (py "patch") (settings_at 7 9999)%Z = Some pv ->
            as_int pv = Some p ->
            version_field (py "patch") s' = Some (JInt (p + 1))))
  /\ ((0 <= 9999)%Z ->
      exists b', version_field (py "build") s' = Some (JInt b')
                 /\ (0 <= b' <= 9999)%Z).
Proof.
  apply (@update_build_number_cases sample_runtime settings_file
           (settings_at 7 9999)%Z _ (JInt 9999) 9999%Z fresh_project
           (fst (@update_build_number sample_runtime settings_file
                   (settings_at 7 9999)%Z fresh_project)));
    vm_compute; reflexivity.
Defined.

Lemma settings_round_trip_witness :
  let run := @update_build_number (runtime_with [settings_at 7 42]%Z)
               settings_file (settings_at 7 41)%Z fresh_project in
  @read_settings (runtime_with [settings_at 7 42]%Z) settings_file (fst run)
  = (log (ERead [py "settings.json"]) (fst run), Ok (settings_at 7 42)%Z).
Proof.
  apply (proj1 (@settings_round_trip (runtime_with [settings_at 7 42]%Z)
                  settings_file (settings_at 7 41)%Z (settings_at 7 42)%Z
                  fresh_project
                  (fst (@update_build_number
                          (runtime_with [settings_at 7 42]%Z)
                          settings_file (settings_at 7 41)%Z fresh_project))
                  eq_refl)).
  vm_compute. reflexivity.
Defined.

Lemma get_version_string_returns_witness :
  @get_version_string sample_runtime
    (JDict [(py "major", JInt 2); (py "minor", JInt 1);
            (py "patch", JInt 7); (py "build", JInt 41)])
  = Ok (py "2.1.7.41")
  /\ @get_version_string sample_runtime (JStr (py "2.1.7.41"))
     = Raise TypeError
  /\ @get_version_string sample_runtime
       (JDict [(py "major", JInt 2); (py "minor", JInt 1);
               (py "patch", JInt 7)])
     = Raise KeyError.
Proof.
  split; [|split].
  - apply (proj1 (@get_version_string_returns sample_runtime _ _)).
    exists [(py "major", JInt 2); (py "minor", JInt 1);
            (py "patch", JInt 7); (py "build", JInt 41)],
      (JInt 2), (JInt 1), (JInt 7), (JInt 41).
    repeat split; reflexivity.
  - apply (proj1 (proj2 (@get_version_string_returns sample_runtime
                           (JStr (py "2.1.7.41")) []))).
    discriminate.
  - apply (proj2 (proj2 (@get_version_string_returns sample_runtime
                           (JDict [(py "major", JInt 2); (py "minor", JInt 1);
                                   (py "patch", JInt 7)]) []))
             [(py "major", JInt 2); (py "minor", JInt 1);
              (py "patch", JInt 7)] eq_refl).
    right. right. right. reflexivity.
Defined.

Lemma version_string_injective_witness :
  (2 = 2 /\ 1 = 1 /\ 7 = 7 /\ 41 = 41)%Z.
Proof.
  exact (@version_string_injective sample_runtime
           [(py "major", JInt 2); (py "minor", JInt 1);
            (py "patch", JInt 7); (py "build", JInt 41)]
           [(py "build", JInt 41); (py "patch", JInt 7);
            (py "minor", JInt 1); (py "major", JInt 2)]
           2 1 7 41 2 1 7 41
           eq_refl eq_refl eq_refl eq_refl eq_refl eq_refl eq_refl eq_refl
           eq_refl).
Defined.

Lemma delete_build_directory_effect_witness :
  fs (fst (@delete_build_directory sample_runtime (py "build")
             stale_build_project))
    !! [py "build"; py "winDragon_0.9.0.3.ps1"] = None.
Proof.
  apply (proj1 (proj2 (@delete_build_directory_effect sample_runtime
                         (py "build") stale_build_project)));
    [reflexivity|].
  exists [py "winDragon_0.9.0.3.ps1"]. reflexivity.
Defined.

Lemma ensure_directory_exists_effect_witness :
  is_dir (fst (@ensure_directory_exists sample_runtime (py "build")
                 fresh_project)) [py "build"] = true
  /\ @ensure_directory_exists sample_runtime (py "build")
       blocked_build_project
     = (blocked_build_project, Raise OSError).
Proof.
  split.
  - apply (proj1 (proj1 (@ensure_directory_exists_effect sample_runtime
                           (py "build") fresh_project) _ eq_refl)).
    + exists []. reflexivity.
    + discriminate.
  - apply (proj2 (@ensure_directory_exists_effect sample_runtime
                    (py "build") blocked_build_project)
             [py "build"] (py "not a directory")).
    + exists []. reflexivity.
    + reflexivity.
    + discriminate.
Defined.

Lemma update_launcher_script_effect_witness :
  @update_launcher_script sample_runtime (py "launcher.ps1")
    [py "build"; py "winDragon_1.0.0.0.ps1"] unversioned_project
  = (unversioned_project, Raise OSError)
  /\ exists text,
       fs stale_build_project !! [py "launcher.ps1"] = Some (File text)
       /\ fs (fst (@update_launcher_script sample_runtime
                     (py "launcher.ps1")
                     [py "build"; py "winDragon_1.0.0.0.ps1"]
                     stale_build_project))
          = <[ [py "build"; py "launcher.ps1"]
               := File (join [LF]
                          (updated_lines (py "winDragon_1.0.0.0.ps1")
                             (readlines text))) ]>
              (fs stale_build_project).
Proof.
  split.
  - apply (proj1 (@update_launcher_script_effect sample_runtime
                    (py "launcher.ps1")
                    [py "build"; py "winDragon_1.0.0.0.ps1"]
                    unversioned_project)).
    intros text. vm_compute. discriminate.
  - apply (proj2 (@update_launcher_script_effect sample_runtime
                    (py "launcher.ps1")
                    [py "build"; py "winDragon_1.0.0.0.ps1"]
                    stale_build_project)).
    vm_compute. reflexivity.
Defined.

Lemma main_leaves_sources_witness :
  fs (fst (@main sample_runtime stale_build_project)) !! [py "launcher.ps1"]
    = Some (File launcher_text)
  <-> fs stale_build_project !! [py "launcher.ps1"]
      = Some (File launcher_text).
Proof.
  apply (@main_leaves_sources sample_runtime stale_build_project).
  - intros [k Hk]. vm_compute in Hk. discriminate Hk.
  - vm_compute. discriminate.
Defined.

Lemma main_build_directory_contents_witness :
  let w' := fst (@main sample_runtime stale_build_project) in
  exists (w1 w2 w3 : world) (settings version : json)
         (version_string artifact : pystr),
    let out :=
      @path_div sample_runtime (@Path sample_runtime (py "build"))
        (py "winDragon_" ++ version_string ++ py ".ps1") in
    let launcher_copy :=
      @path_div sample_runtime (@Path sample_runtime (py "build"))
        (path_name (@Path sample_runtime (py "launcher.ps1"))) in
    @delete_build_directory sample_runtime (py "build") stale_build_project
      = (w1, Ok tt)
    /\ @read_settings sample_runtime settings_file w1 = (w2, Ok settings)
    /\ getitem settings (py "version") = Ok version
    /\ @get_version_string sample_runtime version = Ok version_string
    /\ @combine_powershell_scripts sample_runtime source_file modules_folder
         out w2
       = (w3, Ok tt)
    /\ fs w3 !! out = Some (File artifact)
    /\ (out <> launcher_copy -> fs w' !! out = Some (File artifact))
    /\ (exists t, fs w' !! out = Some (File t))
    /\ (exists t, fs w' !! launcher_copy = Some (File t))
    /\ forall q t,
         @Path sample_runtime (py "build") `prefix_of` q ->
         fs w' !! q = Some (File t) ->
         q = out \/ q = launcher_copy.
Proof.
  apply (@main_build_directory_contents sample_runtime stale_build_project).
  - vm_compute. reflexivity.
  - intros [k Hk]. vm_compute in Hk. discriminate Hk.
  - intros Hdir. vm_compute in Hdir. discriminate Hdir.
Defined.

Lemma module_match_sound_witness :
  import_path (py "C:" ++ [BACKSLASH] ++ py "proj" ++ modules_segment
               ++ py "Foo.ps1").
Proof.
  exact (proj1 (module_match_sound import_foo _ eq_refl)).
Defined.

Lemma module_match_complete_witness :
  module_match (DOT :: [SPACE; 9%N]
                ++ (py "C:" ++ modules_segment ++ py "a.ps1") ++ [LF])
  = Some (lstrip (py "C:" ++ modules_segment ++ py "a.ps1")).
Proof.
  apply module_match_complete;
    [discriminate|reflexivity| |now right].
  split; [reflexivity|]. now exists (py "C:"), (py "a").
Defined.

(** ** The lines of a module in the written artifact *)

Section Artifact.

Context `{Runtime}.

Lemma combine_step_appends (mf : pystr) (st st' : bool * list pystr)
  (line : pystr) (w w' : world) :
  combine_step mf st line w = (w', Ok st') ->
  exists added, snd st' = snd st ++ added.
Proof.
  destruct st as [flag combined]. unfold combine_step.
  destruct (if contains function_show_dragon line then true else flag).
  { unfold ret. intros Hs. inversion Hs. now eexists. }
  destruct (module_match line) as [g|].
  - intros Hs. apply bind_ok in Hs as (w1 & present & Hex & Hs).
    destruct present.
    + apply bind_ok in Hs as (w2 & ls & Hread & Hret).
      unfold ret in Hret. inversion Hret. now eexists.
    + unfold ret in Hs. inversion Hs. exists []. cbn [snd].
      now rewrite app_nil_r.
  - unfold ret. intros Hs. inversion Hs. now eexists.
Qed.

Lemma combine_loop_appends (mf : pystr) (lines : list pystr)
  (st st' : bool * list pystr) (w w' : world) :
  for_each (combine_step mf) st lines w = (w', Ok st') ->
  exists added, snd st' = snd st ++ added.
Proof.
  revert st w. induction lines as [|l lines IH]; intros st w; cbn [for_each].
  - unfold ret. intros Hs. inversion Hs. exists []. now rewrite app_nil_r.
  - intros Hs. apply bind_ok in Hs as (w1 & st1 & Hstep & Hrest).
    apply combine_step_appends in Hstep as (a1 & H1).
    apply IH in Hrest as (a2 & H2).
    exists (a1 ++ a2). now rewrite H2, H1, <- app_assoc.
Qed.

Lemma combine_step_import (mf line g text : pystr) (combined : list pystr)
  (w : world) :
  contains function_show_dragon line = false ->
  module_match line = Some g ->
  fs w !! path_div (Path mf) (path_name (Path g)) = Some (File text) ->
  combine_step mf (false, combined) line w
    = (log (ERead (path_div (Path mf) (path_name (Path g)))) w,
       Ok (false, combined ++ readlines text)).
Proof.
  intros Hfun Hmatch Hfile.
  unfold combine_step. rewrite Hfun, Hmatch.
  unfold read_file, bind, exists_, ret, path_exists.
  rewrite Hfile, bool_decide_eq_true_2 by eauto.
  now rewrite (read_text_ok _ _ _ Hfile).
Qed.

Lemma join_line_feed_middle (before after : list pystr) (body : pystr) :
  after <> [] ->
  join [LF] (before ++ (body ++ [LF]) :: after)
  = join [LF] (before ++ [body]) ++ [LF; LF] ++ join [LF] after.
Proof.
  intros Hafter. rewrite (join_middle [LF] _ before after Hafter).
  destruct before as [|x before].
  - cbn [app join]. now rewrite <- !app_assoc.
  - rewrite !join_snoc by discriminate. now rewrite <- !app_assoc.
Qed.

Lemma join_line_feed_last (before : list pystr) (body : pystr) :
  join [LF] (before ++ [body ++ [LF]])
  = join [LF] (before ++ [body]) ++ [LF].
Proof.
  destruct before as [|x before]; [reflexivity|].
  rewrite !join_snoc by discriminate. now rewrite <- !app_assoc.
Qed.

Lemma join_app (sep : pystr) (before after : list pystr) :
  before <> [] -> after <> [] ->
  join sep (before ++ after) = join sep before ++ sep ++ join sep after.
Proof.
  intros Hbefore Hafter. destruct after as [|p after]; [congruence|].
  destruct after as [|q after].
  - now apply join_snoc.
  - rewrite join_middle by discriminate.
    rewrite join_snoc by exact Hbefore.
    rewrite (join_cons sep p (q :: after)) by discriminate.
    now rewrite <- !app_assoc.
Qed.

Lemma join_segment (sep : pystr) (before segment after : list pystr) :
  segment <> [] ->
  join sep (before ++ segment ++ after)
  = match before with [] => [] | _ :: _ => join sep before ++ sep end
    ++ join sep segment
    ++ match after with [] => [] | _ :: _ => sep ++ join sep after end.
Proof.
  intros Hseg.
  assert (Htail : join sep (segment ++ after)
                  = join sep segment
                    ++ match after with
                       | [] => []
                       | _ :: _ => sep ++ join sep after
                       end).
  { destruct after as [|a after].
    - now rewrite !app_nil_r.
    - now apply join_app. }
  destruct before as [|b before].
  - exact Htail.
  - rewrite join_app; [|discriminate|destruct segment; [congruence|discriminate]].
    rewrite Htail. now rewrite <- !app_assoc.
Qed.

(** C10, as the code has it.  Take a run of the Combiner that returns,
    on a main script whose lines are [pre], then an import line met
    outside the verbatim block, then [post], the entries gathered from
    [pre] being [acc], and the imported module file holding [text].
    The lines read from the module keep their line feed (every line but
    the last ends in one), they are appended to [acc] as they were read,
    and the file written is the entries joined by one line feed.  So in
    the written artifact a module line that ends in a line feed and has
    an entry after it is followed by a second line feed, an empty line,
    while a module line that is the last entry is followed by its own
    line feed and nothing more.  The module's lines stand in the
    artifact as one stretch, the lines joined by a line feed, and for a
    module of two lines or more that stretch is not the text of the
    module file. *)
Theorem module_lines_keep_line_feed
  (src mf line g main_text text : pystr) (out : path)
  (pre post acc : list pystr) (m : gmap path node) (w w' w2 : world) :
  combine_powershell_scripts src mf out w = (w', Ok tt) ->
  mkdirs [] (Path (py "build")) (fs w) = Some m ->
  fs w !! Path src = Some (File main_text) ->
  readlines main_text = pre ++ line :: post ->
  for_each (combine_step mf) (false, []) pre
    (log (ERead (Path src)) (log (EMkdir (Path (py "build"))) (set_fs m w)))
  = (w2, Ok (false, acc)) ->
  contains function_show_dragon line = false ->
  module_match line = Some g ->
  fs w !! path_div (Path mf) (path_name (Path g)) = Some (File text) ->
  Forall (fun l => terminated l = true) (removelast (readlines text))
  /\ (exists (rest : list pystr) (flag : bool) (w3 : world),
        for_each (combine_step mf) (false, acc ++ readlines text) post
          (log (ERead (path_div (Path mf) (path_name (Path g)))) w2)
        = (w3, Ok (flag, acc ++ readlines text ++ rest))
        /\ fs w' !! out
           = Some (File (join [LF] (acc ++ readlines text ++ rest)))
        /\ (forall (ls1 ls2 : list pystr) (body : pystr),
              readlines text = ls1 ++ (body ++ [LF]) :: ls2 ->
              ls2 ++ rest <> [] ->
              join [LF] (acc ++ readlines text ++ rest)
              = join [LF] (acc ++ ls1 ++ [body]) ++ [LF; LF]
                ++ join [LF] (ls2 ++ rest))
        /\ (forall (ls1 : list pystr) (body : pystr),
              readlines text = ls1 ++ [body ++ [LF]] ->
              rest = [] ->
              join [LF] (acc ++ readlines text ++ rest)
              = join [LF] (acc ++ ls1 ++ [body]) ++ [LF])
        /\ (readlines text <> [] ->
            join [LF] (acc ++ readlines text ++ rest)
            = match acc with
              | [] => []
              | _ :: _ => join [LF] acc ++ [LF]
              end
              ++ join [LF] (readlines text)
              ++ match rest with
                 | [] => []
                 | _ :: _ => [LF] ++ join [LF] rest
                 end))
  /\ (2 <= length (readlines text) ->
      join [LF] (readlines text) <> universal_newlines text).
Proof.
  intros Hrun Hmk Hsrc Hlines Hpre Hfun Hmatch Hmod.
  split; [apply readlines_shape|split].
  - destruct (combine_powershell_scripts_returns _ _ _ _ _ Hrun)
      as (m' & text' & st & w4 & Hmk' & Hsrc' & Hloop & Hw').
    rewrite Hmk in Hmk'. inversion Hmk'. subst m'. clear Hmk'.
    apply (mkdirs_files _ _ _ _ _ _ Hmk) in Hsrc'.
    rewrite Hsrc in Hsrc'. inversion Hsrc'. subst text'. clear Hsrc'.
    rewrite Hlines, for_each_app in Hloop. unfold bind at 1 in Hloop.
    rewrite Hpre in Hloop. cbn [for_each] in Hloop.
    unfold bind at 1 in Hloop.
    assert (Hmod2 : fs w2 !! path_div (Path mf) (path_name (Path g))
                    = Some (File text)).
    { rewrite (combine_loop_fs _ _ _ _ _ _ Hpre). cbn [log set_fs fs].
      now apply (mkdirs_files _ _ _ _ _ _ Hmk). }
    rewrite (combine_step_import _ _ _ _ _ _ Hfun Hmatch Hmod2) in Hloop.
    destruct st as [flag entries].
    destruct (combine_loop_appends _ _ _ _ _ _ Hloop) as (rest & Hrest).
    cbn [snd] in Hrest. subst entries.
    exists rest, flag, w4. rewrite <- app_assoc in Hloop.
    split; [exact Hloop|]. split; [|split; [|split]];
      [| | |now apply join_segment].
    + rewrite Hw'. cbn [written log set_fs fs snd].
      rewrite <- app_assoc. apply lookup_insert_eq.
    + intros ls1 ls2 body Htext Hafter. rewrite Htext.
      replace (acc ++ (ls1 ++ (body ++ [LF]) :: ls2) ++ rest)
        with ((acc ++ ls1) ++ (body ++ [LF]) :: (ls2 ++ rest))
        by (now rewrite <- !app_assoc).
      rewrite (join_line_feed_middle _ _ _ Hafter).
      now rewrite <- app_assoc.
    + intros ls1 body Htext ->. rewrite Htext, app_nil_r.
      replace (acc ++ ls1 ++ [body ++ [LF]])
        with ((acc ++ ls1) ++ [body ++ [LF]])
        by (now rewrite <- app_assoc).
      rewrite join_line_feed_last. now rewrite <- app_assoc.
  - intros Hlen Heq. apply (f_equal (@length N)) in Heq.
    rewrite join_length, <- readlines_concat in Heq. simpl in Heq. lia.
Qed.

End Artifact.

Lemma module_lines_keep_line_feed_witness :
  let w := posix_project in
  let out := [py "build"; py "out.ps1"] in
  let modpath := [py "Modules"; py "Foo.ps1"] in
  let w1 := log (ERead [py "winDragon.ps1"])
              (log (EMkdir [py "build"])
                 (set_fs (<[ [py "build"] := Dir ]> (fs w)) w)) in
  let w' := fst (@combine_powershell_scripts posix_runtime source_file
                   modules_folder out w) in
  let acc := [py "$a = 1"] in
  Forall (fun l => terminated l = true) (removelast (readlines foo_text))
  /\ (exists (rest : list pystr) (flag : bool) (w3 : world),
        for_each (@combine_step posix_runtime modules_folder)
          (false, acc ++ readlines foo_text) [py "Start-Backup"]
          (log (ERead modpath) w1)
        = (w3, Ok (flag, acc ++ readlines foo_text ++ rest))
        /\ fs w' !! out
           = Some (File (join [LF] (acc ++ readlines foo_text ++ rest)))
        /\ (forall (ls1 ls2 : list pystr) (body : pystr),
              readlines foo_text = ls1 ++ (body ++ [LF]) :: ls2 ->
              ls2 ++ rest <> [] ->
              join [LF] (acc ++ readlines foo_text ++ rest)
              = join [LF] (acc ++ ls1 ++ [body]) ++ [LF; LF]
                ++ join [LF] (ls2 ++ rest))
        /\ (forall (ls1 : list pystr) (body : pystr),
              readlines foo_text = ls1 ++ [body ++ [LF]] ->
              rest = [] ->
              join [LF] (acc ++ readlines foo_text ++ rest)
              = join [LF] (acc ++ ls1 ++ [body]) ++ [LF])
        /\ (readlines foo_text <> [] ->
            join [LF] (acc ++ readlines foo_text ++ rest)
            = match acc with
              | [] => []
              | _ :: _ => join [LF] acc ++ [LF]
              end
              ++ join [LF] (readlines foo_text)
              ++ match rest with
                 | [] => []
                 | _ :: _ => [LF] ++ join [LF] rest
                 end))
  /\ (2 <= length (readlines foo_text) ->
      join [LF] (readlines foo_text) <> universal_newlines foo_text).
Proof.
  cbv zeta.
  apply (@module_lines_keep_line_feed posix_runtime source_file
           modules_folder import_sub_foo
           (py "C:" ++ [BACKSLASH] ++ py "proj" ++ modules_segment
            ++ py "sub/Foo.ps1")
           (text_of [py "$a = 1  # one"] ++ import_sub_foo
            ++ py "Start-Backup")
           foo_text [py "build"; py "out.ps1"]
           [py "$a = 1  # one" ++ [LF]] [py "Start-Backup"]
           [py "$a = 1"]
           (<[ [py "build"] := Dir ]> (fs posix_project))
           posix_project);
    vm_compute; reflexivity.
Defined.

(** C10, counterexample: under POSIX, a one-line module inlined by a
    main script that holds nothing but its import is written byte for
    byte; its line is followed by no empty line. *)
Lemma one_line_module_is_copied_exactly :
  let run := @combine_powershell_scripts posix_runtime source_file
               modules_folder [py "build"; py "out.ps1"]
               posix_one_line_project in
  module_match import_sub_foo
    = Some (py "C:" ++ [BACKSLASH] ++ py "proj" ++ modules_segment
            ++ py "sub/Foo.ps1")
  /\ @path_name
       (@Path posix_runtime
          (py "C:" ++ [BACKSLASH] ++ py "proj" ++ modules_segment
           ++ py "sub/Foo.ps1"))
     = py "Foo.ps1"
  /\ snd run = Ok tt
  /\ fs (fst run) !! [py "build"; py "out.ps1"]
     = Some (File (py "X" ++ [LF]))
  /\ fs posix_one_line_project !! [py "Modules"; py "Foo.ps1"]
     = Some (File (py "X" ++ [LF])).
Proof. vm_compute. repeat split. Qed.
